(** * The persistent announcement scheduler of bhangra-bot

    A shallow embedding of [src/utils/task_scheduler.py] (class
    [TaskScheduler]) and the properties of its store, its trigger
    construction, its recovery loop and its firing callback.

    Python values read from the announcements file are JSON values, a Python
    exception is a value of [exn], and every method of [TaskScheduler] is a
    computation in a state-and-exception monad over the [World]: the files
    under [data/], the APScheduler job table, the log and the messages sent
    to Discord.  Side effects performed before an exception is raised stay
    in the world, as they do in Python. *)

From Stdlib Require Import ZArith List String Ascii Bool Lia.
From stdpp Require Import gmap strings pretty.

Set Warnings "-register-all".
Open Scope string_scope.
Open Scope Z_scope.

(** ** Python values *)

(** What [json.loads] produces.  Numbers are restricted to integers: the
    scheduler only stores [role_id] and [created_by], both integers, and
    never computes with a number. *)
Inductive json : Type :=
| JNull
| JBool (b : bool)
| JInt (n : Z)
| JStr (s : string)
| JList (items : list json)
| JObj (fields : list (string * json)).

(** The subclasses of [Exception] that the modelled operations raise.  All
    of them are caught by [except Exception]. *)
Inductive exn : Type :=
| KeyError (key : string)
| TypeError
| ValueError
| AttributeError
| OSError
| JobLookupError (job_id : json)
| SchedulerAlreadyRunningError
| HTTPException.

Inductive result (A : Type) : Type :=
| Ok (a : A)
| Raise (e : exn).
Arguments Ok {A} a.
Arguments Raise {A} e.

(** [d[k]] lookup in a dict kept in insertion order. *)
Fixpoint dict_find (k : string) (d : list (string * json)) : option json :=
  match d with
  | [] => None
  | (k', v) :: d' => if String.eqb k' k then Some v else dict_find k d'
  end.

(** [v[k]] with a string subscript: [KeyError] on a dict without the key,
    [TypeError] on anything that is not a dict. *)
Definition py_getitem (v : json) (k : string) : result json :=
  match v with
  | JObj d => match dict_find k d with
              | Some x => Ok x
              | None => Raise (KeyError k)
              end
  | _ => Raise TypeError
  end.

(** [v.get(k, default)]: only dicts have [get]. *)
Definition py_get (v : json) (k : string) (default : json) : result json :=
  match v with
  | JObj d => match dict_find k d with
              | Some x => Ok x
              | None => Ok default
              end
  | _ => Raise AttributeError
  end.

(** [v == s] for a string literal [s]: only an equal string is equal. *)
Definition py_eq_str (v : json) (s : string) : bool :=
  match v with
  | JStr s' => String.eqb s' s
  | _ => false
  end.

(** The items a [for] loop or a comprehension visits. *)
Definition py_iter (v : json) : result (list json) :=
  match v with
  | JList l => Ok l
  | JObj d => Ok (map (fun kv => JStr (fst kv)) d)
  | JStr s => Ok (map (fun c => JStr (String c EmptyString)) (list_ascii_of_string s))
  | _ => Raise TypeError
  end.

(** [len(v)]. *)
Definition py_len (v : json) : result Z :=
  match v with
  | JList l => Ok (Z.of_nat (length l))
  | JObj d => Ok (Z.of_nat (length d))
  | JStr s => Ok (Z.of_nat (String.length s))
  | _ => Raise TypeError
  end.

(** Truth value of an object, as tested by [if not v]. *)
Definition py_truthy (v : json) : bool :=
  match v with
  | JNull => false
  | JBool b => b
  | JInt n => negb (n =? 0)
  | JStr s => negb (String.eqb s "")
  | JList l => match l with [] => false | _ => true end
  | JObj d => match d with [] => false | _ => true end
  end.

(** [v.append(x)]: only lists have [append]. *)
Definition py_append (v : json) (x : json) : result json :=
  match v with
  | JList l => Ok (JList (l ++ [x]))
  | _ => Raise AttributeError
  end.

(** ** Datetimes

    The calendar fields of a [datetime].  Whether a datetime is aware (has
    a [tzinfo]) is told by the function that read it from a text, see
    [is_aware] and [dateutil_aware] below; [datetime.now()] is naive. *)

Record datetime : Type := mkDatetime {
  year : Z; month : Z; day : Z;
  hour : Z; minute : Z; second : Z; microsecond : Z
}.

(** [a < b] on two naive datetimes: lexicographic on the seven fields. *)
Fixpoint lex_ltb (a b : list Z) : bool :=
  match a, b with
  | x :: a', y :: b' => (x <? y) || ((x =? y) && lex_ltb a' b')
  | _, _ => false
  end.

Definition dt_fields (t : datetime) : list Z :=
  [year t; month t; day t; hour t; minute t; second t; microsecond t].

Definition dt_ltb (a b : datetime) : bool := lex_ltb (dt_fields a) (dt_fields b).

(** [a <= b] on two naive datetimes. *)
Definition dt_leb (a b : datetime) : bool := negb (dt_ltb b a).

(** [date.weekday()], Monday is 0, computed as Python's datetime module
    does, from the proleptic Gregorian ordinal. *)
Definition _is_leap (y : Z) : bool :=
  (y mod 4 =? 0) && (negb (y mod 100 =? 0) || (y mod 400 =? 0)).

Definition _days_before_year (y : Z) : Z :=
  let y' := y - 1 in y' * 365 + y' / 4 - y' / 100 + y' / 400.

Definition _DAYS_BEFORE_MONTH : list Z :=
  [-1; 0; 31; 59; 90; 120; 151; 181; 212; 243; 273; 304; 334].

Definition _days_before_month (y m : Z) : Z :=
  nth (Z.to_nat m) _DAYS_BEFORE_MONTH 0
  + (if (2 <? m) && _is_leap y then 1 else 0).

Definition _ymd2ord (y m d : Z) : Z :=
  _days_before_year y + _days_before_month y m + d.

Definition toordinal (t : datetime) : Z := _ymd2ord (year t) (month t) (day t).

Definition weekday (t : datetime) : Z := (toordinal t + 6) mod 7.


(** ** APScheduler triggers and jobs *)

(** The triggers [_schedule_job] builds: [DateTrigger(run_date=...)] and
    [CronTrigger(...)] with [hour] and [minute] always given and [day],
    [day_of_week] given or left out. *)
Inductive Trigger : Type :=
| DateTrigger (run_date : datetime)
| CronTrigger (day : option Z) (day_of_week : option Z) (hour minute : Z).

(** A field that is left out of a cron trigger matches every value. *)
Definition cron_field (f : option Z) (x : Z) : bool :=
  match f with
  | None => true
  | Some v => x =? v
  end.

(** The instants at which a trigger fires.  A date trigger fires at its run
    date only.  A cron trigger fires when every given field matches; the
    fields below the least significant given one, here the seconds, take
    their minimum value. *)
Definition fires_at (tr : Trigger) (t : datetime) : bool :=
  match tr with
  | DateTrigger d =>
      forallb (fun p => fst p =? snd p) (combine (dt_fields t) (dt_fields d))
  | CronTrigger d dow h m =>
      cron_field d (day t) && cron_field dow (weekday t)
      && (hour t =? h) && (minute t =? m)
      && (second t =? 0) && (microsecond t =? 0)
  end.

(** A job added with [add_job(self._execute_announcement, trigger=...,
    id=..., args=[announcement_id])]; the job table is keyed by [id]. *)
Record Job : Type := mkJob {
  job_trigger : Trigger;
  job_args : list string
}.

(** ** The log *)

Inductive Level : Type := DEBUG | INFO | WARNING | ERROR.

(** A log record: its level, the f-string with [{}] for each interpolated
    value, the interpolated values, and the exception it reports, if any. *)
Record LogRecord : Type := mkLog {
  log_level : Level;
  log_format : string;
  log_args : list json;
  log_exc : option exn
}.

(** ** The platform

    The library functions the scheduler calls and whose code is not part of
    the repository: the JSON codec, the ISO-8601 conversions of [datetime]
    and the conversion of a value to text inside an f-string.  [bytes] is
    what a file holds.  [datetime.fromisoformat(s)] is given by two
    functions: [fromisoformat s] has its calendar fields, and [is_aware s]
    tells whether it is aware, which it is when [s] ends in a UTC offset
    such as [+00:00]. *)
Class Platform : Type := {
  bytes : Type;
  json_loads : bytes -> result json;
  json_dumps : json -> bytes;
  fromisoformat : string -> result datetime;
  is_aware : string -> bool;
  isoformat : datetime -> string;
  py_format : json -> string
}.

(** [t < now] and [t <= now], where [now] is the naive [datetime.now()]:
    comparing an aware datetime with a naive one raises [TypeError]. *)
Definition lt_now (aware : bool) (t now : datetime) : result bool :=
  if aware then Raise TypeError else Ok (dt_ltb t now).

Definition le_now (aware : bool) (t now : datetime) : result bool :=
  if aware then Raise TypeError else Ok (dt_leb t now).

(** ** The world *)

Definition ANNOUNCEMENTS_FILE : string := "data/announcements.json".
Definition BACKUP_FILE : string := "data/announcements.json.bak".

Section Scheduler.
Context `{P : Platform}.

(** The files, APScheduler's state, the log, and the messages delivered to
    Discord channels (channel id and text), oldest first. *)
Record World : Type := mkWorld {
  fs : gmap string bytes;
  running : bool;
  jobs : gmap string Job;
  log : list LogRecord;
  sent : list (Z * string)
}.

Definition with_fs (f : gmap string bytes -> gmap string bytes) (w : World) : World :=
  mkWorld (f (fs w)) (running w) (jobs w) (log w) (sent w).
Definition with_running (b : bool) (w : World) : World :=
  mkWorld (fs w) b (jobs w) (log w) (sent w).
Definition with_jobs (f : gmap string Job -> gmap string Job) (w : World) : World :=
  mkWorld (fs w) (running w) (f (jobs w)) (log w) (sent w).
Definition with_log (r : LogRecord) (w : World) : World :=
  mkWorld (fs w) (running w) (jobs w) (log w ++ [r]) (sent w).
Definition with_sent (m : Z * string) (w : World) : World :=
  mkWorld (fs w) (running w) (jobs w) (log w) (sent w ++ [m]).

(** ** The monad of the scheduler's methods *)

Definition M (A : Type) : Type := World -> result A * World.

Definition ret {A} (a : A) : M A := fun w => (Ok a, w).

Definition raise {A} (e : exn) : M A := fun w => (Raise e, w).

Definition bind {A B} (c : M A) (k : A -> M B) : M B :=
  fun w => match c w with
           | (Ok a, w') => k a w'
           | (Raise e, w') => (Raise e, w')
           end.

(** A pure operation that may raise. *)
Definition lift {A} (r : result A) : M A := fun w => (r, w).

(** [try: c  except Exception as e: h e]. *)
Definition try_except {A} (c : M A) (h : exn -> M A) : M A :=
  fun w => match c w with
           | (Ok a, w') => (Ok a, w')
           | (Raise e, w') => h e w'
           end.

Notation "'let*' x ':=' c 'in' k" := (bind c (fun x => k))
  (at level 10, x name, c at level 100, k at level 200).
Notation "c '>>' k" := (bind c (fun _ => k))
  (at level 90, right associativity).

Definition logger (lvl : Level) (fmt : string) (args : list json) (exc : option exn) : M unit :=
  fun w => (Ok tt, with_log (mkLog lvl fmt args exc) w).

(** ** The environment of one call

    What the operating system, the clock, the process environment and
    Discord answer during one call of a method. *)

(** Injected failures of the file operations, one per call site:
    [aiofiles.open(..., 'r')] and [read] (lines 229-230),
    [os.remove(BACKUP_FILE)] (243), [os.rename(file, BACKUP_FILE)] (244),
    [aiofiles.open(temp_file, 'w')] and [write] (250-251) together with what
    the failed write leaves in the temporary file,
    [os.rename(temp_file, file)] (253) and
    [os.rename(BACKUP_FILE, file)] (260). *)
Record Faults : Type := mkFaults {
  fault_read : option exn;
  fault_remove_backup : option exn;
  fault_make_backup : option exn;
  fault_write_temp : option (exn * option bytes);
  fault_swap : option exn;
  fault_restore : option exn
}.

Definition no_faults : Faults := mkFaults None None None None None None.

(** A Discord text channel: [channel.guild.get_role(role_id)] answers the
    role's mention or [None], [channel.send(message)] may raise. *)
Record Channel : Type := mkChannel {
  channel_id : Z;
  guild_get_role : json -> result (option string);
  channel_send : string -> option exn
}.

Record Env : Type := mkEnv {
  now : datetime;                        (* datetime.now() *)
  uuid4 : string;                        (* str(uuid.uuid4()) *)
  ANNOUNCEMENT_CHANNEL_ID : result Z;    (* int(os.getenv('ANNOUNCEMENT_CHANNEL_ID')) *)
  get_channel : Z -> option Channel;     (* self.bot.get_channel *)
  faults : Faults
}.

(** ** File operations *)

Definition path_exists (p : string) : M bool :=
  fun w => (Ok (match fs w !! p with Some _ => true | None => false end), w).

Definition os_remove (fault : option exn) (p : string) : M unit :=
  fun w => match fault with
           | Some e => (Raise e, w)
           | None => match fs w !! p with
                     | Some _ => (Ok tt, with_fs (delete p) w)
                     | None => (Raise OSError, w)
                     end
           end.

(** [os.rename(src, dst)], replacing [dst] when it exists. *)
Definition os_rename (fault : option exn) (src dst : string) : M unit :=
  fun w => match fault with
           | Some e => (Raise e, w)
           | None => match fs w !! src with
                     | Some b => (Ok tt, with_fs (fun m => <[dst := b]> (delete src m)) w)
                     | None => (Raise OSError, w)
                     end
           end.

Definition read_text (fault : option exn) (p : string) : M bytes :=
  fun w => match fault with
           | Some e => (Raise e, w)
           | None => match fs w !! p with
                     | Some b => (Ok b, w)
                     | None => (Raise OSError, w)
                     end
           end.

Definition write_text (fault : option (exn * option bytes)) (p : string) (b : bytes) : M unit :=
  fun w => match fault with
           | Some (e, Some partial) => (Raise e, with_fs (insert p partial) w)
           | Some (e, None) => (Raise e, w)
           | None => (Ok tt, with_fs (insert p b) w)
           end.

(** ** APScheduler operations *)

(** [scheduler.start()]. *)
Definition scheduler_start : M unit :=
  fun w => if running w then (Raise SchedulerAlreadyRunningError, w)
           else (Ok tt, with_running true w).

(** [scheduler.remove_job(job_id)]: [JobLookupError] when there is no such
    job. *)
Definition remove_job (job_id : json) : M unit :=
  fun w => match job_id with
           | JStr s => match jobs w !! s with
                       | Some _ => (Ok tt, with_jobs (delete s) w)
                       | None => (Raise (JobLookupError job_id), w)
                       end
           | _ => (Raise (JobLookupError job_id), w)
           end.

(** [scheduler.add_job(self._execute_announcement, trigger=trigger, id=job_id,
    args=[job_id], replace_existing=True)]: the id has to be a string, and
    the job is filed under it.  (APScheduler files a job under the id it
    is given when that id is not empty, and makes one up otherwise: the
    properties that read the job table at a record's id take the id to be
    non-empty.) *)
Definition add_job (trigger : Trigger) (job_id : json) : M unit :=
  fun w => match job_id with
           | JStr s => (Ok tt, with_jobs (insert s (mkJob trigger [s])) w)
           | _ => (Raise TypeError, w)
           end.

(** ** The store: [_load_announcements], [_write_announcements],
    [_save_announcement] *)

Definition temp_file : string := ANNOUNCEMENTS_FILE +:+ ".tmp".

(** Lines 223-235. *)
Definition _load_announcements (env : Env) : M json :=
  try_except
    (let* present := path_exists ANNOUNCEMENTS_FILE in
     if negb present then ret (JList [])
     else
       let* content := read_text (fault_read (faults env)) ANNOUNCEMENTS_FILE in
       let* data := lift (json_loads content) in
       lift (py_get data "announcements" (JList [])))
    (fun e =>
       logger ERROR "Error loading announcements: {}" [] (Some e) >>
       ret (JList [])).

(** Lines 237-261. *)
Definition _write_announcements (env : Env) (announcements : json) : M unit :=
  try_except
    ((let* present := path_exists ANNOUNCEMENTS_FILE in
      if present then
        (let* old := path_exists BACKUP_FILE in
         if old then os_remove (fault_remove_backup (faults env)) BACKUP_FILE
         else ret tt) >>
        os_rename (fault_make_backup (faults env)) ANNOUNCEMENTS_FILE BACKUP_FILE
      else ret tt) >>
     let data := JObj [("announcements", announcements)] in
     write_text (fault_write_temp (faults env)) temp_file (json_dumps data) >>
     os_rename (fault_swap (faults env)) temp_file ANNOUNCEMENTS_FILE >>
     logger DEBUG "Saved announcements to file" [] None)
    (fun e =>
       logger ERROR "Error writing announcements: {}" [] (Some e) >>
       (let* old := path_exists BACKUP_FILE in
        if old then os_rename (fault_restore (faults env)) BACKUP_FILE ANNOUNCEMENTS_FILE
        else ret tt) >>
       raise e).

(** Lines 217-221. *)
Definition _save_announcement (env : Env) (announcement : json) : M unit :=
  let* announcements := _load_announcements env in
  let* announcements := lift (py_append announcements announcement) in
  _write_announcements env announcements.

(** ** Rule construction and [_schedule_job] *)

(** [datetime.fromisoformat(v)]: a [TypeError] unless [v] is a string. *)
Definition fromisoformat_json (v : json) : result datetime :=
  match v with
  | JStr s => fromisoformat s
  | _ => Raise TypeError
  end.

(** Whether the datetime read from [v] is aware. *)
Definition is_aware_json (v : json) : bool :=
  match v with
  | JStr s => is_aware s
  | _ => false
  end.

(** The chain of comparisons of lines 146-161: the trigger for a
    recurrence, or nothing for a value that is none of the four literals. *)
Definition make_trigger (announcement_time : datetime) (repeating : json) : option Trigger :=
  if py_eq_str repeating "none" then
    Some (DateTrigger announcement_time)
  else if py_eq_str repeating "daily" then
    Some (CronTrigger None None (hour announcement_time) (minute announcement_time))
  else if py_eq_str repeating "weekly" then
    Some (CronTrigger None (Some (weekday announcement_time))
            (hour announcement_time) (minute announcement_time))
  else if py_eq_str repeating "monthly" then
    Some (CronTrigger (Some (day announcement_time)) None
            (hour announcement_time) (minute announcement_time))
  else None.

(** Lines 134-172. *)
Definition _schedule_job (env : Env) (announcement : json) : M unit :=
  let* announcement_id := lift (py_getitem announcement "id") in
  let* dt := lift (py_getitem announcement "datetime") in
  let* announcement_time := lift (fromisoformat_json dt) in
  let* repeating := lift (py_getitem announcement "repeating") in
  try_except (remove_job announcement_id) (fun _ => ret tt) >>
  match make_trigger announcement_time repeating with
  | None => logger ERROR "Unknown repeating type: {}" [repeating] None
  | Some trigger =>
      add_job trigger announcement_id >>
      logger INFO "Scheduled job {} with trigger {}" [announcement_id; repeating] None
  end.

(** ** [delete_announcement] *)

(** [[a for a in announcements if a['id'] != announcement_id]]. *)
Fixpoint without_id (items : list json) (announcement_id : string) : result (list json) :=
  match items with
  | [] => Ok []
  | a :: rest =>
      match py_getitem a "id" with
      | Raise e => Raise e
      | Ok v =>
          match without_id rest announcement_id with
          | Raise e => Raise e
          | Ok kept => Ok (if py_eq_str v announcement_id then kept else a :: kept)
          end
      end
  end.

(** Lines 98-128. *)
Definition delete_announcement (env : Env) (announcement_id : string) : M bool :=
  let* announcements := _load_announcements env in
  let* original_count := lift (py_len announcements) in
  let* items := lift (py_iter announcements) in
  let* kept := lift (without_id items announcement_id) in
  if Z.of_nat (length kept) =? original_count then ret false
  else
    _write_announcements env (JList kept) >>
    try_except
      (remove_job (JStr announcement_id) >>
       logger INFO "Cancelled job {}" [JStr announcement_id] None)
      (fun e =>
         logger WARNING "Could not cancel job {}: {}" [JStr announcement_id] (Some e)) >>
    logger INFO "Deleted announcement {}" [JStr announcement_id] None >>
    ret true.

(** Lines 130-132. *)
Definition get_all_announcements (env : Env) : M json := _load_announcements env.

(** ** [create_announcement] *)

Definition optional_str (o : option string) : json :=
  match o with
  | Some s => JStr s
  | None => JNull
  end.

(** Lines 57-96. *)
Definition create_announcement (env : Env) (announcement_type text : string)
    (location : option string) (datetime_str repeating : string)
    (role_id created_by : Z) (practice_time : option string) : M json :=
  let announcement := JObj [
    ("id", JStr (uuid4 env));
    ("type", JStr announcement_type);
    ("text", JStr text);
    ("location", optional_str location);
    ("practice_time", optional_str practice_time);
    ("datetime", JStr datetime_str);
    ("repeating", JStr repeating);
    ("role_id", JInt role_id);
    ("created_by", JInt created_by);
    ("created_at", JStr (isoformat (now env)))] in
  _save_announcement env announcement >>
  _schedule_job env announcement >>
  logger INFO "Created announcement {} for {}" [JStr (uuid4 env); JStr datetime_str] None >>
  ret announcement.

(** ** Recovery: [load_and_reschedule_announcements], [initialize] *)

(** The [for] loop of lines 42-53, with its two counters.  In the test
    of line 46 the comparison with [now] is made only when the recurrence
    is [none] ([and] evaluates its right side only then), and raises out of
    the loop when the stored datetime is aware. *)
Fixpoint reschedule_loop (env : Env) (announcements : list json)
    (rescheduled skipped : Z) : M (Z * Z) :=
  match announcements with
  | [] => ret (rescheduled, skipped)
  | announcement :: rest =>
      let* dt := lift (py_getitem announcement "datetime") in
      let* announcement_time := lift (fromisoformat_json dt) in
      let* repeating := lift (py_getitem announcement "repeating") in
      let* missed_one_shot :=
        lift (if py_eq_str repeating "none"
              then lt_now (is_aware_json dt) announcement_time (now env)
              else Ok false) in
      if missed_one_shot then
        let* announcement_id := lift (py_getitem announcement "id") in
        logger INFO "Skipping missed announcement: {}" [announcement_id] None >>
        reschedule_loop env rest rescheduled (skipped + 1)
      else
        _schedule_job env announcement >>
        reschedule_loop env rest (rescheduled + 1) skipped
  end.

(** Lines 35-55. *)
Definition load_and_reschedule_announcements (env : Env) : M unit :=
  let* announcements := _load_announcements env in
  let* items := lift (py_iter announcements) in
  let* counts := reschedule_loop env items 0 0 in
  logger INFO "Rescheduled {} announcements, skipped {} missed announcements"
    [JInt (fst counts); JInt (snd counts)] None.

(** Lines 27-33. *)
Definition initialize (env : Env) : M unit :=
  scheduler_start >>
  logger INFO "APScheduler started" [] None >>
  load_and_reschedule_announcements env.

(** ** The firing callback: [_execute_announcement] *)

(** [next((a for a in announcements if a['id'] == announcement_id), None)]:
    the generator stops at the first match and looks no further. *)
Fixpoint first_with_id (items : list json) (announcement_id : string) : result (option json) :=
  match items with
  | [] => Ok None
  | a :: rest =>
      match py_getitem a "id" with
      | Raise e => Raise e
      | Ok v => if py_eq_str v announcement_id then Ok (Some a)
                else first_with_id rest announcement_id
      end
  end.

Definition nl : string := String (ascii_of_nat 10) EmptyString.

(** Lines 198-203: the text of the message. *)
Definition render_message (role_mention : string) (announcement : json) : result string :=
  match py_getitem announcement "type" with
  | Raise e => Raise e
  | Ok ty =>
      if py_eq_str ty "practice" then
        match py_get announcement "practice_time" (JStr "TBD") with
        | Raise e => Raise e
        | Ok practice_time =>
            match py_getitem announcement "location" with
            | Raise e => Raise e
            | Ok location =>
                Ok (role_mention +:+ nl +:+ nl +:+ "**Practice Announcement**" +:+ nl
                    +:+ "**Time:** " +:+ py_format practice_time +:+ nl
                    +:+ "**Location:** " +:+ py_format location)
            end
        end
      else
        match py_getitem announcement "text" with
        | Raise e => Raise e
        | Ok text => Ok (role_mention +:+ nl +:+ nl +:+ py_format text)
        end
  end.

(** [await channel.send(message)]. *)
Definition send (channel : Channel) (message : string) : M unit :=
  fun w => match channel_send channel message with
           | Some e => (Raise e, w)
           | None => (Ok tt, with_sent (channel_id channel, message) w)
           end.

(** Lines 177-212: the body of the [try]. *)
Definition _execute_announcement_body (env : Env) (announcement_id : string) : M unit :=
  let* announcements := _load_announcements env in
  let* items := lift (py_iter announcements) in
  let* found := lift (first_with_id items announcement_id) in
  match found with
  | None => logger ERROR "Announcement {} not found" [JStr announcement_id] None
  | Some announcement =>
      if negb (py_truthy announcement) then
        logger ERROR "Announcement {} not found" [JStr announcement_id] None
      else
        let* cid := lift (ANNOUNCEMENT_CHANNEL_ID env) in
        match get_channel env cid with
        | None => logger ERROR "Channel {} not found" [JInt cid] None
        | Some channel =>
            let* role_id := lift (py_getitem announcement "role_id") in
            let* role := lift (guild_get_role channel role_id) in
            let role_mention := match role with Some mention => mention | None => "" end in
            let* message := lift (render_message role_mention announcement) in
            send channel message >>
            logger INFO "Sent announcement {}" [JStr announcement_id] None >>
            let* repeating := lift (py_getitem announcement "repeating") in
            if py_eq_str repeating "none" then
              delete_announcement env announcement_id >>
              logger INFO "Removed one-time announcement {}" [JStr announcement_id] None
            else ret tt
        end
  end.

(** Lines 174-215. *)
Definition _execute_announcement (env : Env) (announcement_id : string) : M unit :=
  try_except
    (_execute_announcement_body env announcement_id)
    (fun e =>
       logger ERROR "Error executing announcement {}: {}" [JStr announcement_id] (Some e)).

End Scheduler.

(** ** Stored announcements

    The record [create_announcement] writes, and the dict it is stored as. *)
Record Announcement : Type := mkAnnouncement {
  ann_id : string;
  ann_type : string;
  ann_text : string;
  ann_location : option string;
  ann_practice_time : option string;
  ann_datetime : string;
  ann_repeating : string;
  ann_role_id : Z;
  ann_created_by : Z;
  ann_created_at : string
}.

Definition to_json (a : Announcement) : json :=
  JObj [
    ("id", JStr (ann_id a));
    ("type", JStr (ann_type a));
    ("text", JStr (ann_text a));
    ("location", optional_str (ann_location a));
    ("practice_time", optional_str (ann_practice_time a));
    ("datetime", JStr (ann_datetime a));
    ("repeating", JStr (ann_repeating a));
    ("role_id", JInt (ann_role_id a));
    ("created_by", JInt (ann_created_by a));
    ("created_at", JStr (ann_created_at a))].

(** The collection the announcements file holds: what
    [_load_announcements] reads from it when the read itself does not
    fail. *)
Definition stored_json `{P : Platform} (w : World) (v : json) : Prop :=
  match fs w !! ANNOUNCEMENTS_FILE with
  | None => v = JList []
  | Some b => exists data, json_loads b = Ok data
                           /\ py_get data "announcements" (JList []) = Ok v
  end.

Definition stored `{P : Platform} (w : World) (anns : list Announcement) : Prop :=
  stored_json w (JList (map to_json anns)).

(** [a['id'] == announcement_id] and its negation on stored records. *)
Definition has_id (announcement_id : string) (a : Announcement) : bool :=
  String.eqb (ann_id a) announcement_id.

Definition other_id (announcement_id : string) (a : Announcement) : bool :=
  negb (has_id announcement_id a).

(** The recurrence literals [_schedule_job] recognises. *)
Definition recognised (repeating : string) : bool :=
  String.eqb repeating "none" || String.eqb repeating "daily"
  || String.eqb repeating "weekly" || String.eqb repeating "monthly".

(** The test of line 46: a one-shot whose time is strictly before now. *)
Definition missed (now_ : datetime) (fire_at : datetime) (a : Announcement) : bool :=
  String.eqb (ann_repeating a) "none" && dt_ltb fire_at now_.

(** ** Vocabulary of the properties *)

Section Vocabulary.
Context `{P : Platform}.

(** The codec law the store relies on: what was written parses back. *)
Definition codec_roundtrip : Prop := forall v, json_loads (json_dumps v) = Ok v.

(** The world after [_schedule_job] on a stored record whose datetime
    parses to [t]. *)
Definition scheduled_world (a : Announcement) (t : datetime) (w : World) : World :=
  match make_trigger t (JStr (ann_repeating a)) with
  | Some trigger =>
      with_log (mkLog INFO "Scheduled job {} with trigger {}"
                      [JStr (ann_id a); JStr (ann_repeating a)] None)
        (with_jobs (insert (ann_id a) (mkJob trigger [ann_id a])) w)
  | None =>
      with_log (mkLog ERROR "Unknown repeating type: {}" [JStr (ann_repeating a)] None)
        (with_jobs (delete (ann_id a)) w)
  end.

(** The record [create_announcement] builds from its arguments. *)
Definition new_announcement (env : Env) (announcement_type text : string)
    (location : option string) (datetime_str repeating : string)
    (role_id created_by : Z) (practice_time : option string) : Announcement :=
  mkAnnouncement (uuid4 env) announcement_type text location practice_time
                 datetime_str repeating role_id created_by (isoformat (now env)).

(** The text sent for a stored record, given what [get_role] answered. *)
Definition message_for (role : option string) (a : Announcement) : string :=
  let role_mention := match role with Some mention => mention | None => "" end in
  if String.eqb (ann_type a) "practice" then
    role_mention +:+ nl +:+ nl +:+ "**Practice Announcement**" +:+ nl
    +:+ "**Time:** " +:+ py_format (optional_str (ann_practice_time a)) +:+ nl
    +:+ "**Location:** " +:+ py_format (optional_str (ann_location a))
  else role_mention +:+ nl +:+ nl +:+ py_format (JStr (ann_text a)).

(** What the callback needs to reach the delivery of a stored record:
    the record is the first with the id, the channel is found, and
    [get_role] answers. *)
Definition delivery_ready (env : Env) (w : World) (anns : list Announcement)
    (announcement_id : string) (a : Announcement) (ch : Channel)
    (role : option string) : Prop :=
  stored w anns
  /\ fault_read (faults env) = None
  /\ List.find (has_id announcement_id) anns = Some a
  /\ (exists cid, ANNOUNCEMENT_CHANNEL_ID env = Ok cid /\ get_channel env cid = Some ch)
  /\ guild_get_role ch (JInt (ann_role_id a)) = Ok role.

(** The firing time of a stored record, when its datetime parses. *)
Definition fire_time (a : Announcement) : option datetime :=
  match fromisoformat (ann_datetime a) with
  | Ok t => Some t
  | Raise _ => None
  end.

Definition is_missed (env : Env) (a : Announcement) : bool :=
  match fire_time a with
  | Some t => missed (now env) t a
  | None => false
  end.

(** One turn of the recovery loop on a record whose datetime parses. *)
Definition recover_step (env : Env) (a : Announcement) (t : datetime) (w : World) : World :=
  if missed (now env) t a then
    with_log (mkLog INFO "Skipping missed announcement: {}" [JStr (ann_id a)] None) w
  else scheduled_world a t w.

Fixpoint recover_world (env : Env) (anns : list Announcement) (w : World) : World :=
  match anns with
  | [] => w
  | a :: rest =>
      match fire_time a with
      | Some t => recover_world env rest (recover_step env a t w)
      | None => w
      end
  end.

(** The records the loop does not skip. *)
Definition not_missed (env : Env) (a : Announcement) : bool := negb (is_missed env a).

(** The test of line 46 does not raise on a record: it is not a one-shot,
    or its datetime is naive. *)
Definition comparable (a : Announcement) : bool :=
  negb (String.eqb (ann_repeating a) "none" && is_aware (ann_datetime a)).

(** What lines 43-46 raise on a stored record, if anything: the exception
    of [fromisoformat], or the [TypeError] of the comparison. *)
Definition recovery_error (a : Announcement) : option exn :=
  match fromisoformat (ann_datetime a) with
  | Raise e => Some e
  | Ok _ => if comparable a then None else Some TypeError
  end.

End Vocabulary.

(** ** A small platform to run the scheduler on

    Files hold JSON documents or text that does not parse, datetimes are
    written [YYYY-MM-DDTHH:MM:SS] as [isoformat()] writes them, and are all
    naive. *)
Module Simple.

Definition loads (b : option json) : result json :=
  match b with
  | Some v => Ok v
  | None => Raise ValueError
  end.

Definition dumps (v : json) : option json := Some v.

Definition digit (c : ascii) : option Z :=
  let n := Z.of_nat (nat_of_ascii c) in
  if (48 <=? n) && (n <=? 57) then Some (n - 48) else None.

Fixpoint number (cs : list ascii) (acc : Z) : option Z :=
  match cs with
  | [] => Some acc
  | c :: cs' => match digit c with
                | Some d => number cs' (acc * 10 + d)
                | None => None
                end
  end.

Definition days_in_month (y m : Z) : Z :=
  if m =? 2 then (if _is_leap y then 29 else 28)
  else if (m =? 4) || (m =? 6) || (m =? 9) || (m =? 11) then 30 else 31.

Definition parse_iso (s : string) : result datetime :=
  match list_ascii_of_string s with
  | [y1; y2; y3; y4; "-"; m1; m2; "-"; d1; d2; "T"; h1; h2; ":"; n1; n2; ":"; s1; s2]%char =>
      match number [y1; y2; y3; y4] 0, number [m1; m2] 0, number [d1; d2] 0,
            number [h1; h2] 0, number [n1; n2] 0, number [s1; s2] 0 with
      | Some y, Some m, Some d, Some h, Some n, Some sec =>
          if (1 <=? y) && (1 <=? m) && (m <=? 12) && (1 <=? d) && (d <=? days_in_month y m)
             && (h <? 24) && (n <? 60) && (sec <? 60)
          then Ok (mkDatetime y m d h n sec 0)
          else Raise ValueError
      | _, _, _, _, _, _ => Raise ValueError
      end
  | _ => Raise ValueError
  end.

Definition digit_char (d : Z) : ascii := ascii_of_nat (48 + Z.to_nat d).

Definition pad2 (n : Z) : string :=
  String (digit_char (n / 10 mod 10)) (String (digit_char (n mod 10)) EmptyString).

Definition pad4 (n : Z) : string := pad2 (n / 100) +:+ pad2 (n mod 100).

Definition print_iso (t : datetime) : string :=
  pad4 (year t) +:+ "-" +:+ pad2 (month t) +:+ "-" +:+ pad2 (day t) +:+ "T"
  +:+ pad2 (hour t) +:+ ":" +:+ pad2 (minute t) +:+ ":" +:+ pad2 (second t).

Definition format (v : json) : string :=
  match v with
  | JNull => "None"
  | JBool true => "True"
  | JBool false => "False"
  | JInt n => pretty n
  | JStr s => s
  | JList _ => "[...]"
  | JObj _ => "{...}"
  end.

#[export] Instance platform : Platform := {|
  bytes := option json;
  json_loads := loads;
  json_dumps := dumps;
  fromisoformat := parse_iso;
  is_aware := fun _ => false;
  isoformat := print_iso;
  py_format := format
|}.

(** A channel on which every role is known by its id and every send
    succeeds, and one on which every send fails. *)
Definition channel_ok : Channel :=
  mkChannel 42 (fun _ => Ok (Some "@team")) (fun _ => None).

Definition channel_down : Channel :=
  mkChannel 42 (fun _ => Ok (Some "@team")) (fun _ => Some HTTPException).

Definition env_with (ch : Channel) (f : Faults) : Env :=
  mkEnv (mkDatetime 2026 2 1 12 0 0 0) "id-new" (Ok 42)
        (fun cid => if cid =? 42 then Some ch else None) f.

Definition env0 : Env := env_with channel_ok no_faults.

Definition world_of (files : gmap string (option json)) : World :=
  mkWorld files true ∅ [] [].

Definition file_of (anns : list Announcement) : option json :=
  Some (JObj [("announcements", JList (map to_json anns))]).

(** The practice announcement of the specification's scenario, a weekly
    announcement, a one-shot that is already past, and one whose recurrence
    and one whose datetime the scheduler cannot use. *)
Definition practice : Announcement :=
  mkAnnouncement "a1" "practice" "" (Some "Gym A") (Some "7pm-10pm")
                 "2026-02-15T16:00:00" "none" 7 1 "2026-02-01T12:00:00".

Definition weekly_news : Announcement :=
  mkAnnouncement "a2" "custom" "Team meeting" None None
                 "2026-02-15T18:00:00" "weekly" 7 1 "2026-02-01T12:00:00".

Definition past_one_shot : Announcement :=
  mkAnnouncement "a3" "custom" "Too late" None None
                 "2026-01-15T18:00:00" "none" 7 1 "2026-01-01T12:00:00".

Definition yearly_news : Announcement :=
  mkAnnouncement "a4" "custom" "Anniversary" None None
                 "2026-03-01T09:00:00" "yearly" 7 1 "2026-02-01T12:00:00".

Definition undated : Announcement :=
  mkAnnouncement "a5" "custom" "Some day" None None
                 "next friday" "weekly" 7 1 "2026-02-01T12:00:00".

(** A second record with the id of [practice]. *)
Definition practice_again : Announcement :=
  mkAnnouncement "a1" "custom" "Practice moved" None None
                 "2026-02-16T16:00:00" "weekly" 7 1 "2026-02-01T12:30:00".


Definition env_swap_fails : Env :=
  env_with channel_ok (mkFaults None None None None (Some OSError) None).

Definition env_down : Env := env_with channel_down no_faults.

Definition w_empty : World := world_of ∅.

Definition w_with (anns : list Announcement) : World :=
  world_of {[ ANNOUNCEMENTS_FILE := file_of anns ]}.

Definition w_backed_up : World :=
  world_of {[ ANNOUNCEMENTS_FILE := file_of [practice]; BACKUP_FILE := file_of [] ]}.

(** The world before [initialize]: the scheduler is not running yet. *)
Definition w_stopped (anns : list Announcement) : World :=
  mkWorld {[ ANNOUNCEMENTS_FILE := file_of anns ]} false ∅ [] [].

(** Recovery on a stored collection. *)
Definition recovered (anns : list Announcement) : result unit * World :=
  load_and_reschedule_announcements env0 (w_with anns).

Definition w_no_key : World :=
  world_of {[ ANNOUNCEMENTS_FILE := Some (JObj [("version", JInt 1)]) ]}.

End Simple.

(** ** The configuration: [config.py] *)

(** [int(s)] for a string: the integer, or the message of the [ValueError]. *)
Definition IntParser : Type := string -> string + Z.

Record Config : Type := mkConfig {
  token : string;
  guild_id : Z;
  announcement_channel_id : Z
}.

(** The value of a variable that passes [if not v: raise]: set and not
    empty. *)
Definition set_value (v : option string) : option string :=
  match v with
  | Some s => if String.eqb s "" then None else Some s
  | None => None
  end.

(** [validate_config] (lines 13-30), over what [os.getenv] answered for the
    three variables when the module was loaded: the configuration, or the
    message of the [ValueError] it raises. *)
Definition validate_config (py_int : IntParser)
    (DISCORD_TOKEN GUILD_ID ANNOUNCEMENT_CHANNEL_ID : option string) : string + Config :=
  match set_value DISCORD_TOKEN with
  | None => inl "DISCORD_TOKEN is not set in .env file"
  | Some tok =>
      match set_value GUILD_ID with
      | None => inl "GUILD_ID is not set in .env file"
      | Some gid =>
          match set_value ANNOUNCEMENT_CHANNEL_ID with
          | None => inl "ANNOUNCEMENT_CHANNEL_ID is not set in .env file"
          | Some cid =>
              match py_int gid with
              | inl msg => inl ("Invalid ID format in .env file: " +:+ msg)
              | inr g =>
                  match py_int cid with
                  | inl msg => inl ("Invalid ID format in .env file: " +:+ msg)
                  | inr c => inr (mkConfig tok g c)
                  end
              end
          end
      end
  end.

(** ** The forms: [cogs/scheduler.py] *)

(** The library functions the forms call: [dateutil]'s parser, which reads
    a text at the current time, [str.lower], [str.strip], [strftime] and
    [str(e)] of an exception.  Of the datetime the parser returns,
    [dateutil_parse] has the calendar fields and [dateutil_aware] tells
    whether it is aware, as for a text that names a zone ([... 18:00 UTC],
    [...T18:00:00Z]). *)
Class FrontEnd : Type := {
  dateutil_parse : datetime -> string -> result datetime;
  dateutil_aware : string -> bool;
  py_lower : string -> string;
  py_strip : string -> string;
  strftime : datetime -> string -> string;
  exn_str : exn -> string
}.

(** A role of the guild, and what a form sees of the interaction: the user,
    the roles of the guild and its default role. *)
Record Role : Type := mkRole {
  r_id : Z;
  r_name : string;
  r_mention : string
}.

Record Interaction : Type := mkInteraction {
  user_id : Z;
  guild_roles : list Role;
  guild_default_role : Role
}.

(** [s.lstrip('@')]. *)
Fixpoint lstrip_at (s : string) : string :=
  match s with
  | String "@" rest => lstrip_at rest
  | _ => s
  end.

Section Forms.
Context `{P : Platform} `{F : FrontEnd}.

(** Lines 79-86 and 195-202, the same in both forms: the role named in the
    form, [discord.utils.get] giving the first role of that name. *)
Definition find_role (interaction : Interaction) (role_name : string) : option Role :=
  let role_input := py_strip role_name in
  if String.eqb (py_lower role_input) "@everyone" then
    Some (guild_default_role interaction)
  else
    let role_input := lstrip_at role_input in
    List.find (fun role => String.eqb (r_name role) role_input) (guild_roles interaction).

(** [repeating_value not in ['none', 'weekly']]. *)
Definition bad_repeating (repeating_value : string) : bool :=
  negb (String.eqb repeating_value "none" || String.eqb repeating_value "weekly").

Definition repeat_text (repeating_value : string) : string :=
  if String.eqb repeating_value "none" then "one-time"
  else "repeating " +:+ repeating_value.

(** [CustomAnnouncementModal.on_submit] (lines 49-119).  The reply sent
    with [interaction.response.send_message] is the result; sending it is
    taken to succeed.  The comparison of line 63 is inside the outer [try]:
    the [TypeError] it raises on an aware datetime is logged and answered
    by the handler of lines 114-119. *)
Definition custom_on_submit (env : Env) (interaction : Interaction)
    (announcement_text datetime_input repeating role_name : string) : M string :=
  try_except
    (match dateutil_parse (now env) datetime_input with
     | Raise _ =>
         ret "❌ Invalid date/time format. Please use formats like 'Feb 15 6pm' or '2026-02-15 18:00'."
     | Ok parsed_datetime =>
         bind (lift (le_now (dateutil_aware datetime_input) parsed_datetime (now env)))
           (fun not_after_now =>
         if not_after_now then
           ret "❌ The date and time must be in the future."
         else
           let repeating_value := py_strip (py_lower repeating) in
           if bad_repeating repeating_value then
             ret "❌ Invalid repeating value. Must be: none or weekly"
           else
             match find_role interaction role_name with
             | None =>
                 ret ("❌ Role '" +:+ role_name
                      +:+ "' not found. Please check the role name and try again.")
             | Some role =>
                 bind (create_announcement env "custom" announcement_text None
                         (isoformat parsed_datetime) repeating_value
                         (r_id role) (user_id interaction) None)
                   (fun _ =>
                      ret ("✅ Custom announcement scheduled for "
                           +:+ strftime parsed_datetime "%B %d, %Y at %I:%M %p"
                           +:+ " (" +:+ repeat_text repeating_value +:+ ")" +:+ nl
                           +:+ "Will ping: " +:+ r_mention role))
             end)
     end)
    (fun e =>
       bind (logger ERROR "Error creating custom announcement: {}" [] (Some e))
         (fun _ => ret ("❌ Error creating announcement: " +:+ exn_str e))).

(** [PracticeAnnouncementModal.on_submit] (lines 165-239). *)
Definition practice_on_submit (env : Env) (interaction : Interaction)
    (location practice_time datetime_input repeating role_name : string) : M string :=
  try_except
    (match dateutil_parse (now env) datetime_input with
     | Raise _ =>
         ret "❌ Invalid date/time format. Please use formats like 'Feb 15 6pm' or '2026-02-15 18:00'."
     | Ok parsed_datetime =>
         bind (lift (le_now (dateutil_aware datetime_input) parsed_datetime (now env)))
           (fun not_after_now =>
         if not_after_now then
           ret "❌ The date and time must be in the future."
         else
           let repeating_value := py_strip (py_lower repeating) in
           if bad_repeating repeating_value then
             ret "❌ Invalid repeating value. Must be: none or weekly"
           else
             match find_role interaction role_name with
             | None =>
                 ret ("❌ Role '" +:+ role_name
                      +:+ "' not found. Please check the role name and try again.")
             | Some role =>
                 bind (create_announcement env "practice" "" (Some location)
                         (isoformat parsed_datetime) repeating_value
                         (r_id role) (user_id interaction) (Some practice_time))
                   (fun _ =>
                      ret ("✅ Practice announcement scheduled" +:+ nl
                           +:+ "**Practice Time:** " +:+ practice_time +:+ nl
                           +:+ "**Location:** " +:+ location +:+ nl
                           +:+ "**Announcement will be sent:** "
                           +:+ strftime parsed_datetime "%B %d, %Y at %I:%M %p"
                           +:+ " (" +:+ repeat_text repeating_value +:+ ")" +:+ nl
                           +:+ "**Will ping:** " +:+ r_mention role))
             end)
     end)
    (fun e =>
       bind (logger ERROR "Error creating practice announcement: {}" [] (Some e))
         (fun _ => ret ("❌ Error creating announcement: " +:+ exn_str e))).

(** What a form has checked when it calls [create_announcement]: the
    datetime it read is naive and strictly after now, the recurrence is [none] or
    [weekly], and the role is the one it found. *)
Definition accepted (env : Env) (interaction : Interaction)
    (datetime_input repeating role_name : string)
    (parsed_datetime : datetime) (repeating_value : string) (role : Role) : Prop :=
  dateutil_parse (now env) datetime_input = Ok parsed_datetime
  /\ dateutil_aware datetime_input = false
  /\ dt_ltb (now env) parsed_datetime = true
  /\ repeating_value = py_strip (py_lower repeating)
  /\ (repeating_value = "none" \/ repeating_value = "weekly")
  /\ find_role interaction role_name = Some role.

(** What a form does with a text that is read as an aware datetime: the
    comparison with now raises, the handler logs the [TypeError] under
    [log_format] and answers with it; the world is otherwise as before. *)
Definition comparison_raised (env : Env) (datetime_input log_format reply : string)
    (w w' : World) : Prop :=
  (exists parsed_datetime, dateutil_parse (now env) datetime_input = Ok parsed_datetime)
  /\ dateutil_aware datetime_input = true
  /\ reply = "❌ Error creating announcement: " +:+ exn_str TypeError
  /\ w' = with_log (mkLog ERROR log_format [] (Some TypeError)) w.

End Forms.

(** ** More vocabulary *)

Section MoreVocabulary.
Context `{P : Platform}.

(** The only file operation that fails during the call is the swap of the
    temporary file into place, with [e]. *)
Definition swap_fails (env : Env) (e : exn) : Prop :=
  fault_read (faults env) = None
  /\ fault_remove_backup (faults env) = None
  /\ fault_make_backup (faults env) = None
  /\ fault_write_temp (faults env) = None
  /\ fault_swap (faults env) = Some e
  /\ fault_restore (faults env) = None.

(** A backup exists only beside an announcements file, as after every
    write that went through. *)
Definition backup_behind_file (w : World) : Prop :=
  fs w !! ANNOUNCEMENTS_FILE = None -> fs w !! BACKUP_FILE = None.

(** What a restart of the process leaves of a world: the files.  The
    scheduler is stopped and holds no job. *)
Definition restart (w : World) : World :=
  mkWorld (fs w) false ∅ (log w) (sent w).

(** The world after [n] firings of the job of one id. *)
Definition fire_times (env : Env) (announcement_id : string) (n : nat) (w : World) : World :=
  Nat.iter n (fun w0 => snd (_execute_announcement env announcement_id w0)) w.

End MoreVocabulary.

(** ** More worlds and environments to run the scheduler on *)
Module More.

(** An announcements file that is not JSON, and one that holds a JSON list
    instead of an object. *)
Definition w_garbled : World :=
  Simple.world_of {[ ANNOUNCEMENTS_FILE := (None : option json) ]}.

Definition w_list_file : World :=
  Simple.world_of {[ ANNOUNCEMENTS_FILE := Some (JList [JInt 1]) ]}.

(** The write to the temporary file fails and leaves it empty-handed. *)
Definition env_temp_fails : Env :=
  Simple.env_with Simple.channel_ok
    (@mkFaults Simple.platform None None None (Some (OSError, Some None)) None None).

(** Two old announcements in the backup, the current one in the file. *)
Definition w_old_backup : World :=
  Simple.world_of {[ ANNOUNCEMENTS_FILE := Simple.file_of [Simple.weekly_news];
                     BACKUP_FILE := Simple.file_of [Simple.practice; Simple.past_one_shot] ]}.

(** No announcements file, and a backup left behind. *)
Definition w_only_backup : World :=
  Simple.world_of {[ BACKUP_FILE := Simple.file_of [Simple.practice] ]}.

(** A scheduler that already holds the job of [undated]'s id. *)
Definition w_job_a5 : @World Simple.platform :=
  mkWorld ∅ true {[ "a5" := mkJob (CronTrigger None (Some 4) 9 0) ["a5"] ]} [] [].

(** [ANNOUNCEMENT_CHANNEL_ID] is not set: [int(None)] raises. *)
Definition env_no_channel_id : Env :=
  @mkEnv Simple.platform (mkDatetime 2026 2 1 12 0 0 0) "id-new" (Raise TypeError)
         (fun _ => None) no_faults.

(** The channel id is set and the bot does not know the channel. *)
Definition env_unknown_channel : Env :=
  @mkEnv Simple.platform (mkDatetime 2026 2 1 12 0 0 0) "id-new" (Ok 7)
         (fun _ => None) no_faults.

(** After a restart, a month later. *)
Definition env_later : Env :=
  @mkEnv Simple.platform (mkDatetime 2026 3 1 8 0 0 0) "id-later" (Ok 42)
         (fun cid => if cid =? 42 then Some Simple.channel_ok else None) no_faults.

(** A front end that reads naive ISO datetimes only, lowers ASCII letters,
    strips spaces, and formats a datetime with the directives the forms
    use.  Its [str(e)] is a stand-in, the name of the one exception the
    runs on it raise. *)
Definition lower_char (c : ascii) : ascii :=
  let n := nat_of_ascii c in
  if ((65 <=? n) && (n <=? 90))%nat then ascii_of_nat (n + 32) else c.

Fixpoint lower (s : string) : string :=
  match s with
  | EmptyString => EmptyString
  | String c rest => String (lower_char c) (lower rest)
  end.

Fixpoint lstrip (s : string) : string :=
  match s with
  | String " " rest => lstrip rest
  | _ => s
  end.

Fixpoint rstrip (s : string) : string :=
  match s with
  | EmptyString => EmptyString
  | String c rest =>
      match rstrip rest with
      | EmptyString => if Ascii.eqb c " " then EmptyString else String c EmptyString
      | rest' => String c rest'
      end
  end.

Definition month_name (m : Z) : string :=
  match m with
  | 1 => "January" | 2 => "February" | 3 => "March" | 4 => "April"
  | 5 => "May" | 6 => "June" | 7 => "July" | 8 => "August"
  | 9 => "September" | 10 => "October" | 11 => "November" | _ => "December"
  end.

(** [%I] and [%p]: the hour on the 12-hour clock. *)
Definition hour12 (h : Z) : Z := if h mod 12 =? 0 then 12 else h mod 12.

Definition am_pm (h : Z) : string := if h <? 12 then "AM" else "PM".

Definition directive (t : datetime) (c : ascii) : string :=
  match c with
  | "B"%char => month_name (month t)
  | "d"%char => Simple.pad2 (day t)
  | "m"%char => Simple.pad2 (month t)
  | "Y"%char => Simple.pad4 (year t)
  | "H"%char => Simple.pad2 (hour t)
  | "I"%char => Simple.pad2 (hour12 (hour t))
  | "M"%char => Simple.pad2 (minute t)
  | "S"%char => Simple.pad2 (second t)
  | "p"%char => am_pm (hour t)
  | "%"%char => "%"
  | _ => String "%" (String c EmptyString)
  end.

Fixpoint format_time (t : datetime) (fmt : string) : string :=
  match fmt with
  | String "%" (String c rest) => directive t c +:+ format_time t rest
  | String c rest => String c (format_time t rest)
  | EmptyString => EmptyString
  end.

#[export] Instance front : FrontEnd := {|
  dateutil_parse := fun _ s => Simple.parse_iso s;
  dateutil_aware := fun _ => false;
  py_lower := lower;
  py_strip := fun s => rstrip (lstrip s);
  strftime := format_time;
  exn_str := fun _ => "OSError"
|}.

Definition team : Role := mkRole 7 "Team" "@team".

Definition everyone : Role := mkRole 1 "@everyone" "@everyone".

Definition admin_interaction : Interaction := mkInteraction 1 [team] everyone.

(** [int] on strings of decimal digits. *)
Definition int_of_digits (s : string) : string + Z :=
  match s with
  | EmptyString => inl "invalid literal for int() with base 10: ''"
  | _ => match Simple.number (list_ascii_of_string s) 0 with
         | Some n => inr n
         | None => inl ("invalid literal for int() with base 10: '" +:+ s +:+ "'")
         end
  end.

(** A stored collection whose second record has no [id]. *)
Definition w_no_id : World :=
  Simple.world_of
    {[ ANNOUNCEMENTS_FILE :=
         Some (JObj [("announcements",
                      JList [to_json Simple.practice; JObj [("text", JStr "no id")]])]) ]}.

Definition env_remove_fails : Env :=
  Simple.env_with Simple.channel_ok
    (@mkFaults Simple.platform None (Some OSError) None None None None).

End More.

(** ** A platform with aware datetimes

    As [Simple] and [More], and datetimes with the offset [+00:00] or the
    zone [Z] are read as well, as aware ones. *)
Module Zoned.

(** [s] is 19 characters followed by [+00:00]. *)
Definition utc_offset (s : string) : bool :=
  (String.length s =? 25)%nat && String.eqb (substring 19 6 s) "+00:00".

Definition parse_iso (s : string) : result datetime :=
  Simple.parse_iso (if utc_offset s then substring 0 19 s else s).

Definition platform : Platform := {|
  bytes := option json;
  json_loads := Simple.loads;
  json_dumps := Simple.dumps;
  fromisoformat := parse_iso;
  is_aware := utc_offset;
  isoformat := Simple.print_iso;
  py_format := Simple.format
|}.

(** [s] is 19 characters followed by [Z]. *)
Definition zulu (s : string) : bool :=
  (String.length s =? 20)%nat && String.eqb (substring 19 1 s) "Z".

Definition front : FrontEnd := {|
  dateutil_parse := fun _ s => Simple.parse_iso (if zulu s then substring 0 19 s else s);
  dateutil_aware := zulu;
  py_lower := More.lower;
  py_strip := fun s => More.rstrip (More.lstrip s);
  strftime := More.format_time;
  exn_str := fun e =>
    match e with
    | TypeError => "can't compare offset-naive and offset-aware datetimes"
    | _ => ""
    end
|}.

Definition env0 : @Env platform :=
  @mkEnv platform (mkDatetime 2026 2 1 12 0 0 0) "id-new" (Ok 42)
         (fun cid => if cid =? 42 then Some Simple.channel_ok else None)
         (@no_faults platform).

Definition w_empty : @World platform := @mkWorld platform ∅ true ∅ [] [].

Definition w_with (anns : list Announcement) : @World platform :=
  @mkWorld platform {[ ANNOUNCEMENTS_FILE := Simple.file_of anns ]} true ∅ [] [].

(** A one-shot in the future whose datetime carries an offset. *)
Definition practice_utc : Announcement :=
  mkAnnouncement "a7" "practice" "" (Some "Gym A") (Some "7pm-10pm")
                 "2026-02-15T16:00:00+00:00" "none" 7 1 "2026-02-01T12:00:00".

(** A weekly announcement whose datetime carries an offset. *)
Definition weekly_utc : Announcement :=
  mkAnnouncement "a8" "custom" "Team meeting" None None
                 "2026-02-15T18:00:00+00:00" "weekly" 7 1 "2026-02-01T12:00:00".

(** Recovery on a stored collection. *)
Definition recovered (anns : list Announcement) : result unit * @World platform :=
  @load_and_reschedule_announcements platform env0 (w_with anns).

End Zoned.

(** * Properties *)

(** ** The model on known values *)

(** 2026-02-15 is a Sunday, 2024-02-29 a Thursday, 2000-01-01 a Saturday. *)
Example weekday_known :
  weekday (mkDatetime 2026 2 15 16 0 0 0) = 6
  /\ weekday (mkDatetime 2024 2 29 0 0 0 0) = 3
  /\ weekday (mkDatetime 2000 1 1 0 0 0 0) = 5.
Proof. repeat split; reflexivity. Qed.

(** Datetimes compare field by field, the date first. *)
Example dt_ltb_known :
  dt_ltb (mkDatetime 2026 1 15 18 0 0 0) (mkDatetime 2026 2 1 12 0 0 0) = true
  /\ dt_ltb (mkDatetime 2026 2 1 12 0 0 0) (mkDatetime 2026 2 1 12 0 0 0) = false
  /\ dt_ltb (mkDatetime 2026 2 1 12 0 0 1) (mkDatetime 2026 2 1 12 0 0 0) = false.
Proof. repeat split; reflexivity. Qed.

(** The four recurrences and their triggers, for 2026-02-15T16:05:00. *)
Example make_trigger_known :
  let t := mkDatetime 2026 2 15 16 5 0 0 in
  make_trigger t (JStr "none") = Some (DateTrigger t)
  /\ make_trigger t (JStr "daily") = Some (CronTrigger None None 16 5)
  /\ make_trigger t (JStr "weekly") = Some (CronTrigger None (Some 6) 16 5)
  /\ make_trigger t (JStr "monthly") = Some (CronTrigger (Some 15) None 16 5)
  /\ make_trigger t (JStr "Weekly") = None
  /\ make_trigger t JNull = None.
Proof. repeat split; reflexivity. Qed.

(** The firing callback on the practice announcement of the scenario: the
    message sent, and the record gone from the file. *)
Example firing_known :
  sent (snd (_execute_announcement Simple.env0 "a1"
               (Simple.w_with [Simple.practice; Simple.weekly_news])))
  = [(42, "@team" +:+ nl +:+ nl +:+ "**Practice Announcement**" +:+ nl
          +:+ "**Time:** 7pm-10pm" +:+ nl +:+ "**Location:** Gym A")]
  /\ fs (snd (_execute_announcement Simple.env0 "a1"
                (Simple.w_with [Simple.practice; Simple.weekly_news])))
       !! ANNOUNCEMENTS_FILE
     = Some (Simple.file_of [Simple.weekly_news]).
Proof. split; vm_compute; reflexivity. Qed.

(** ** The store *)

(** Running a method symbolically: reduce, then resolve the lookups and the
    tests whose outcome is known. *)
Ltac run_step :=
  match goal with
  | H : ?x = _ |- context [match ?x with _ => _ end] => rewrite H
  | |- context [<[?k:=_]> _ !! ?k] => rewrite lookup_insert_eq
  | |- context [delete ?k _ !! ?k] => rewrite lookup_delete_eq
  | |- context [<[_:=_]> _ !! _] => rewrite lookup_insert_ne by congruence
  | |- context [delete _ _ !! _] => rewrite lookup_delete_ne by congruence
  end.

Ltac run := cbn; repeat (run_step; cbn).

Section StoreFacts.
Context `{P : Platform}.

Lemma paths_distinct :
  ANNOUNCEMENTS_FILE <> BACKUP_FILE /\ ANNOUNCEMENTS_FILE <> temp_file
  /\ BACKUP_FILE <> temp_file.
Proof. repeat split; discriminate. Qed.

(** Loading never raises and touches nothing but the log. *)
Lemma load_total (env : Env) (w : World) :
  exists v w', _load_announcements env w = (Ok v, w')
               /\ fs w' = fs w /\ jobs w' = jobs w /\ sent w' = sent w
               /\ running w' = running w.
Proof.
  unfold _load_announcements, try_except, bind, path_exists, read_text, lift, logger, ret.
  destruct (fs w !! ANNOUNCEMENTS_FILE) as [b|] eqn:Hc; cbv beta iota; cbn [negb].
  - rewrite Hc. destruct (fault_read (faults env)) as [e|].
    + eexists _, _. split; [reflexivity|]. auto.
    + destruct (json_loads b) as [data|e].
      * destruct (py_get data "announcements" (JList [])) as [v|e];
          eexists _, _; (split; [reflexivity|]); auto.
      * eexists _, _. split; [reflexivity|]. auto.
  - eexists _, _. split; [reflexivity|]. auto.
Qed.

(** Loading reads the stored collection and leaves the world as it is. *)
Lemma load_stored (env : Env) (w : World) (v : json) :
  stored_json w v -> fault_read (faults env) = None ->
  _load_announcements env w = (Ok v, w).
Proof.
  unfold stored_json, _load_announcements, try_except, bind, path_exists, read_text, lift, ret.
  intros Hs Hf. destruct (fs w !! ANNOUNCEMENTS_FILE) as [b|] eqn:Hc; cbv beta iota; cbn [negb].
  - destruct Hs as (data & Hl & Hg). rewrite Hc, Hf, Hl, Hg. reflexivity.
  - subst v. reflexivity.
Qed.

(** A write without failures: the file holds the serialised collection,
    the previous file, if any, is the backup. *)
Lemma write_ok (env : Env) (w : World) (v : json) :
  faults env = no_faults ->
  exists w', _write_announcements env v w = (Ok tt, w')
             /\ fs w' !! ANNOUNCEMENTS_FILE
                = Some (json_dumps (JObj [("announcements", v)]))
             /\ fs w' !! BACKUP_FILE
                = match fs w !! ANNOUNCEMENTS_FILE with
                  | Some old => Some old
                  | None => fs w !! BACKUP_FILE
                  end
             /\ jobs w' = jobs w /\ sent w' = sent w /\ running w' = running w.
Proof.
  intros Hf. destruct paths_distinct as (Hab & Hat & Hbt).
  unfold _write_announcements, try_except, bind, path_exists, os_remove, os_rename,
    write_text, logger, ret.
  rewrite Hf.
  destruct (fs w !! ANNOUNCEMENTS_FILE) as [old|] eqn:Hc;
    [destruct (fs w !! BACKUP_FILE) as [bak|] eqn:Hb|];
    run; (eexists; split; [reflexivity|]); run; auto.
Qed.

End StoreFacts.

(** C2. When the swap of the temporary file into place fails, after the
    temporary file has been written, [_write_announcements] puts the backup
    back: the announcements file holds exactly what it held before the call,
    and the failure of the swap is raised to the caller.  The temporary file
    stays behind with the new contents and the backup slot is empty. *)
Theorem write_failure_restores_canonical `{P : Platform}
    (env : Env) (w : World) (announcements : json) (c0 : bytes) (e : exn) :
  fs w !! ANNOUNCEMENTS_FILE = Some c0 ->
  fault_remove_backup (faults env) = None ->
  fault_make_backup (faults env) = None ->
  fault_write_temp (faults env) = None ->
  fault_swap (faults env) = Some e ->
  fault_restore (faults env) = None ->
  exists w', _write_announcements env announcements w = (Raise e, w')
             /\ fs w' !! ANNOUNCEMENTS_FILE = Some c0
             /\ fs w' !! temp_file
                = Some (json_dumps (JObj [("announcements", announcements)]))
             /\ fs w' !! BACKUP_FILE = None
             /\ jobs w' = jobs w /\ sent w' = sent w.
Proof.
  intros Hc H1 H2 H3 H4 H5. destruct paths_distinct as (Hab & Hat & Hbt).
  unfold _write_announcements, try_except, bind, path_exists, os_remove, os_rename,
    write_text, logger, ret, raise.
  rewrite H1, H2, H3, H4, H5.
  destruct (fs w !! BACKUP_FILE) as [bak|] eqn:Hb;
    run; (eexists; split; [reflexivity|]); run; auto.
Qed.

Lemma write_failure_restores_canonical_witness :
  exists w', _write_announcements Simple.env_swap_fails (JList []) Simple.w_backed_up
             = (Raise OSError, w')
             /\ fs w' !! ANNOUNCEMENTS_FILE = Some (Simple.file_of [Simple.practice])
             /\ fs w' !! temp_file = Some (json_dumps (JObj [("announcements", JList [])]))
             /\ fs w' !! BACKUP_FILE = None
             /\ jobs w' = jobs Simple.w_backed_up /\ sent w' = sent Simple.w_backed_up.
Proof.
  apply (write_failure_restores_canonical Simple.env_swap_fails Simple.w_backed_up
           (JList []) (Simple.file_of [Simple.practice]) OSError); reflexivity.
Defined.

(** The restore does not look at where the backup comes from: with no
    announcements file and a backup left by an earlier run, a failed swap
    creates the announcements file from that old backup. *)
Lemma write_failure_revives_old_backup `{P : Platform}
    (env : Env) (w : World) (announcements : json) (b0 : bytes) (e : exn) :
  fs w !! ANNOUNCEMENTS_FILE = None ->
  fs w !! BACKUP_FILE = Some b0 ->
  fault_write_temp (faults env) = None ->
  fault_swap (faults env) = Some e ->
  fault_restore (faults env) = None ->
  exists w', _write_announcements env announcements w = (Raise e, w')
             /\ fs w' !! ANNOUNCEMENTS_FILE = Some b0.
Proof.
  intros Hc Hb H3 H4 H5. destruct paths_distinct as (Hab & Hat & Hbt).
  unfold _write_announcements, try_except, bind, path_exists, os_remove, os_rename,
    write_text, logger, ret, raise.
  rewrite H3, H4, H5.
  run. eexists; split; [reflexivity|]. run. reflexivity.
Qed.

(** C10. A file that parses as a JSON object without the key
    [announcements] loads as the empty list, without an exception, and so
    does a missing file; unless the read itself fails, nothing is logged. *)
Theorem load_without_announcements_key `{P : Platform}
    (env : Env) (w : World) (b : bytes) (fields : list (string * json)) :
  fs w !! ANNOUNCEMENTS_FILE = Some b ->
  json_loads b = Ok (JObj fields) ->
  dict_find "announcements" fields = None ->
  (exists w', _load_announcements env w = (Ok (JList []), w')
              /\ (fault_read (faults env) = None -> w' = w))
  /\ (forall w0, fs w0 !! ANNOUNCEMENTS_FILE = None ->
                 _load_announcements env w0 = (Ok (JList []), w0)).
Proof.
  intros Hc Hl Hk. split.
  - unfold _load_announcements, try_except, bind, path_exists, read_text, lift, logger, ret.
    destruct (fault_read (faults env)) as [e|] eqn:Hf; run.
    + eexists. split; [reflexivity|]. discriminate.
    + eexists. split; [reflexivity|]. reflexivity.
  - intros w0 H0.
    unfold _load_announcements, try_except, bind, path_exists, read_text, lift, logger, ret.
    run. reflexivity.
Qed.

Lemma load_without_announcements_key_witness :
  (exists w', _load_announcements Simple.env0 Simple.w_no_key = (Ok (JList []), w')
              /\ (fault_read (faults Simple.env0) = None -> w' = Simple.w_no_key))
  /\ (forall w0, fs w0 !! ANNOUNCEMENTS_FILE = None ->
                 _load_announcements Simple.env0 w0 = (Ok (JList []), w0)).
Proof.
  apply (load_without_announcements_key Simple.env0 Simple.w_no_key
           (Some (JObj [("version", JInt 1)])) [("version", JInt 1)]); reflexivity.
Defined.

(** ** Deleting *)

Section DeleteFacts.
Context `{P : Platform}.

Lemma getitem_id (a : Announcement) : py_getitem (to_json a) "id" = Ok (JStr (ann_id a)).
Proof. reflexivity. Qed.

Lemma without_id_stored (anns : list Announcement) (announcement_id : string) :
  without_id (map to_json anns) announcement_id
  = Ok (map to_json (List.filter (other_id announcement_id) anns)).
Proof.
  induction anns as [|a anns IH]; [reflexivity|].
  cbn [map without_id]. rewrite getitem_id, IH.
  cbn [py_eq_str List.filter].
  change (other_id announcement_id a) with (negb (String.eqb (ann_id a) announcement_id)).
  destruct (String.eqb (ann_id a) announcement_id); reflexivity.
Qed.

Lemma first_with_id_stored (anns : list Announcement) (announcement_id : string) :
  first_with_id (map to_json anns) announcement_id
  = Ok (option_map to_json (List.find (has_id announcement_id) anns)).
Proof.
  induction anns as [|a anns IH]; [reflexivity|].
  cbn [map first_with_id]. rewrite getitem_id.
  cbn [py_eq_str List.find].
  change (has_id announcement_id a) with (String.eqb (ann_id a) announcement_id).
  destruct (String.eqb (ann_id a) announcement_id); [reflexivity | exact IH].
Qed.

Lemma filter_other_none (anns : list Announcement) (announcement_id : string) :
  Forall (fun a => ann_id a <> announcement_id) anns ->
  List.filter (other_id announcement_id) anns = anns.
Proof.
  induction 1 as [|a anns Ha _ IH]; [reflexivity|].
  cbn [List.filter].
  change (other_id announcement_id a) with (negb (String.eqb (ann_id a) announcement_id)).
  destruct (String.eqb_spec (ann_id a) announcement_id); [contradiction|].
  cbn [negb]. by rewrite IH.
Qed.

Lemma filter_other_shorter (anns : list Announcement) (announcement_id : string) :
  Exists (fun a => ann_id a = announcement_id) anns ->
  (length (List.filter (other_id announcement_id) anns) < length anns)%nat.
Proof.
  induction 1 as [a anns Ha | a anns _ IH]; cbn [List.filter length].
  - change (other_id announcement_id a) with (negb (String.eqb (ann_id a) announcement_id)).
    rewrite Ha, String.eqb_refl. cbn [negb].
    pose proof (List.filter_length_le (other_id announcement_id) anns). lia.
  - destruct (other_id announcement_id a); cbn [length]; [lia|].
    lia.
Qed.

Lemma filter_other_no_id (anns : list Announcement) (announcement_id : string) :
  Forall (fun a => ann_id a <> announcement_id)
         (List.filter (other_id announcement_id) anns).
Proof.
  apply List.Forall_forall. intros a Ha. apply List.filter_In in Ha as [_ Ha].
  unfold other_id, has_id in Ha.
  destruct (String.eqb_spec (ann_id a) announcement_id); [discriminate | assumption].
Qed.

(** What a successful write leaves is the stored collection. *)
Lemma stored_after_write (w : World) (v : json) :
  codec_roundtrip ->
  fs w !! ANNOUNCEMENTS_FILE = Some (json_dumps (JObj [("announcements", v)])) ->
  stored_json w v.
Proof.
  intros Hrt Hc. unfold stored_json. rewrite Hc.
  exists (JObj [("announcements", v)]). split; [apply Hrt | reflexivity].
Qed.

(** The stored collection is a function of the announcements file. *)
Lemma stored_json_fs (w w' : World) (v : json) :
  fs w' = fs w -> stored_json w v -> stored_json w' v.
Proof. unfold stored_json. by intros ->. Qed.

Lemma stored_inj (w : World) (anns anns' : list Announcement) :
  stored w anns -> stored w anns' -> map to_json anns = map to_json anns'.
Proof.
  unfold stored, stored_json. destruct (fs w !! ANNOUNCEMENTS_FILE) as [b|].
  - intros (d & Hd & Hg) (d' & Hd' & Hg'). congruence.
  - congruence.
Qed.

(** [delete_announcement] when no stored record has the id: [False], and
    the world is exactly as before. *)
Lemma delete_absent (env : Env) (w : World) (anns : list Announcement)
    (announcement_id : string) :
  stored w anns -> fault_read (faults env) = None ->
  Forall (fun a => ann_id a <> announcement_id) anns ->
  delete_announcement env announcement_id w = (Ok false, w).
Proof.
  intros Hs Hf Hno. unfold delete_announcement, bind at 1.
  rewrite (load_stored env w _ Hs Hf).
  unfold bind, lift. cbn [py_len py_iter]. rewrite without_id_stored.
  rewrite filter_other_none by assumption. rewrite Z.eqb_refl. reflexivity.
Qed.

(** [delete_announcement] when some stored record has the id and no file
    operation fails: [True], the file holds the records with another id,
    and no job with this id is left. *)
Lemma delete_present (env : Env) (w : World) (anns : list Announcement)
    (announcement_id : string) :
  stored w anns -> faults env = no_faults ->
  Exists (fun a => ann_id a = announcement_id) anns ->
  exists w', delete_announcement env announcement_id w = (Ok true, w')
             /\ fs w' !! ANNOUNCEMENTS_FILE
                = Some (json_dumps (JObj [("announcements",
                     JList (map to_json (List.filter (other_id announcement_id) anns)))]))
             /\ jobs w' = delete announcement_id (jobs w)
             /\ sent w' = sent w.
Proof.
  intros Hs Hf Hex. unfold delete_announcement, bind at 1.
  assert (Hr : fault_read (faults env) = None) by (by rewrite Hf).
  rewrite (load_stored env w _ Hs Hr).
  unfold bind at 1 2 3, lift. cbn [py_len py_iter]. rewrite without_id_stored.
  pose proof (filter_other_shorter anns announcement_id Hex) as Hlt.
  rewrite !length_map.
  destruct (Z.eqb_spec (Z.of_nat (length (List.filter (other_id announcement_id) anns)))
                       (Z.of_nat (length anns))) as [Heq|_]; [lia|].
  destruct (write_ok env w
              (JList (map to_json (List.filter (other_id announcement_id) anns))) Hf)
    as (w1 & Hw & Hfile & _ & Hjobs & Hsent & _).
  unfold bind at 1. rewrite Hw.
  unfold bind, try_except, remove_job, logger, ret.
  destruct (jobs w1 !! announcement_id) as [j|] eqn:Hj; run;
    (eexists; split; [reflexivity|]); run; rewrite Hfile, <- Hjobs, Hsent;
    repeat split; try reflexivity.
  by rewrite delete_id.
Qed.

End DeleteFacts.

(** ** Scheduling one job *)

Section ScheduleFacts.
Context `{P : Platform}.

Lemma schedule_job_stored (env : Env) (w : World) (a : Announcement) (t : datetime) :
  fromisoformat (ann_datetime a) = Ok t ->
  _schedule_job env (to_json a) w = (Ok tt, scheduled_world a t w).
Proof.
  intros Ht. unfold _schedule_job, scheduled_world, bind, lift, try_except, remove_job,
    add_job, logger, ret.
  cbn [to_json py_getitem dict_find String.eqb Ascii.eqb Bool.eqb fromisoformat_json].
  rewrite Ht.
  destruct (jobs w !! ann_id a) as [j|] eqn:Hj;
    destruct (make_trigger t (JStr (ann_repeating a))) as [trigger|];
    unfold with_log, with_jobs; cbn [fs running jobs log sent];
    rewrite ?insert_delete_eq, ?(delete_id _ _ Hj); reflexivity.
Qed.

(** A stored record whose datetime does not parse: the exception leaves
    [_schedule_job], and the world is as before. *)
Lemma schedule_job_unparsable (env : Env) (w : World) (a : Announcement) (e : exn) :
  fromisoformat (ann_datetime a) = Raise e ->
  _schedule_job env (to_json a) w = (Raise e, w).
Proof.
  intros Ht. unfold _schedule_job, bind, lift.
  cbn [to_json py_getitem dict_find String.eqb Ascii.eqb Bool.eqb fromisoformat_json].
  by rewrite Ht.
Qed.

Lemma make_trigger_recognised (t : datetime) (repeating : string) :
  is_Some (make_trigger t (JStr repeating)) <-> recognised repeating = true.
Proof.
  unfold make_trigger, recognised, py_eq_str.
  destruct (String.eqb repeating "none"), (String.eqb repeating "daily"),
    (String.eqb repeating "weekly"), (String.eqb repeating "monthly");
    cbn [orb]; split; intros H;
    first [reflexivity | exact (ex_intro _ _ eq_refl) | discriminate | by destruct H].
Qed.

End ScheduleFacts.

(** ** Creating *)

Section CreateFacts.
Context `{P : Platform}.

Lemma stored_scheduled (a : Announcement) (t : datetime) (w : World) (v : json) :
  stored_json w v -> stored_json (scheduled_world a t w) v.
Proof.
  apply stored_json_fs. unfold scheduled_world.
  by destruct (make_trigger t (JStr (ann_repeating a))).
Qed.

(** [create_announcement] with a datetime that parses and no failing file
    operation: the record is returned, appended to the stored collection,
    and scheduled. *)
Lemma create_stored (env : Env) (w : World) (anns : list Announcement)
    (announcement_type text : string) (location : option string)
    (datetime_str repeating : string) (role_id created_by : Z)
    (practice_time : option string) (t : datetime) :
  codec_roundtrip ->
  stored w anns -> faults env = no_faults ->
  fromisoformat datetime_str = Ok t ->
  let new := new_announcement env announcement_type text location datetime_str
                              repeating role_id created_by practice_time in
  exists w', create_announcement env announcement_type text location datetime_str
                                 repeating role_id created_by practice_time w
             = (Ok (to_json new), w')
             /\ stored w' (anns ++ [new])
             /\ jobs w' = jobs (scheduled_world new t w)
             /\ sent w' = sent w.
Proof.
  intros Hrt Hs Hf Ht new.
  assert (Hr : fault_read (faults env) = None) by (by rewrite Hf).
  destruct (write_ok env w (JList (map to_json (anns ++ [new]))) Hf)
    as (w0 & Hw & Hfile & _ & Hjobs & Hsent & _).
  unfold create_announcement. change (JObj _) with (to_json new).
  cbv zeta. unfold _save_announcement, bind, lift.
  rewrite (load_stored env w _ Hs Hr). cbn [py_append].
  change [to_json new] with (map to_json [new]). rewrite <- List.map_app, Hw.
  rewrite (schedule_job_stored env w0 new t Ht).
  unfold logger, ret. eexists. split; [reflexivity|].
  split; [|split].
  - apply (stored_json_fs (scheduled_world new t w0)); [reflexivity|].
    apply stored_scheduled. by apply stored_after_write.
  - unfold scheduled_world.
    destruct (make_trigger t (JStr (ann_repeating new))); cbn; by rewrite Hjobs.
  - unfold scheduled_world.
    destruct (make_trigger t (JStr (ann_repeating new))); cbn; by rewrite Hsent.
Qed.

End CreateFacts.

(** C7. [delete_announcement] answers whether a stored record had the id.
    With no such record it returns [False] and the world, the files
    included, is exactly as before.  With such a record it writes the
    collection without the records of that id and returns [True].  So
    deleting the id of a record that was just created returns [True], and
    deleting it once more returns [False]. *)
Theorem delete_returns_whether_found `{P : Platform}
    (env : Env) (w : World) (anns : list Announcement) (announcement_id : string) :
  codec_roundtrip ->
  stored w anns ->
  faults env = no_faults ->
  (Forall (fun a => ann_id a <> announcement_id) anns ->
   delete_announcement env announcement_id w = (Ok false, w))
  /\ (Exists (fun a => ann_id a = announcement_id) anns ->
      exists w', delete_announcement env announcement_id w = (Ok true, w')
                 /\ stored w' (List.filter (other_id announcement_id) anns)
                 /\ jobs w' = delete announcement_id (jobs w))
  /\ (forall (envc : Env) (announcement_type text : string) (location : option string)
             (datetime_str repeating : string) (role_id created_by : Z)
             (practice_time : option string) (t : datetime),
        faults envc = no_faults ->
        fromisoformat datetime_str = Ok t ->
        exists created w1 w2,
          create_announcement envc announcement_type text location datetime_str
                              repeating role_id created_by practice_time w
          = (Ok created, w1)
          /\ py_getitem created "id" = Ok (JStr (uuid4 envc))
          /\ delete_announcement env (uuid4 envc) w1 = (Ok true, w2)
          /\ delete_announcement env (uuid4 envc) w2 = (Ok false, w2)).
Proof.
  intros Hrt Hs Hf.
  assert (Hr : fault_read (faults env) = None) by (by rewrite Hf).
  split; [|split].
  - intros Hno. by apply (delete_absent env w anns).
  - intros Hex.
    destruct (delete_present env w anns announcement_id Hs Hf Hex)
      as (w' & Hd & Hfile & Hjobs & _).
    exists w'. split; [exact Hd|]. split; [|exact Hjobs].
    by apply stored_after_write.
  - intros envc ty text loc dts rep role by_ pt t Hfc Ht.
    destruct (create_stored envc w anns ty text loc dts rep role by_ pt t Hrt Hs Hfc Ht)
      as (w1 & Hc & Hs1 & _).
    set (new := new_announcement envc ty text loc dts rep role by_ pt) in *.
    assert (Hex : Exists (fun a => ann_id a = uuid4 envc) (anns ++ [new])).
    { apply List.Exists_app. right. by constructor. }
    destruct (delete_present env w1 _ (uuid4 envc) Hs1 Hf Hex)
      as (w2 & Hd & Hfile & _).
    exists (to_json new), w1, w2. repeat split; try assumption.
    apply (delete_absent env w2 (List.filter (other_id (uuid4 envc)) (anns ++ [new]))).
    + by apply stored_after_write.
    + exact Hr.
    + apply filter_other_no_id.
Qed.

Lemma simple_roundtrip : @codec_roundtrip Simple.platform.
Proof. intros v. reflexivity. Qed.

Lemma simple_stored (anns : list Announcement) : stored (Simple.w_with anns) anns.
Proof.
  unfold stored, stored_json, Simple.w_with, Simple.world_of. cbn [fs].
  rewrite lookup_singleton_eq. eexists. split; reflexivity.
Qed.

Lemma simple_stored_empty : stored Simple.w_empty [].
Proof. reflexivity. Qed.

Lemma delete_returns_whether_found_witness :
  delete_announcement Simple.env0 "a9" (Simple.w_with [Simple.practice; Simple.weekly_news])
  = (Ok false, Simple.w_with [Simple.practice; Simple.weekly_news])
  /\ (exists w', delete_announcement Simple.env0 "a1"
                   (Simple.w_with [Simple.practice; Simple.weekly_news]) = (Ok true, w')
                 /\ stored w' [Simple.weekly_news])
  /\ (exists created w1 w2,
        create_announcement Simple.env0 "practice" "" (Some "Gym A")
          "2026-02-15T16:00:00" "none" 7 1 (Some "7pm-10pm") Simple.w_empty
        = (Ok created, w1)
        /\ py_getitem created "id" = Ok (JStr "id-new")
        /\ delete_announcement Simple.env0 "id-new" w1 = (Ok true, w2)
        /\ delete_announcement Simple.env0 "id-new" w2 = (Ok false, w2)).
Proof.
  split; [|split].
  - apply (delete_returns_whether_found Simple.env0 _ [Simple.practice; Simple.weekly_news] "a9"
             simple_roundtrip (simple_stored _) eq_refl).
    repeat constructor; discriminate.
  - destruct (delete_returns_whether_found Simple.env0 _
                [Simple.practice; Simple.weekly_news] "a1"
                simple_roundtrip (simple_stored _) eq_refl) as (_ & Hdel & _).
    destruct Hdel as (w' & Hd & Hs & _); [by constructor|].
    exists w'. split; assumption.
  - destruct (delete_returns_whether_found Simple.env0 Simple.w_empty [] "a1"
                simple_roundtrip simple_stored_empty eq_refl) as (_ & _ & Hcreate).
    apply (Hcreate Simple.env0 "practice" "" (Some "Gym A") "2026-02-15T16:00:00" "none"
             7 1 (Some "7pm-10pm") (mkDatetime 2026 2 15 16 0 0 0)); reflexivity.
Defined.

Lemma some_match_exists (anns : list Announcement) (announcement_id : string) :
  (1 <= length (List.filter (has_id announcement_id) anns))%nat ->
  Exists (fun a => ann_id a = announcement_id) anns.
Proof.
  intros Hlen. destruct (List.filter (has_id announcement_id) anns) as [|a l] eqn:Hl.
  - cbn in Hlen. lia.
  - assert (Hin : In a (List.filter (has_id announcement_id) anns))
      by (rewrite Hl; by left).
    apply List.filter_In in Hin as [Hin Hid].
    apply List.Exists_exists. exists a. split; [exact Hin|].
    by apply String.eqb_eq.
Qed.

(** C9. One call of [delete_announcement] removes all the stored records
    that carry the id, however many there are, and returns [True] as soon
    as there is one: the new stored collection is the old one without them,
    in the old order, and is shorter by their number. *)
Theorem delete_removes_every_match `{P : Platform}
    (env : Env) (w : World) (anns : list Announcement) (announcement_id : string) :
  codec_roundtrip ->
  stored w anns ->
  faults env = no_faults ->
  (1 <= length (List.filter (has_id announcement_id) anns))%nat ->
  exists w', delete_announcement env announcement_id w = (Ok true, w')
             /\ stored w' (List.filter (other_id announcement_id) anns)
             /\ Forall (fun a => ann_id a <> announcement_id)
                       (List.filter (other_id announcement_id) anns)
             /\ (length (List.filter (other_id announcement_id) anns)
                 + length (List.filter (has_id announcement_id) anns)
                 = length anns)%nat.
Proof.
  intros Hrt Hs Hf Hlen.
  destruct (delete_present env w anns announcement_id Hs Hf
              (some_match_exists anns announcement_id Hlen))
    as (w' & Hd & Hfile & _).
  exists w'. split; [exact Hd|]. split; [by apply stored_after_write|].
  split; [apply filter_other_no_id|].
  pose proof (List.filter_length (has_id announcement_id) anns) as Hpart.
  unfold other_id. lia.
Qed.

Lemma delete_removes_every_match_witness :
  exists w', delete_announcement Simple.env0 "a1"
               (Simple.w_with [Simple.practice; Simple.weekly_news; Simple.practice_again])
             = (Ok true, w')
             /\ stored w' [Simple.weekly_news]
             /\ Forall (fun a => ann_id a <> "a1") [Simple.weekly_news]
             /\ (1 + 2 = 3)%nat.
Proof.
  apply (delete_removes_every_match Simple.env0 _
           [Simple.practice; Simple.weekly_news; Simple.practice_again] "a1"
           simple_roundtrip (simple_stored _) eq_refl).
  cbn. lia.
Defined.

(** ** Firing *)

(** Case analysis on an innermost scrutinee of the goal. *)
Ltac split_match :=
  match goal with
  | |- context [match ?x with _ => _ end] =>
      lazymatch x with
      | context [match _ with _ => _ end] => fail
      | _ => destruct x eqn:?
      end
  end.

Section FiringFacts.
Context `{P : Platform}.

(** Whatever fails, writing touches only the files and the log. *)
Lemma write_preserves (env : Env) (v : json) (w : World) (r : result unit) (w' : World) :
  _write_announcements env v w = (r, w') ->
  jobs w' = jobs w /\ sent w' = sent w /\ running w' = running w.
Proof.
  unfold _write_announcements, try_except, bind, path_exists, os_remove, os_rename,
    write_text, logger, ret, raise.
  repeat (cbv beta iota; split_match); cbv beta iota;
    intros [= <- <-]; repeat split; reflexivity.
Qed.

Lemma load_preserves (env : Env) (w : World) (r : result json) (w' : World) :
  _load_announcements env w = (r, w') ->
  (exists v, r = Ok v)
  /\ fs w' = fs w /\ jobs w' = jobs w /\ sent w' = sent w /\ running w' = running w.
Proof.
  destruct (load_total env w) as (v & w0 & -> & Hrest). intros [= <- <-].
  split; [by exists v | exact Hrest].
Qed.

Ltac use_preserved :=
  repeat match goal with
    | H : _load_announcements _ _ = _ |- _ =>
        apply load_preserves in H; destruct H as ((? & ?) & ? & ? & ? & ?)
    | H : _write_announcements _ _ _ = _ |- _ =>
        apply write_preserves in H; destruct H as (? & ? & ?)
    end;
  cbn [fs running jobs log sent with_fs with_running with_jobs with_log with_sent] in *.

(** Deleting delivers nothing. *)
Lemma delete_preserves_sent (env : Env) (announcement_id : string) (w : World)
    (r : result bool) (w' : World) :
  delete_announcement env announcement_id w = (r, w') -> sent w' = sent w.
Proof.
  unfold delete_announcement, bind, lift, try_except, remove_job, logger, ret.
  repeat (cbv beta iota; split_match); cbv beta iota;
    intros [= <- <-]; use_preserved; congruence.
Qed.

(** The body of the callback changes the files and the job table only
    after it has delivered the message. *)
Lemma body_changes_after_delivery (env : Env) (announcement_id : string) (w : World)
    (r : result unit) (w' : World) :
  _execute_announcement_body env announcement_id w = (r, w') ->
  sent w' = sent w -> fs w' = fs w /\ jobs w' = jobs w.
Proof.
  unfold _execute_announcement_body, bind, lift, send, logger, ret.
  repeat (cbv beta iota; split_match); cbv beta iota;
    intros [= <- <-]; use_preserved;
    repeat match goal with
      | H : delete_announcement _ _ _ = _ |- _ => apply delete_preserves_sent in H
      end;
    cbn [fs running jobs log sent with_fs with_running with_jobs with_log with_sent] in *;
    intros Hsent;
    first [ split; congruence
          | exfalso;
            repeat match goal with
              | H : @eq (list (Z * string)) _ _ |- _ =>
                  apply (f_equal length) in H; rewrite ?length_app in H; cbn [length] in H
              end; lia ].
Qed.

Lemma render_stored (role : option string) (a : Announcement) :
  render_message (match role with Some mention => mention | None => "" end) (to_json a)
  = Ok (message_for role a).
Proof.
  unfold render_message, message_for.
  cbn [to_json py_getitem py_get dict_find String.eqb Ascii.eqb Bool.eqb py_eq_str].
  destruct (String.eqb (ann_type a) "practice"); reflexivity.
Qed.

Lemma find_has_id (anns : list Announcement) (announcement_id : string) (a : Announcement) :
  List.find (has_id announcement_id) anns = Some a ->
  In a anns /\ ann_id a = announcement_id
  /\ Exists (fun b => ann_id b = announcement_id) anns.
Proof.
  intros Hfind. apply List.find_some in Hfind as [Hin Hid].
  apply String.eqb_eq in Hid. repeat split; try assumption.
  apply List.Exists_exists. by exists a.
Qed.

(** The callback up to the delivery, on a stored record: the message is
    rendered and handed to the channel. *)
Lemma body_until_send (env : Env) (w : World) (anns : list Announcement)
    (announcement_id : string) (a : Announcement) (ch : Channel) (role : option string) :
  delivery_ready env w anns announcement_id a ch role ->
  _execute_announcement_body env announcement_id w
  = bind (send ch (message_for role a))
      (fun _ =>
         bind (logger INFO "Sent announcement {}" [JStr announcement_id] None)
           (fun _ =>
              if String.eqb (ann_repeating a) "none" then
                bind (delete_announcement env announcement_id)
                  (fun _ => logger INFO "Removed one-time announcement {}"
                              [JStr announcement_id] None)
              else ret tt)) w.
Proof.
  intros (Hs & Hr & Hfind & (cid & Hcid & Hch) & Hrole).
  unfold _execute_announcement_body. unfold bind at 1.
  rewrite (load_stored env w _ Hs Hr).
  unfold bind at 1, lift at 1. cbn [py_iter].
  unfold bind at 1, lift at 1. rewrite first_with_id_stored, Hfind. cbn [option_map].
  change (py_truthy (to_json a)) with true. cbn [negb].
  unfold bind at 1, lift at 1. rewrite Hcid, Hch.
  unfold bind at 1, lift at 1.
  change (py_getitem (to_json a) "role_id") with (Ok (JInt (ann_role_id a))).
  cbv beta iota.
  unfold bind at 1, lift at 1. rewrite Hrole.
  unfold bind at 1, lift at 1. rewrite render_stored.
  change (py_getitem (to_json a) "repeating") with (Ok (JStr (ann_repeating a))).
  unfold bind, lift. cbn [py_eq_str]. reflexivity.
Qed.

End FiringFacts.

(** C6. No exception leaves the firing callback: whatever is raised in its
    body is logged as an error and the callback returns.  And when
    [channel.send] raises while a stored record is being delivered, nothing
    but the log has changed: a one-shot record is still stored, and its job
    is untouched. *)
Theorem failed_delivery_keeps_record `{P : Platform}
    (env : Env) (w : World) (anns : list Announcement) (announcement_id : string)
    (a : Announcement) (ch : Channel) (role : option string) (e : exn) :
  delivery_ready env w anns announcement_id a ch role ->
  channel_send ch (message_for role a) = Some e ->
  _execute_announcement env announcement_id w
  = (Ok tt, with_log (mkLog ERROR "Error executing announcement {}: {}"
                            [JStr announcement_id] (Some e)) w)
  /\ stored (snd (_execute_announcement env announcement_id w)) anns
  /\ In a anns
  /\ (forall (env' : Env) (id' : string) (w0 : World),
        exists w', _execute_announcement env' id' w0 = (Ok tt, w')
                   /\ (sent w' = sent w0 -> fs w' = fs w0 /\ jobs w' = jobs w0)
                   /\ (forall e' w1,
                         _execute_announcement_body env' id' w0 = (Raise e', w1) ->
                         w' = with_log (mkLog ERROR "Error executing announcement {}: {}"
                                              [JStr id'] (Some e')) w1)).
Proof.
  intros Hready Hsend.
  assert (Hrun : _execute_announcement env announcement_id w
                 = (Ok tt, with_log (mkLog ERROR "Error executing announcement {}: {}"
                                           [JStr announcement_id] (Some e)) w)).
  { unfold _execute_announcement, try_except.
    rewrite (body_until_send env w anns announcement_id a ch role Hready).
    unfold bind at 1, send. rewrite Hsend. reflexivity. }
  destruct Hready as (Hs & _ & Hfind & _).
  split; [exact Hrun|]. split; [by rewrite Hrun|].
  split; [by apply find_has_id in Hfind as (? & _)|].
  intros env' id' w0. unfold _execute_announcement, try_except.
  destruct (_execute_announcement_body env' id' w0) as [[[]|e'] w1] eqn:Hbody.
  - exists w1. split; [reflexivity|]. split; [|discriminate].
    by apply (body_changes_after_delivery env' id' w0 (Ok tt)).
  - eexists. split; [reflexivity|]. split.
    + cbn [sent fs jobs with_log logger]. unfold logger. cbn [sent fs jobs with_log].
      by apply (body_changes_after_delivery env' id' w0 (Raise e')).
    + by intros ? ? [= <- <-].
Qed.

Lemma simple_ready (ch : Channel) (anns : list Announcement) (announcement_id : string)
    (a : Announcement) :
  List.find (has_id announcement_id) anns = Some a ->
  guild_get_role ch (JInt (ann_role_id a)) = Ok (Some "@team") ->
  delivery_ready (Simple.env_with ch no_faults) (Simple.w_with anns) anns
                 announcement_id a ch (Some "@team").
Proof.
  intros Hfind Hrole. split; [apply simple_stored|]. split; [reflexivity|].
  split; [exact Hfind|]. split; [|exact Hrole]. by exists 42.
Qed.

Lemma failed_delivery_keeps_record_witness :
  _execute_announcement Simple.env_down "a1" (Simple.w_with [Simple.practice])
  = (Ok tt, with_log (mkLog ERROR "Error executing announcement {}: {}"
                            [JStr "a1"] (Some HTTPException))
                     (Simple.w_with [Simple.practice]))
  /\ stored (snd (_execute_announcement Simple.env_down "a1"
                    (Simple.w_with [Simple.practice]))) [Simple.practice].
Proof.
  destruct (failed_delivery_keeps_record Simple.env_down (Simple.w_with [Simple.practice])
              [Simple.practice] "a1" Simple.practice Simple.channel_down (Some "@team")
              HTTPException
              (simple_ready Simple.channel_down [Simple.practice] "a1" Simple.practice
                 eq_refl eq_refl)
              eq_refl) as (Hrun & Hstored & _).
  split; assumption.
Defined.

(** C1. A firing that delivers the message of a stored record removes the
    record exactly when its recurrence is [none].  With [none] the callback
    itself calls [delete_announcement]: afterwards no stored record has the
    id and no job with the id is left, so it cannot fire again.  With any
    other recurrence the files and the job table are as before the firing,
    and the record is still stored. *)
Theorem firing_removes_exactly_one_shots `{P : Platform}
    (env : Env) (w : World) (anns : list Announcement) (announcement_id : string)
    (a : Announcement) (ch : Channel) (role : option string) :
  codec_roundtrip ->
  faults env = no_faults ->
  delivery_ready env w anns announcement_id a ch role ->
  channel_send ch (message_for role a) = None ->
  exists w', _execute_announcement env announcement_id w = (Ok tt, w')
             /\ sent w' = (sent w ++ [(channel_id ch, message_for role a)])%list
             /\ (ann_repeating a = "none" ->
                 stored w' (List.filter (other_id announcement_id) anns)
                 /\ Forall (fun b => ann_id b <> announcement_id)
                           (List.filter (other_id announcement_id) anns)
                 /\ jobs w' !! announcement_id = None)
             /\ (ann_repeating a <> "none" ->
                 stored w' anns /\ In a anns
                 /\ fs w' = fs w /\ jobs w' = jobs w).
Proof.
  intros Hrt Hf Hready Hsend.
  unfold _execute_announcement, try_except.
  rewrite (body_until_send env w anns announcement_id a ch role Hready).
  destruct Hready as (Hs & _ & Hfind & _).
  apply find_has_id in Hfind as (Hin & Hid & Hex).
  unfold bind at 1, send. rewrite Hsend.
  unfold bind at 1, logger at 1.
  destruct (String.eqb_spec (ann_repeating a) "none") as [Hnone|Hrec].
  - set (w0 := with_log _ (with_sent _ w)).
    assert (Hs0 : stored w0 anns) by (by apply (stored_json_fs w)).
    destruct (delete_present env w0 anns announcement_id Hs0 Hf Hex)
      as (w1 & Hd & Hfile & Hjobs & Hsent).
    unfold bind, logger. rewrite Hd. eexists. split; [reflexivity|].
    cbn [sent fs jobs with_log]. split; [by rewrite Hsent|]. split; [|contradiction].
    intros _. split; [|split].
    + apply (stored_json_fs w1); [reflexivity|]. by apply stored_after_write.
    + apply filter_other_no_id.
    + rewrite Hjobs. apply lookup_delete_eq.
  - unfold ret. eexists. split; [reflexivity|].
    cbn [sent fs jobs with_log with_sent]. split; [reflexivity|].
    split; [contradiction|]. intros _. repeat split; assumption.
Qed.

Lemma firing_removes_exactly_one_shots_witness :
  (exists w', _execute_announcement Simple.env0 "a1"
                (Simple.w_with [Simple.practice; Simple.weekly_news]) = (Ok tt, w')
              /\ stored w' [Simple.weekly_news]
              /\ jobs w' !! "a1" = None)
  /\ (exists w', _execute_announcement Simple.env0 "a2"
                   (Simple.w_with [Simple.practice; Simple.weekly_news]) = (Ok tt, w')
                 /\ stored w' [Simple.practice; Simple.weekly_news]).
Proof.
  split.
  - destruct (firing_removes_exactly_one_shots Simple.env0 _
                [Simple.practice; Simple.weekly_news] "a1" Simple.practice
                Simple.channel_ok (Some "@team") simple_roundtrip eq_refl
                (simple_ready Simple.channel_ok [Simple.practice; Simple.weekly_news] "a1"
                   Simple.practice eq_refl eq_refl)
                eq_refl) as (w' & Hrun & _ & Hnone & _).
    destruct (Hnone eq_refl) as (Hs & _ & Hj).
    exists w'. repeat split; assumption.
  - destruct (firing_removes_exactly_one_shots Simple.env0 _
                [Simple.practice; Simple.weekly_news] "a2" Simple.weekly_news
                Simple.channel_ok (Some "@team") simple_roundtrip eq_refl
                (simple_ready Simple.channel_ok [Simple.practice; Simple.weekly_news] "a2"
                   Simple.weekly_news eq_refl eq_refl)
                eq_refl) as (w' & Hrun & _ & _ & Hrec).
    destruct Hrec as (Hs & _); [discriminate|].
    exists w'. split; assumption.
Defined.

(** ** Recovery *)

Section RecoveryFacts.
Context `{P : Platform}.

Lemma loop_step (env : Env) (a : Announcement) (rest : list json) (t : datetime)
    (rescheduled skipped : Z) (w : World) :
  fromisoformat (ann_datetime a) = Ok t ->
  comparable a = true ->
  reschedule_loop env (to_json a :: rest) rescheduled skipped w
  = if missed (now env) t a
    then reschedule_loop env rest rescheduled (skipped + 1) (recover_step env a t w)
    else reschedule_loop env rest (rescheduled + 1) skipped (recover_step env a t w).
Proof.
  intros Ht Hc. cbn [reschedule_loop]. unfold bind at 1, lift at 1.
  change (py_getitem (to_json a) "datetime") with (Ok (JStr (ann_datetime a))).
  cbv beta iota. unfold bind at 1, lift at 1. cbn [fromisoformat_json]. rewrite Ht.
  unfold bind at 1, lift at 1.
  change (py_getitem (to_json a) "repeating") with (Ok (JStr (ann_repeating a))).
  cbv beta iota. unfold bind at 1, lift at 1. cbn [py_eq_str is_aware_json].
  assert (Htest : (if String.eqb (ann_repeating a) "none"
                   then lt_now (is_aware (ann_datetime a)) t (now env)
                   else Ok false) = Ok (missed (now env) t a)).
  { unfold missed, comparable in *.
    destruct (String.eqb (ann_repeating a) "none"); [|reflexivity].
    cbn [andb] in *. apply negb_true_iff in Hc. by rewrite Hc. }
  rewrite Htest. unfold recover_step.
  destruct (missed (now env) t a).
  - unfold bind at 1, lift at 1.
    change (py_getitem (to_json a) "id") with (Ok (JStr (ann_id a))).
    reflexivity.
  - unfold bind at 1. by rewrite (schedule_job_stored env w a t Ht).
Qed.

(** The test of line 46 on a one-shot whose datetime is aware. *)
Lemma loop_incomparable (env : Env) (a : Announcement) (rest : list json) (t : datetime)
    (rescheduled skipped : Z) (w : World) :
  fromisoformat (ann_datetime a) = Ok t ->
  comparable a = false ->
  reschedule_loop env (to_json a :: rest) rescheduled skipped w = (Raise TypeError, w).
Proof.
  intros Ht Hc. cbn [reschedule_loop]. unfold bind at 1, lift at 1.
  change (py_getitem (to_json a) "datetime") with (Ok (JStr (ann_datetime a))).
  cbv beta iota. unfold bind at 1, lift at 1. cbn [fromisoformat_json]. rewrite Ht.
  unfold bind at 1, lift at 1.
  change (py_getitem (to_json a) "repeating") with (Ok (JStr (ann_repeating a))).
  cbv beta iota. unfold bind at 1, lift at 1. cbn [py_eq_str is_aware_json].
  unfold comparable in Hc. apply negb_false_iff, andb_true_iff in Hc as [-> ->].
  reflexivity.
Qed.

Lemma loop_unparsable (env : Env) (a : Announcement) (rest : list json) (e : exn)
    (rescheduled skipped : Z) (w : World) :
  fromisoformat (ann_datetime a) = Raise e ->
  reschedule_loop env (to_json a :: rest) rescheduled skipped w = (Raise e, w).
Proof.
  intros Ht. cbn [reschedule_loop]. unfold bind at 1, lift at 1.
  change (py_getitem (to_json a) "datetime") with (Ok (JStr (ann_datetime a))).
  cbv beta iota. unfold bind at 1, lift at 1. cbn [fromisoformat_json]. by rewrite Ht.
Qed.

(** The loop over stored records whose datetimes all parse, naive for the
    one-shots: it ends, with the number of records that were not skipped
    and of those that were. *)
Lemma loop_stored (env : Env) (anns : list Announcement) :
  Forall (fun a => is_Some (fire_time a)) anns ->
  Forall (fun a => comparable a = true) anns ->
  forall (rescheduled skipped : Z) (w : World),
    reschedule_loop env (map to_json anns) rescheduled skipped w
    = (Ok (rescheduled + Z.of_nat (length (List.filter (not_missed env) anns)),
           skipped + Z.of_nat (length (List.filter (is_missed env) anns))),
       recover_world env anns w).
Proof.
  induction 1 as [|a anns [t Ht] _ IH]; intros Hcomp rescheduled skipped w.
  - cbn. by rewrite !Z.add_0_r.
  - apply Forall_cons in Hcomp as [Hc Hcomp]. specialize (IH Hcomp).
    assert (Hp : fromisoformat (ann_datetime a) = Ok t).
    { unfold fire_time in Ht. by destruct (fromisoformat (ann_datetime a)); simplify_eq. }
    cbn [map]. rewrite (loop_step env a _ t _ _ w Hp Hc).
    assert (Hm : is_missed env a = missed (now env) t a) by (unfold is_missed; by rewrite Ht).
    cbn [recover_world List.filter].
    change (not_missed env a) with (negb (is_missed env a)). rewrite Hm, Ht.
    destruct (missed (now env) t a); rewrite IH; cbn [negb length];
      do 2 f_equal; f_equal; lia.
Qed.

(** Recovery never writes a file and never delivers. *)
Lemma recover_world_keeps (env : Env) (anns : list Announcement) (w : World) :
  fs (recover_world env anns w) = fs w /\ sent (recover_world env anns w) = sent w.
Proof.
  revert w. induction anns as [|a anns IH]; intros w; [done|].
  cbn [recover_world]. destruct (fire_time a) as [t|]; [|done].
  destruct (IH (recover_step env a t w)) as [-> ->].
  unfold recover_step, scheduled_world.
  by destruct (missed (now env) t a), (make_trigger t (JStr (ann_repeating a))).
Qed.

(** The log only grows. *)
Lemma recover_world_log (env : Env) (anns : list Announcement) (w : World) :
  exists more, log (recover_world env anns w) = (log w ++ more)%list.
Proof.
  revert w. induction anns as [|a anns IH]; intros w.
  - exists []. cbn. by rewrite app_nil_r.
  - cbn [recover_world]. destruct (fire_time a) as [t|];
      [|exists []; by rewrite app_nil_r].
    destruct (IH (recover_step env a t w)) as [more ->].
    unfold recover_step, scheduled_world.
    destruct (missed (now env) t a), (make_trigger t (JStr (ann_repeating a)));
      cbn [log with_log with_jobs]; rewrite <- app_assoc; by eexists.
Qed.

(** A job whose id no later record carries is left alone. *)
Lemma recover_world_other (env : Env) (anns : list Announcement) (w : World)
    (job_id : string) :
  ~ In job_id (map ann_id anns) ->
  jobs (recover_world env anns w) !! job_id = jobs w !! job_id.
Proof.
  revert w. induction anns as [|a anns IH]; intros w Hnot; [done|].
  cbn [recover_world]. destruct (fire_time a) as [t|]; [|done].
  cbn [map In] in Hnot. rewrite IH by tauto.
  assert (Hne : ann_id a <> job_id) by tauto.
  unfold recover_step, scheduled_world.
  destruct (missed (now env) t a), (make_trigger t (JStr (ann_repeating a)));
    cbn [jobs with_log with_jobs]; by simplify_map_eq.
Qed.

(** With distinct ids, the job of every stored record after recovery: as it
    was for a missed one-shot, the trigger of its recurrence otherwise, and
    none when the recurrence has no trigger. *)
Lemma recover_world_job (env : Env) (anns : list Announcement) (w : World)
    (a : Announcement) (t : datetime) :
  Forall (fun b => is_Some (fire_time b)) anns ->
  NoDup (map ann_id anns) ->
  In a anns -> fire_time a = Some t ->
  jobs (recover_world env anns w) !! ann_id a
  = if missed (now env) t a then jobs w !! ann_id a
    else (fun trigger => mkJob trigger [ann_id a])
           <$> make_trigger t (JStr (ann_repeating a)).
Proof.
  intros Hall. revert w.
  induction Hall as [|b anns [tb Hb] _ IH]; intros w Hnd Hin Ht; [destruct Hin|].
  cbn [map] in Hnd. apply NoDup_cons in Hnd as [Hfresh Hnd].
  cbn [recover_world]. rewrite Hb. destruct Hin as [->|Hin].
  - assert (tb = t) by congruence. subst tb.
    rewrite recover_world_other by (by rewrite <- list_elem_of_In).
    unfold recover_step, scheduled_world.
    destruct (missed (now env) t a); [done|].
    destruct (make_trigger t (JStr (ann_repeating a)));
      cbn [jobs with_log with_jobs fmap option_fmap option_map]; by simplify_map_eq.
  - rewrite (IH _ Hnd Hin Ht).
    assert (Hne : ann_id b <> ann_id a).
    { intros Heq. apply Hfresh. rewrite Heq, list_elem_of_In. by apply in_map. }
    destruct (missed (now env) t a); [|done].
    unfold recover_step, scheduled_world.
    destruct (missed (now env) tb b), (make_trigger tb (JStr (ann_repeating b)));
      cbn [jobs with_log with_jobs]; by simplify_map_eq.
Qed.

(** A record that is not skipped and whose recurrence has no trigger leaves
    an error in the log. *)
Lemma recover_world_error (env : Env) (anns : list Announcement) (w : World)
    (a : Announcement) (t : datetime) :
  Forall (fun b => is_Some (fire_time b)) anns ->
  In a anns -> fire_time a = Some t ->
  missed (now env) t a = false ->
  make_trigger t (JStr (ann_repeating a)) = None ->
  In (mkLog ERROR "Unknown repeating type: {}" [JStr (ann_repeating a)] None)
     (log (recover_world env anns w)).
Proof.
  intros Hall. revert w.
  induction Hall as [|b anns [tb Hb] _ IH]; intros w Hin Ht Hm Hnone; [destruct Hin|].
  cbn [recover_world]. rewrite Hb. destruct Hin as [->|Hin].
  - assert (tb = t) by congruence. subst tb.
    destruct (recover_world_log env anns (recover_step env a t w)) as [more ->].
    apply in_or_app. left. unfold recover_step, scheduled_world. rewrite Hm, Hnone.
    cbn [log with_log with_jobs]. apply in_or_app. right. by left.
  - by apply IH.
Qed.

(** [load_and_reschedule_announcements] on stored records whose datetimes
    all parse, naive for the one-shots. *)
Lemma recovery_stored (env : Env) (w : World) (anns : list Announcement) :
  stored w anns -> fault_read (faults env) = None ->
  Forall (fun a => is_Some (fire_time a)) anns ->
  Forall (fun a => comparable a = true) anns ->
  load_and_reschedule_announcements env w
  = (Ok tt,
     with_log (mkLog INFO "Rescheduled {} announcements, skipped {} missed announcements"
                 [JInt (Z.of_nat (length (List.filter (not_missed env) anns)));
                  JInt (Z.of_nat (length (List.filter (is_missed env) anns)))] None)
       (recover_world env anns w)).
Proof.
  intros Hs Hr Hall Hcomp. unfold load_and_reschedule_announcements, bind at 1.
  rewrite (load_stored env w _ Hs Hr). unfold bind at 1, lift. cbn [py_iter].
  unfold bind. rewrite (loop_stored env anns Hall Hcomp). reflexivity.
Qed.

(** An exception raised for one record ends recovery: the records before it
    have been handled, the records after it have not. *)
Lemma recovery_stops_at_exception (env : Env) (w : World)
    (before after : list Announcement) (a : Announcement) (e : exn) :
  stored w (before ++ a :: after) -> fault_read (faults env) = None ->
  Forall (fun b => is_Some (fire_time b)) before ->
  Forall (fun b => comparable b = true) before ->
  recovery_error a = Some e ->
  load_and_reschedule_announcements env w = (Raise e, recover_world env before w).
Proof.
  intros Hs Hr Hall Hcomp He. unfold load_and_reschedule_announcements, bind at 1.
  rewrite (load_stored env w _ Hs Hr). unfold bind at 1, lift. cbn [py_iter].
  unfold bind.
  assert (Hloop : forall r s w0,
            reschedule_loop env (map to_json (before ++ a :: after)) r s w0
            = (Raise e, recover_world env before w0)).
  { clear Hs. induction Hall as [|b before [tb Hb] _ IH]; intros r s w0.
    - cbn [app map recover_world]. unfold recovery_error in He.
      destruct (fromisoformat (ann_datetime a)) as [t|e'] eqn:Ht.
      + destruct (comparable a) eqn:Hc; [discriminate|]. simplify_eq.
        by apply (loop_incomparable env a _ t).
      + simplify_eq. by apply loop_unparsable.
    - apply Forall_cons in Hcomp as [Hc Hcomp]. specialize (IH Hcomp).
      assert (Hp : fromisoformat (ann_datetime b) = Ok tb).
      { unfold fire_time in Hb. by destruct (fromisoformat (ann_datetime b)); simplify_eq. }
      cbn [app map recover_world]. rewrite (loop_step env b _ tb _ _ w0 Hp Hc), Hb.
      destruct (missed (now env) tb b); apply IH. }
  by rewrite Hloop.
Qed.

(** Lines 43-46 raise on none of the records: every datetime parses, and
    is naive for the one-shots. *)
Lemma no_recovery_error (anns : list Announcement) :
  Forall (fun a => recovery_error a = None) anns ->
  Forall (fun a => is_Some (fire_time a)) anns
  /\ Forall (fun a => comparable a = true) anns.
Proof.
  induction 1 as [|a anns Ha _ [IH1 IH2]]; [by split|].
  unfold recovery_error in Ha.
  split; constructor; try assumption; unfold fire_time;
    destruct (fromisoformat (ann_datetime a)); try discriminate;
    [by eexists | by destruct (comparable a)].
Qed.

End RecoveryFacts.

(** As stated, C3 fails for a stored record whose recurrence is none of the
    four literals: it is not a missed one-shot, recovery counts it as
    rescheduled, and no job is registered for it. *)
Lemma recovery_counts_unscheduled_record :
  fst (Simple.recovered [Simple.yearly_news]) = Ok tt
  /\ is_missed Simple.env0 Simple.yearly_news = false
  /\ jobs (snd (Simple.recovered [Simple.yearly_news])) !! "a4" = None
  /\ last (log (snd (Simple.recovered [Simple.yearly_news])))
     = Some (mkLog INFO "Rescheduled {} announcements, skipped {} missed announcements"
                   [JInt 1; JInt 0] None).
Proof. repeat split; vm_compute; reflexivity. Qed.

(** C3, amended. Recovery over stored records with distinct, non-empty ids
    whose datetimes parse, and are naive for the one-shots (no UTC offset,
    so that the comparison with now in line 46 does not raise), returns,
    writes no file and delivers nothing.  A one-shot whose time is strictly
    before now is counted as skipped and its job entry is what it was before
    recovery: no timer is registered for it.  Every other record is counted
    as rescheduled, and gets a job with the trigger of its recurrence when
    the recurrence is one of [none], [daily], [weekly], [monthly], and no
    job otherwise. *)
Theorem recovery_skips_missed_one_shots `{P : Platform}
    (env : Env) (w : World) (anns : list Announcement) :
  stored w anns ->
  fault_read (faults env) = None ->
  Forall (fun a => is_Some (fire_time a)) anns ->
  Forall (fun a => comparable a = true) anns ->
  Forall (fun a => ann_id a <> "") anns ->
  NoDup (map ann_id anns) ->
  exists w', load_and_reschedule_announcements env w = (Ok tt, w')
             /\ fs w' = fs w /\ sent w' = sent w
             /\ last (log w')
                = Some (mkLog INFO
                          "Rescheduled {} announcements, skipped {} missed announcements"
                          [JInt (Z.of_nat (length (List.filter (not_missed env) anns)));
                           JInt (Z.of_nat (length (List.filter (is_missed env) anns)))]
                          None)
             /\ (forall a t, In a anns -> fire_time a = Some t ->
                   (missed (now env) t a = true ->
                    jobs w' !! ann_id a = jobs w !! ann_id a)
                   /\ (missed (now env) t a = false ->
                       jobs w' !! ann_id a
                       = (fun trigger => mkJob trigger [ann_id a])
                           <$> make_trigger t (JStr (ann_repeating a))
                       /\ (is_Some (jobs w' !! ann_id a)
                           <-> recognised (ann_repeating a) = true))).
Proof.
  intros Hs Hr Hall Hcomp _ Hnd. eexists. split; [by apply recovery_stored|].
  cbn [fs sent log jobs with_log].
  destruct (recover_world_keeps env anns w) as [Hfs Hsent].
  split; [exact Hfs|]. split; [exact Hsent|]. split; [apply last_snoc|].
  intros a t Hin Ht.
  pose proof (recover_world_job env anns w a t Hall Hnd Hin Ht) as Hjob.
  split; intros Hm; rewrite Hm in Hjob; [exact Hjob|].
  split; [exact Hjob|]. rewrite Hjob, <- make_trigger_recognised.
  apply fmap_is_Some.
Qed.

(** On the small platform every datetime is naive. *)
Lemma simple_comparable (anns : list Announcement) :
  Forall (fun a => @comparable Simple.platform a = true) anns.
Proof.
  apply List.Forall_forall. intros a _. unfold comparable.
  cbn [is_aware Simple.platform]. by rewrite andb_false_r.
Qed.

Lemma nonempty_ids (anns : list Announcement) :
  forallb (fun a => negb (String.eqb (ann_id a) "")) anns = true ->
  Forall (fun a => ann_id a <> "") anns.
Proof.
  intros Hall. apply List.Forall_forall. intros a Hin.
  apply (proj1 (List.forallb_forall _ _) Hall) in Hin.
  intros Heq. rewrite Heq in Hin. discriminate Hin.
Qed.

Lemma simple_parses (anns : list Announcement) :
  forallb (fun a => match Simple.parse_iso (ann_datetime a) with
                    | Ok _ => true
                    | Raise _ => false
                    end) anns = true ->
  Forall (fun a => is_Some (@fire_time Simple.platform a)) anns.
Proof.
  intros Hall. apply List.Forall_forall. intros a Hin.
  apply (proj1 (List.forallb_forall _ _) Hall) in Hin.
  unfold fire_time. cbn [fromisoformat Simple.platform].
  destruct (Simple.parse_iso (ann_datetime a)); [by eexists | discriminate].
Qed.

Lemma recovery_skips_missed_one_shots_witness :
  exists w', load_and_reschedule_announcements Simple.env0
               (Simple.w_with [Simple.practice; Simple.weekly_news; Simple.past_one_shot])
             = (Ok tt, w')
             /\ stored w' [Simple.practice; Simple.weekly_news; Simple.past_one_shot]
             /\ jobs w' !! "a3" = None
             /\ jobs w' !! "a2" = Some (mkJob (CronTrigger None (Some 6) 18 0) ["a2"]).
Proof.
  destruct (recovery_skips_missed_one_shots Simple.env0
              (Simple.w_with [Simple.practice; Simple.weekly_news; Simple.past_one_shot])
              [Simple.practice; Simple.weekly_news; Simple.past_one_shot]
              (simple_stored _) eq_refl
              (simple_parses [Simple.practice; Simple.weekly_news; Simple.past_one_shot]
                 eq_refl)
              (simple_comparable _)
              (nonempty_ids [Simple.practice; Simple.weekly_news; Simple.past_one_shot]
                 eq_refl))
    as (w' & Hrun & Hfs & _ & _ & Hjobs).
  { apply (bool_decide_unpack _). reflexivity. }
  exists w'. split; [exact Hrun|]. split; [|split].
  - apply (stored_json_fs (Simple.w_with
             [Simple.practice; Simple.weekly_news; Simple.past_one_shot]));
      [exact Hfs | apply simple_stored].
  - destruct (Hjobs Simple.past_one_shot (mkDatetime 2026 1 15 18 0 0 0)) as [Hskip _];
      [cbn; tauto | reflexivity |].
    exact (eq_trans (Hskip eq_refl) eq_refl).
  - destruct (Hjobs Simple.weekly_news (mkDatetime 2026 2 15 18 0 0 0)) as [_ Hsched];
      [cbn; tauto | reflexivity |].
    destruct (Hsched eq_refl) as [Hjob _]. exact (eq_trans Hjob eq_refl).
Defined.

(** As stated, C5 fails when the datetime of a stored record does not
    parse: the [ValueError] leaves the loop and recovery, and the weekly
    announcement stored after it, which is scheduled without error on its
    own, gets no job.  [initialize] raises as well. *)
Lemma recovery_aborts_on_exception :
  fst (Simple.recovered [Simple.undated; Simple.weekly_news]) = Raise ValueError
  /\ jobs (snd (Simple.recovered [Simple.undated; Simple.weekly_news])) !! "a2" = None
  /\ fst (_schedule_job Simple.env0 (to_json Simple.weekly_news) Simple.w_empty) = Ok tt
  /\ fst (initialize Simple.env0
            (Simple.w_stopped [Simple.undated; Simple.weekly_news])) = Raise ValueError.
Proof. repeat split; vm_compute; reflexivity. Qed.

(** The same happens at a one-shot whose stored datetime carries a UTC
    offset: the datetime parses, the comparison with now raises
    [TypeError], and the weekly announcement stored after it gets no job.
    A weekly record with such a datetime is scheduled: its datetime is not
    compared. *)
Lemma recovery_raises_on_aware_one_shot :
  fst (Zoned.recovered [Zoned.practice_utc; Simple.weekly_news]) = Raise TypeError
  /\ jobs (snd (Zoned.recovered [Zoned.practice_utc; Simple.weekly_news])) !! "a2" = None
  /\ fst (Zoned.recovered [Zoned.weekly_utc]) = Ok tt
  /\ jobs (snd (Zoned.recovered [Zoned.weekly_utc])) !! "a8"
     = Some (mkJob (CronTrigger None (Some 6) 18 0) ["a8"]).
Proof. repeat split; vm_compute; reflexivity. Qed.

(** C5, amended. A recurrence that is none of the four literals does not
    stop recovery.  Over stored records with distinct, non-empty ids whose
    datetimes parse, and are naive for the one-shots (no UTC offset: the
    [TypeError] of the comparison in line 46 is not caught either),
    recovery returns; each record that is not a missed one-shot and whose
    recurrence has a trigger gets its job, whatever the recurrences of the
    other records, and each one whose recurrence has no trigger is reported
    in the log at error level and gets no job. *)
Theorem recovery_survives_unknown_recurrence `{P : Platform}
    (env : Env) (w : World) (anns : list Announcement) :
  stored w anns ->
  fault_read (faults env) = None ->
  Forall (fun a => is_Some (fire_time a)) anns ->
  Forall (fun a => comparable a = true) anns ->
  Forall (fun a => ann_id a <> "") anns ->
  NoDup (map ann_id anns) ->
  exists w', load_and_reschedule_announcements env w = (Ok tt, w')
             /\ (forall a t, In a anns -> fire_time a = Some t ->
                   missed (now env) t a = false ->
                   (forall trigger,
                      make_trigger t (JStr (ann_repeating a)) = Some trigger ->
                      jobs w' !! ann_id a = Some (mkJob trigger [ann_id a]))
                   /\ (make_trigger t (JStr (ann_repeating a)) = None ->
                       jobs w' !! ann_id a = None
                       /\ In (mkLog ERROR "Unknown repeating type: {}"
                                    [JStr (ann_repeating a)] None)
                             (log w'))).
Proof.
  intros Hs Hr Hall Hcomp _ Hnd. eexists. split; [by apply recovery_stored|].
  cbn [jobs log with_log]. intros a t Hin Ht Hm.
  pose proof (recover_world_job env anns w a t Hall Hnd Hin Ht) as Hjob.
  rewrite Hm in Hjob. split.
  - intros trigger Htr. by rewrite Hjob, Htr.
  - intros Hnone. split; [by rewrite Hjob, Hnone|].
    apply in_or_app. left. by apply (recover_world_error env anns w a t).
Qed.

Lemma recovery_survives_unknown_recurrence_witness :
  exists w', load_and_reschedule_announcements Simple.env0
               (Simple.w_with [Simple.yearly_news; Simple.weekly_news]) = (Ok tt, w')
             /\ jobs w' !! "a2" = Some (mkJob (CronTrigger None (Some 6) 18 0) ["a2"])
             /\ jobs w' !! "a4" = None
             /\ In (mkLog ERROR "Unknown repeating type: {}" [JStr "yearly"] None) (log w').
Proof.
  destruct (recovery_survives_unknown_recurrence Simple.env0
              (Simple.w_with [Simple.yearly_news; Simple.weekly_news])
              [Simple.yearly_news; Simple.weekly_news]
              (simple_stored _) eq_refl
              (simple_parses [Simple.yearly_news; Simple.weekly_news] eq_refl)
              (simple_comparable _)
              (nonempty_ids [Simple.yearly_news; Simple.weekly_news] eq_refl))
    as (w' & Hrun & Hjobs).
  { apply (bool_decide_unpack _). reflexivity. }
  exists w'. split; [exact Hrun|].
  destruct (Hjobs Simple.weekly_news (mkDatetime 2026 2 15 18 0 0 0)) as [Hweekly _];
    [cbn; tauto | reflexivity | reflexivity |].
  destruct (Hjobs Simple.yearly_news (mkDatetime 2026 3 1 9 0 0 0)) as [_ Hyearly];
    [cbn; tauto | reflexivity | reflexivity |].
  destruct (Hyearly eq_refl) as [Hnone Hlog].
  split; [exact (Hweekly _ eq_refl)|]. split; [exact Hnone | exact Hlog].
Defined.

(** C4. A recurrence outside [none], [daily], [weekly], [monthly] has no
    trigger.  [_schedule_job] then logs an error and returns without
    raising: no job is left under the id of the record, every other job is
    as it was, and the recovery loop goes on with the records that
    follow. *)
Theorem unknown_recurrence_is_contained `{P : Platform}
    (env : Env) (w : World) (a : Announcement) (t : datetime) :
  ~ In (ann_repeating a) ["none"; "daily"; "weekly"; "monthly"] ->
  fromisoformat (ann_datetime a) = Ok t ->
  make_trigger t (JStr (ann_repeating a)) = None
  /\ exists w', _schedule_job env (to_json a) w = (Ok tt, w')
                /\ log w' = (log w ++ [mkLog ERROR "Unknown repeating type: {}"
                                             [JStr (ann_repeating a)] None])%list
                /\ jobs w' !! ann_id a = None
                /\ (forall job_id, job_id <> ann_id a -> jobs w' !! job_id = jobs w !! job_id)
                /\ fs w' = fs w /\ sent w' = sent w
                /\ (forall rest rescheduled skipped,
                      reschedule_loop env (to_json a :: rest) rescheduled skipped w
                      = reschedule_loop env rest (rescheduled + 1) skipped w').
Proof.
  intros Hout Ht.
  assert (Hnone : make_trigger t (JStr (ann_repeating a)) = None).
  { unfold make_trigger, py_eq_str.
    destruct (String.eqb_spec (ann_repeating a) "none") as [E|_];
      [rewrite E in Hout; cbn in Hout; tauto|].
    destruct (String.eqb_spec (ann_repeating a) "daily") as [E|_];
      [rewrite E in Hout; cbn in Hout; tauto|].
    destruct (String.eqb_spec (ann_repeating a) "weekly") as [E|_];
      [rewrite E in Hout; cbn in Hout; tauto|].
    destruct (String.eqb_spec (ann_repeating a) "monthly") as [E|_];
      [rewrite E in Hout; cbn in Hout; tauto|].
    reflexivity. }
  split; [exact Hnone|].
  exists (scheduled_world a t w). split; [by apply schedule_job_stored|].
  assert (Hm : missed (now env) t a = false).
  { unfold missed. destruct (String.eqb_spec (ann_repeating a) "none") as [E|_]; [|done].
    rewrite E in Hout. cbn in Hout. tauto. }
  repeat split.
  - unfold scheduled_world. by rewrite Hnone.
  - unfold scheduled_world. rewrite Hnone. cbn [jobs with_log with_jobs].
    apply lookup_delete_eq.
  - intros job_id Hne. unfold scheduled_world. rewrite Hnone. cbn [jobs with_log with_jobs].
    by apply lookup_delete_ne.
  - unfold scheduled_world. by rewrite Hnone.
  - unfold scheduled_world. by rewrite Hnone.
  - intros rest rescheduled skipped.
    assert (Hc : comparable a = true).
    { unfold comparable.
      destruct (String.eqb_spec (ann_repeating a) "none") as [E|_]; [|done].
      rewrite E in Hout. cbn in Hout. tauto. }
    rewrite (loop_step env a rest t rescheduled skipped w Ht Hc), Hm.
    unfold recover_step. by rewrite Hm.
Qed.

Lemma unknown_recurrence_is_contained_witness :
  make_trigger (mkDatetime 2026 3 1 9 0 0 0) (JStr "yearly") = None
  /\ exists w', _schedule_job Simple.env0 (to_json Simple.yearly_news) Simple.w_empty
                = (Ok tt, w')
                /\ log w' = [mkLog ERROR "Unknown repeating type: {}" [JStr "yearly"] None]
                /\ jobs w' !! "a4" = None.
Proof.
  destruct (unknown_recurrence_is_contained Simple.env0 Simple.w_empty Simple.yearly_news
              (mkDatetime 2026 3 1 9 0 0 0)) as (Hnone & w' & Hrun & Hlog & Hjob & _).
  - cbn. intros [H|[H|[H|[H|[]]]]]; discriminate.
  - reflexivity.
  - split; [exact Hnone|]. exists w'. repeat split; assumption.
Defined.

(** ** The weekly rule *)


Lemma fires_at_cron (d dow : option Z) (h m : Z) (t : datetime) :
  fires_at (CronTrigger d dow h m) t = true
  <-> cron_field d (day t) = true /\ cron_field dow (weekday t) = true
      /\ hour t = h /\ minute t = m /\ second t = 0 /\ microsecond t = 0.
Proof.
  unfold fires_at. rewrite !andb_true_iff, !Z.eqb_eq. tauto.
Qed.



(** * Further properties of the scheduler *)

(** ** The store, beyond the claims *)

(** X1. [_load_announcements] fails soft.  It never raises and never
    touches the files, the jobs or the messages sent.  A file that does not
    parse, a document that is not a JSON object, and a failing read all
    load as the empty list, with the exception in the log at error
    level. *)
Theorem load_fails_soft `{P : Platform} (env : Env) (w : World) (b : bytes) :
  fs w !! ANNOUNCEMENTS_FILE = Some b ->
  (exists v w', _load_announcements env w = (Ok v, w')
                /\ fs w' = fs w /\ jobs w' = jobs w /\ sent w' = sent w)
  /\ (forall e, fault_read (faults env) = Some e ->
        _load_announcements env w
        = (Ok (JList []),
           with_log (mkLog ERROR "Error loading announcements: {}" [] (Some e)) w))
  /\ (forall e, fault_read (faults env) = None -> json_loads b = Raise e ->
        _load_announcements env w
        = (Ok (JList []),
           with_log (mkLog ERROR "Error loading announcements: {}" [] (Some e)) w))
  /\ (forall data, fault_read (faults env) = None -> json_loads b = Ok data ->
        (forall fields, data <> JObj fields) ->
        _load_announcements env w
        = (Ok (JList []),
           with_log (mkLog ERROR "Error loading announcements: {}" []
                           (Some AttributeError)) w)).
Proof.
  intros Hc. split; [|split; [|split]].
  - destruct (load_total env w) as (v & w' & Hl & Hfs & Hjobs & Hsent & _).
    by exists v, w'.
  - intros e Hf.
    unfold _load_announcements, try_except, bind, path_exists, read_text, lift, logger, ret.
    run. reflexivity.
  - intros e Hf He.
    unfold _load_announcements, try_except, bind, path_exists, read_text, lift, logger, ret.
    run. reflexivity.
  - intros data Hf Hd Hnot.
    unfold _load_announcements, try_except, bind, path_exists, read_text, lift, logger, ret.
    run. destruct data; try reflexivity. by destruct (Hnot fields).
Qed.

Lemma load_fails_soft_witness :
  _load_announcements Simple.env0 More.w_garbled
  = (Ok (JList []),
     with_log (mkLog ERROR "Error loading announcements: {}" [] (Some ValueError))
              More.w_garbled)
  /\ _load_announcements Simple.env0 More.w_list_file
     = (Ok (JList []),
        with_log (mkLog ERROR "Error loading announcements: {}" [] (Some AttributeError))
                 More.w_list_file).
Proof.
  split.
  - destruct (load_fails_soft Simple.env0 More.w_garbled None eq_refl)
      as (_ & _ & Hparse & _).
    exact (Hparse ValueError eq_refl eq_refl).
  - destruct (load_fails_soft Simple.env0 More.w_list_file (Some (JList [JInt 1])) eq_refl)
      as (_ & _ & _ & Hshape).
    apply (Hshape (JList [JInt 1]) eq_refl eq_refl). discriminate.
Defined.

(** X2. A write without failures followed by a load is a round trip: the
    load returns the collection that was written.  The backup slot then
    holds what the announcements file held before the write (one slot: an
    older backup is gone), and the temporary file is gone. *)
Theorem write_then_load `{P : Platform} (env env' : Env) (w : World) (v : json) :
  codec_roundtrip ->
  faults env = no_faults ->
  fault_read (faults env') = None ->
  exists w', _write_announcements env v w = (Ok tt, w')
             /\ _load_announcements env' w' = (Ok v, w')
             /\ fs w' !! BACKUP_FILE
                = match fs w !! ANNOUNCEMENTS_FILE with
                  | Some old => Some old
                  | None => fs w !! BACKUP_FILE
                  end
             /\ fs w' !! temp_file = None.
Proof.
  intros Hrt Hf Hr. destruct paths_distinct as (Hab & Hat & Hbt).
  assert (Hrun : exists w', _write_announcements env v w = (Ok tt, w')
             /\ fs w' !! ANNOUNCEMENTS_FILE = Some (json_dumps (JObj [("announcements", v)]))
             /\ fs w' !! BACKUP_FILE
                = match fs w !! ANNOUNCEMENTS_FILE with
                  | Some old => Some old
                  | None => fs w !! BACKUP_FILE
                  end
             /\ fs w' !! temp_file = None).
  { unfold _write_announcements, try_except, bind, path_exists, os_remove, os_rename,
      write_text, logger, ret.
    rewrite Hf.
    destruct (fs w !! ANNOUNCEMENTS_FILE) as [old|] eqn:Hc;
      [destruct (fs w !! BACKUP_FILE) as [bak|] eqn:Hb|];
      run; (eexists; split; [reflexivity|]); run; auto. }
  destruct Hrun as (w' & Hw & Hfile & Hbak & Htmp).
  exists w'. split; [exact Hw|]. split; [|by split].
  apply load_stored; [|exact Hr]. by apply stored_after_write.
Qed.

Lemma write_then_load_witness :
  exists w', _write_announcements Simple.env0 (JList [to_json Simple.weekly_news])
               Simple.w_backed_up = (Ok tt, w')
             /\ _load_announcements Simple.env0 w'
                = (Ok (JList [to_json Simple.weekly_news]), w')
             /\ fs w' !! BACKUP_FILE = Some (Simple.file_of [Simple.practice])
             /\ fs w' !! temp_file = None.
Proof.
  apply (write_then_load Simple.env0 Simple.env0 Simple.w_backed_up
           (JList [to_json Simple.weekly_news]) simple_roundtrip eq_refl eq_refl).
Defined.

(** X3. A failure while the temporary file is opened or written is handled
    like a failed swap: the announcements file is put back from the backup
    with the contents it had before the call, and the exception is raised
    to the caller. *)
Theorem temp_write_failure_restores `{P : Platform}
    (env : Env) (w : World) (announcements : json) (c0 : bytes)
    (e : exn) (partial : option bytes) :
  fs w !! ANNOUNCEMENTS_FILE = Some c0 ->
  fault_remove_backup (faults env) = None ->
  fault_make_backup (faults env) = None ->
  fault_write_temp (faults env) = Some (e, partial) ->
  fault_restore (faults env) = None ->
  exists w', _write_announcements env announcements w = (Raise e, w')
             /\ fs w' !! ANNOUNCEMENTS_FILE = Some c0
             /\ fs w' !! BACKUP_FILE = None
             /\ jobs w' = jobs w /\ sent w' = sent w.
Proof.
  intros Hc H1 H2 H3 H5. destruct paths_distinct as (Hab & Hat & Hbt).
  unfold _write_announcements, try_except, bind, path_exists, os_remove, os_rename,
    write_text, logger, ret, raise.
  rewrite H1, H2, H3, H5.
  destruct partial as [p|]; destruct (fs w !! BACKUP_FILE) as [bak|] eqn:Hb;
    run; (eexists; split; [reflexivity|]); run; auto.
Qed.

Lemma temp_write_failure_restores_witness :
  exists w', _write_announcements More.env_temp_fails (JList []) Simple.w_backed_up
             = (Raise OSError, w')
             /\ fs w' !! ANNOUNCEMENTS_FILE = Some (Simple.file_of [Simple.practice])
             /\ fs w' !! BACKUP_FILE = None
             /\ jobs w' = jobs Simple.w_backed_up /\ sent w' = sent Simple.w_backed_up.
Proof.
  apply (temp_write_failure_restores More.env_temp_fails Simple.w_backed_up (JList [])
           (Simple.file_of [Simple.practice]) OSError (Some None)); reflexivity.
Defined.

(** X4. The restore takes whatever is in the backup slot.  When there is no
    announcements file but a backup from an earlier run, a failed swap
    creates the announcements file from that old backup. *)
Theorem stale_backup_is_restored `{P : Platform}
    (env : Env) (w : World) (announcements : json) (b0 : bytes) (e : exn) :
  fs w !! ANNOUNCEMENTS_FILE = None ->
  fs w !! BACKUP_FILE = Some b0 ->
  fault_write_temp (faults env) = None ->
  fault_swap (faults env) = Some e ->
  fault_restore (faults env) = None ->
  exists w', _write_announcements env announcements w = (Raise e, w')
             /\ fs w' !! ANNOUNCEMENTS_FILE = Some b0
             /\ fs w' !! BACKUP_FILE = None.
Proof.
  intros Hc Hb H3 H4 H5. destruct paths_distinct as (Hab & Hat & Hbt).
  unfold _write_announcements, try_except, bind, path_exists, os_remove, os_rename,
    write_text, logger, ret, raise.
  rewrite H3, H4, H5.
  run. eexists; split; [reflexivity|]. run. auto.
Qed.

Lemma stale_backup_is_restored_witness :
  exists w', _write_announcements Simple.env_swap_fails (JList []) More.w_only_backup
             = (Raise OSError, w')
             /\ fs w' !! ANNOUNCEMENTS_FILE = Some (Simple.file_of [Simple.practice])
             /\ fs w' !! BACKUP_FILE = None.
Proof.
  apply (stale_backup_is_restored Simple.env_swap_fails More.w_only_backup (JList [])
           (Simple.file_of [Simple.practice]) OSError); reflexivity.
Defined.

(** X5. When the old backup cannot be removed, the announcements file has
    not been moved yet, and the restore renames the old backup over it
    ([os.rename] replaces its destination, as on POSIX): the current
    collection is replaced by the one before it, and the exception of
    [os.remove] is raised. *)
Theorem backup_removal_failure_reverts `{P : Platform}
    (env : Env) (w : World) (announcements : json) (c1 b0 : bytes) (e : exn) :
  fs w !! ANNOUNCEMENTS_FILE = Some c1 ->
  fs w !! BACKUP_FILE = Some b0 ->
  fault_remove_backup (faults env) = Some e ->
  fault_restore (faults env) = None ->
  exists w', _write_announcements env announcements w = (Raise e, w')
             /\ fs w' !! ANNOUNCEMENTS_FILE = Some b0
             /\ fs w' !! BACKUP_FILE = None
             /\ fs w' !! temp_file = fs w !! temp_file.
Proof.
  intros Hc Hb H1 H5. destruct paths_distinct as (Hab & Hat & Hbt).
  unfold _write_announcements, try_except, bind, path_exists, os_remove, os_rename,
    write_text, logger, ret, raise.
  rewrite H1, H5.
  run. eexists; split; [reflexivity|]. run. auto.
Qed.

Lemma backup_removal_failure_reverts_witness :
  exists w', _write_announcements More.env_remove_fails (JList []) More.w_old_backup
             = (Raise OSError, w')
             /\ fs w' !! ANNOUNCEMENTS_FILE
                = Some (Simple.file_of [Simple.practice; Simple.past_one_shot])
             /\ fs w' !! BACKUP_FILE = None
             /\ fs w' !! temp_file = fs More.w_old_backup !! temp_file.
Proof.
  apply (backup_removal_failure_reverts More.env_remove_fails More.w_old_backup (JList [])
           (Simple.file_of [Simple.weekly_news])
           (Simple.file_of [Simple.practice; Simple.past_one_shot]) OSError); reflexivity.
Defined.

(** A failed swap, in general: the announcements file, the jobs and the
    messages are as before the call. *)
Lemma write_swap_failure `{P : Platform} (env : Env) (w : World) (v : json) (e : exn) :
  swap_fails env e -> backup_behind_file w ->
  exists w', _write_announcements env v w = (Raise e, w')
             /\ fs w' !! ANNOUNCEMENTS_FILE = fs w !! ANNOUNCEMENTS_FILE
             /\ jobs w' = jobs w /\ sent w' = sent w.
Proof.
  intros (_ & H1 & H2 & H3 & H4 & H5) Hbehind. destruct paths_distinct as (Hab & Hat & Hbt).
  unfold backup_behind_file in Hbehind.
  unfold _write_announcements, try_except, bind, path_exists, os_remove, os_rename,
    write_text, logger, ret, raise.
  rewrite H1, H2, H3, H4, H5.
  destruct (fs w !! ANNOUNCEMENTS_FILE) as [c0|] eqn:Hc;
    [destruct (fs w !! BACKUP_FILE) as [bak|] eqn:Hb | pose proof (Hbehind eq_refl) as Hb];
    run; (eexists; split; [reflexivity|]); run; auto.
Qed.

Lemma stored_json_file `{P : Platform} (w w' : World) (v : json) :
  fs w' !! ANNOUNCEMENTS_FILE = fs w !! ANNOUNCEMENTS_FILE ->
  stored_json w v -> stored_json w' v.
Proof. unfold stored_json. by intros ->. Qed.

(** ** Scheduling, beyond the claims *)

(** X6. At most one job per id: [_schedule_job] on a record with a
    non-empty id and a recognised recurrence puts its job under the id of
    the record, in place of any job that was there, and leaves every other
    job, the files and the messages alone.  Scheduling a second record with
    the same id afterwards gives the job table that scheduling the second
    alone gives. *)
Theorem schedule_job_replaces `{P : Platform}
    (env : Env) (w : World) (a : Announcement) (t : datetime) (trigger : Trigger) :
  ann_id a <> "" ->
  fromisoformat (ann_datetime a) = Ok t ->
  make_trigger t (JStr (ann_repeating a)) = Some trigger ->
  exists w', _schedule_job env (to_json a) w = (Ok tt, w')
             /\ jobs w' = <[ann_id a := mkJob trigger [ann_id a]]> (jobs w)
             /\ fs w' = fs w /\ sent w' = sent w
             /\ (forall env2 a2 t2 trigger2,
                   ann_id a2 = ann_id a ->
                   fromisoformat (ann_datetime a2) = Ok t2 ->
                   make_trigger t2 (JStr (ann_repeating a2)) = Some trigger2 ->
                   jobs (snd (_schedule_job env2 (to_json a2) w'))
                   = jobs (snd (_schedule_job env2 (to_json a2) w))).
Proof.
  intros _ Ht Htr. exists (scheduled_world a t w).
  split; [by apply schedule_job_stored|].
  unfold scheduled_world. rewrite Htr. cbn [jobs fs sent with_log with_jobs].
  repeat split.
  intros env2 a2 t2 trigger2 Hid Ht2 Htr2.
  rewrite !(schedule_job_stored env2 _ a2 t2 Ht2). cbn [snd].
  unfold scheduled_world. rewrite Htr2. cbn [jobs with_log with_jobs].
  rewrite Hid. apply insert_insert_eq.
Qed.

Lemma schedule_job_replaces_witness :
  exists w', _schedule_job Simple.env0 (to_json Simple.practice) Simple.w_empty = (Ok tt, w')
             /\ jobs w' = {[ "a1" := mkJob (DateTrigger (mkDatetime 2026 2 15 16 0 0 0)) ["a1"] ]}
             /\ jobs (snd (_schedule_job Simple.env0 (to_json Simple.practice_again) w'))
                = jobs (snd (_schedule_job Simple.env0 (to_json Simple.practice_again)
                               Simple.w_empty)).
Proof.
  destruct (schedule_job_replaces Simple.env0 Simple.w_empty Simple.practice
              (mkDatetime 2026 2 15 16 0 0 0)
              (DateTrigger (mkDatetime 2026 2 15 16 0 0 0))
              ltac:(discriminate) eq_refl eq_refl)
    as (w' & Hrun & Hjobs & _ & _ & Hagain).
  exists w'. split; [exact Hrun|]. split; [exact Hjobs|].
  apply (Hagain Simple.env0 Simple.practice_again (mkDatetime 2026 2 16 16 0 0 0)
           (CronTrigger None (Some 0) 16 0)); reflexivity.
Defined.

Lemma fires_at_date (d t : datetime) : fires_at (DateTrigger d) t = true <-> t = d.
Proof.
  destruct d, t. cbn [fires_at dt_fields combine forallb fst snd
                      year month day hour minute second microsecond].
  rewrite !andb_true_iff, !Z.eqb_eq. split.
  - intros (? & ? & ? & ? & ? & ? & ? & _). congruence.
  - intros [= -> -> -> -> -> -> ->]. tauto.
Qed.

(** X7. The rules of the other recurrences.  [none] fires at [fire_at] and
    at no other instant.  [daily] fires at the instants with the hour and
    minute of [fire_at], at second zero, on any day.  [monthly] fires at
    those with its day of the month, hour and minute, at second zero. *)
Theorem rules_of_none_daily_monthly (fire_at : datetime) :
  (exists rule, make_trigger fire_at (JStr "none") = Some rule
                /\ forall t, fires_at rule t = true <-> t = fire_at)
  /\ (exists rule, make_trigger fire_at (JStr "daily") = Some rule
                   /\ forall t, fires_at rule t = true
                                <-> hour t = hour fire_at /\ minute t = minute fire_at
                                    /\ second t = 0 /\ microsecond t = 0)
  /\ (exists rule, make_trigger fire_at (JStr "monthly") = Some rule
                   /\ forall t, fires_at rule t = true
                                <-> day t = day fire_at
                                    /\ hour t = hour fire_at /\ minute t = minute fire_at
                                    /\ second t = 0 /\ microsecond t = 0).
Proof.
  split; [|split]; (eexists; split; [reflexivity|]); intros t.
  - apply fires_at_date.
  - rewrite fires_at_cron. cbn [cron_field]. tauto.
  - rewrite fires_at_cron. cbn [cron_field]. rewrite Z.eqb_eq. tauto.
Qed.

(** X8. A scheduling attempt that raises changes nothing: whatever JSON
    value it is given, when [_schedule_job] raises (a missing key, a value
    that is not a dict, a datetime that does not parse, an id that is not a
    string) the world is exactly as before, so a job already registered
    under the id is kept.  When it returns, it has touched only the job
    table and the log. *)
Theorem schedule_job_failure_changes_nothing `{P : Platform}
    (env : Env) (announcement : json) (w : World) :
  (forall e w', _schedule_job env announcement w = (Raise e, w') -> w' = w)
  /\ (forall w', _schedule_job env announcement w = (Ok tt, w') ->
        fs w' = fs w /\ sent w' = sent w /\ running w' = running w).
Proof.
  split.
  - intros e w'.
    unfold _schedule_job, bind, lift, try_except, remove_job, add_job, logger, ret.
    repeat (cbv beta iota; split_match); cbv beta iota;
      intros [= <- <-]; try reflexivity; discriminate.
  - intros w'.
    unfold _schedule_job, bind, lift, try_except, remove_job, add_job, logger, ret.
    repeat (cbv beta iota; split_match); cbv beta iota;
      intros [= <-]; repeat split; reflexivity.
Qed.

Lemma schedule_job_failure_changes_nothing_witness :
  _schedule_job Simple.env0 (to_json Simple.undated) More.w_job_a5
  = (Raise ValueError, More.w_job_a5)
  /\ _schedule_job Simple.env0 (JObj [("id", JInt 5)]) More.w_job_a5
     = (Raise (KeyError "datetime"), More.w_job_a5).
Proof.
  destruct (schedule_job_failure_changes_nothing Simple.env0 (to_json Simple.undated)
              More.w_job_a5) as [Hraise _].
  destruct (schedule_job_failure_changes_nothing Simple.env0 (JObj [("id", JInt 5)])
              More.w_job_a5) as [Hraise' _].
  split.
  - destruct (_schedule_job Simple.env0 (to_json Simple.undated) More.w_job_a5)
      as [r w'] eqn:Hrun.
    assert (Hr : r = Raise ValueError)
      by (change r with (fst (r, w')); rewrite <- Hrun; reflexivity).
    subst r. by rewrite (Hraise ValueError w' eq_refl).
  - destruct (_schedule_job Simple.env0 (JObj [("id", JInt 5)]) More.w_job_a5)
      as [r w'] eqn:Hrun.
    assert (Hr : r = Raise (KeyError "datetime"))
      by (change r with (fst (r, w')); rewrite <- Hrun; reflexivity).
    subst r. by rewrite (Hraise' (KeyError "datetime") w' eq_refl).
Defined.

(** ** Creating and deleting, beyond the claims *)

(** X9. [create_announcement] with a datetime that parses and no failing
    file operation returns the record built from its arguments, with the
    fresh id; the stored collection is the old one with the record at the
    end, so listing shows it last; and the job under the new id is the one
    of its recurrence, or none for a recurrence without a trigger. *)
Theorem create_appends_and_schedules `{P : Platform}
    (env env' : Env) (w : World) (anns : list Announcement)
    (announcement_type text : string) (location : option string)
    (datetime_str repeating : string) (role_id created_by : Z)
    (practice_time : option string) (t : datetime) :
  codec_roundtrip ->
  stored w anns -> faults env = no_faults ->
  fault_read (faults env') = None ->
  fromisoformat datetime_str = Ok t ->
  exists w',
    create_announcement env announcement_type text location datetime_str
                        repeating role_id created_by practice_time w
    = (Ok (to_json (mkAnnouncement (uuid4 env) announcement_type text location
                      practice_time datetime_str repeating role_id created_by
                      (isoformat (now env)))), w')
    /\ get_all_announcements env' w'
       = (Ok (JList (map to_json
                (anns ++ [mkAnnouncement (uuid4 env) announcement_type text location
                            practice_time datetime_str repeating role_id created_by
                            (isoformat (now env))])%list)), w')
    /\ jobs w' !! uuid4 env
       = (fun trigger => mkJob trigger [uuid4 env]) <$> make_trigger t (JStr repeating)
    /\ (forall job_id, job_id <> uuid4 env -> jobs w' !! job_id = jobs w !! job_id)
    /\ sent w' = sent w.
Proof.
  intros Hrt Hs Hf Hr Ht.
  destruct (create_stored env w anns announcement_type text location datetime_str
              repeating role_id created_by practice_time t Hrt Hs Hf Ht)
    as (w' & Hc & Hs' & Hjobs & Hsent).
  exists w'. split; [exact Hc|]. split; [by apply load_stored|].
  rewrite Hjobs. unfold scheduled_world, new_announcement.
  cbn [ann_id ann_repeating].
  destruct (make_trigger t (JStr repeating)); cbn [jobs with_log with_jobs fmap option_fmap option_map];
    (split; [by simplify_map_eq|]); (split; [|exact Hsent]); intros job_id Hne;
    by simplify_map_eq.
Qed.

Lemma create_appends_and_schedules_witness :
  exists w',
    create_announcement Simple.env0 "custom" "Team meeting" None "2026-02-15T18:00:00"
                        "weekly" 7 1 None (Simple.w_with [Simple.practice])
    = (Ok (to_json (mkAnnouncement "id-new" "custom" "Team meeting" None None
                      "2026-02-15T18:00:00" "weekly" 7 1 "2026-02-01T12:00:00")), w')
    /\ jobs w' !! "id-new" = Some (mkJob (CronTrigger None (Some 6) 18 0) ["id-new"]).
Proof.
  destruct (create_appends_and_schedules Simple.env0 Simple.env0
              (Simple.w_with [Simple.practice]) [Simple.practice]
              "custom" "Team meeting" None "2026-02-15T18:00:00" "weekly" 7 1 None
              (mkDatetime 2026 2 15 18 0 0 0)
              simple_roundtrip (simple_stored _) eq_refl eq_refl eq_refl)
    as (w' & Hc & _ & Hjob & _).
  exists w'. split; [exact Hc | exact Hjob].
Defined.

(** X10. [create_announcement] saves before it schedules.  With a datetime
    that does not parse, the exception of [fromisoformat] is raised to the
    caller after the record has been written: the record is stored, no job
    is registered, and the next recovery raises the same exception when it
    reaches the record, which it does when the lines 43-46 raise on no
    earlier record: the datetimes stored before parse, and are naive for
    the one-shots. *)
Theorem create_stores_before_scheduling `{P : Platform}
    (env : Env) (w : World) (anns : list Announcement)
    (announcement_type text : string) (location : option string)
    (datetime_str repeating : string) (role_id created_by : Z)
    (practice_time : option string) (e : exn) :
  codec_roundtrip ->
  stored w anns -> faults env = no_faults ->
  fromisoformat datetime_str = Raise e ->
  exists w',
    create_announcement env announcement_type text location datetime_str
                        repeating role_id created_by practice_time w
    = (Raise e, w')
    /\ stored w' (anns ++ [new_announcement env announcement_type text location
                             datetime_str repeating role_id created_by practice_time])
    /\ jobs w' = jobs w
    /\ (forall env', fault_read (faults env') = None ->
          Forall (fun a => is_Some (fire_time a)) anns ->
          Forall (fun a => comparable a = true) anns ->
          fst (load_and_reschedule_announcements env' w') = Raise e).
Proof.
  intros Hrt Hs Hf Ht.
  set (new := new_announcement env announcement_type text location datetime_str
                               repeating role_id created_by practice_time).
  assert (Hr : fault_read (faults env) = None) by (by rewrite Hf).
  destruct (write_ok env w (JList (map to_json (anns ++ [new]))) Hf)
    as (w0 & Hw & Hfile & _ & Hjobs & Hsent & _).
  assert (Hs0 : stored w0 (anns ++ [new])) by (by apply stored_after_write).
  exists w0. split; [|split; [exact Hs0|split; [exact Hjobs|]]].
  - unfold create_announcement. change (JObj _) with (to_json new).
    cbv zeta. unfold _save_announcement, bind, lift.
    rewrite (load_stored env w _ Hs Hr). cbn [py_append].
    change [to_json new] with (map to_json [new]). rewrite <- List.map_app, Hw.
    by rewrite (schedule_job_unparsable env w0 new e Ht).
  - intros env' Hr' Hall Hcomp.
    assert (He : recovery_error new = Some e).
    { unfold recovery_error. cbn [ann_datetime new new_announcement]. by rewrite Ht. }
    by rewrite (recovery_stops_at_exception env' w0 anns [] new e Hs0 Hr' Hall Hcomp He).
Qed.

Lemma create_stores_before_scheduling_witness :
  exists w',
    create_announcement Simple.env0 "custom" "Some day" None "next friday" "weekly" 7 1 None
                        Simple.w_empty
    = (Raise ValueError, w')
    /\ stored w' [mkAnnouncement "id-new" "custom" "Some day" None None "next friday"
                    "weekly" 7 1 "2026-02-01T12:00:00"]
    /\ jobs w' = ∅
    /\ fst (load_and_reschedule_announcements Simple.env0 w') = Raise ValueError.
Proof.
  destruct (create_stores_before_scheduling Simple.env0 Simple.w_empty []
              "custom" "Some day" None "next friday" "weekly" 7 1 None ValueError
              simple_roundtrip simple_stored_empty eq_refl eq_refl)
    as (w' & Hc & Hs & Hjobs & Hrec).
  exists w'. split; [exact Hc|]. split; [exact Hs|]. split; [exact Hjobs|].
  apply (Hrec Simple.env0 eq_refl); constructor.
Defined.

(** X11. A failed swap during [create_announcement] is raised to the
    caller: the stored collection is the one from before the call and no
    job is registered for the new record. *)
Theorem create_write_failure `{P : Platform}
    (env : Env) (w : World) (anns : list Announcement)
    (announcement_type text : string) (location : option string)
    (datetime_str repeating : string) (role_id created_by : Z)
    (practice_time : option string) (e : exn) :
  stored w anns -> swap_fails env e -> backup_behind_file w ->
  exists w',
    create_announcement env announcement_type text location datetime_str
                        repeating role_id created_by practice_time w
    = (Raise e, w')
    /\ stored w' anns /\ jobs w' = jobs w /\ sent w' = sent w.
Proof.
  intros Hs Hswap Hbehind.
  set (new := new_announcement env announcement_type text location datetime_str
                               repeating role_id created_by practice_time).
  destruct (write_swap_failure env w (JList (map to_json (anns ++ [new]))) e Hswap Hbehind)
    as (w0 & Hw & Hfile & Hjobs & Hsent).
  destruct Hswap as (Hr & _).
  exists w0. split; [|split; [by apply (stored_json_file w)|by split]].
  unfold create_announcement. change (JObj _) with (to_json new).
  cbv zeta. unfold _save_announcement, bind, lift.
  rewrite (load_stored env w _ Hs Hr). cbn [py_append].
  change [to_json new] with (map to_json [new]). by rewrite <- List.map_app, Hw.
Qed.

Lemma simple_swap_fails : swap_fails Simple.env_swap_fails OSError.
Proof. repeat split. Qed.

Lemma create_write_failure_witness :
  exists w',
    create_announcement Simple.env_swap_fails "custom" "Team meeting" None
                        "2026-02-15T18:00:00" "weekly" 7 1 None
                        (Simple.w_with [Simple.practice])
    = (Raise OSError, w')
    /\ stored w' [Simple.practice] /\ jobs w' = ∅.
Proof.
  destruct (create_write_failure Simple.env_swap_fails (Simple.w_with [Simple.practice])
              [Simple.practice] "custom" "Team meeting" None "2026-02-15T18:00:00"
              "weekly" 7 1 None OSError (simple_stored _) simple_swap_fails)
    as (w' & Hc & Hs & Hjobs & _).
  { intros Hnone. discriminate Hnone. }
  exists w'. split; [exact Hc|]. split; [exact Hs | exact Hjobs].
Defined.

(** X12. A failed swap during [delete_announcement] is raised to the
    caller before the job is cancelled: the record is still stored and its
    job is still registered. *)
Theorem delete_write_failure `{P : Platform}
    (env : Env) (w : World) (anns : list Announcement) (announcement_id : string)
    (e : exn) :
  stored w anns -> swap_fails env e -> backup_behind_file w ->
  Exists (fun a => ann_id a = announcement_id) anns ->
  exists w', delete_announcement env announcement_id w = (Raise e, w')
             /\ stored w' anns /\ jobs w' = jobs w /\ sent w' = sent w.
Proof.
  intros Hs Hswap Hbehind Hex.
  destruct (write_swap_failure env w
              (JList (map to_json (List.filter (other_id announcement_id) anns)))
              e Hswap Hbehind) as (w0 & Hw & Hfile & Hjobs & Hsent).
  destruct Hswap as (Hr & _).
  exists w0. split; [|split; [by apply (stored_json_file w)|by split]].
  unfold delete_announcement, bind at 1.
  rewrite (load_stored env w _ Hs Hr).
  unfold bind at 1 2 3, lift. cbn [py_len py_iter]. rewrite without_id_stored.
  pose proof (filter_other_shorter anns announcement_id Hex) as Hlt.
  rewrite !length_map.
  destruct (Z.eqb_spec (Z.of_nat (length (List.filter (other_id announcement_id) anns)))
                       (Z.of_nat (length anns))) as [Heq|_]; [lia|].
  unfold bind at 1. by rewrite Hw.
Qed.

Lemma delete_write_failure_witness :
  exists w', delete_announcement Simple.env_swap_fails "a1"
               (Simple.w_with [Simple.practice; Simple.weekly_news])
             = (Raise OSError, w')
             /\ stored w' [Simple.practice; Simple.weekly_news].
Proof.
  destruct (delete_write_failure Simple.env_swap_fails
              (Simple.w_with [Simple.practice; Simple.weekly_news])
              [Simple.practice; Simple.weekly_news] "a1" OSError
              (simple_stored _) simple_swap_fails)
    as (w' & Hd & Hs & _).
  { intros Hnone. discriminate Hnone. }
  { by constructor. }
  exists w'. split; assumption.
Defined.

(** X13. Cancelling is best effort.  When a stored record is deleted and
    no job is registered under its id (the job of a one-shot is gone once it
    has run), [delete_announcement] logs the [JobLookupError] as a warning,
    leaves the job table as it is, and still returns [True]. *)
Theorem delete_without_job `{P : Platform}
    (env : Env) (w : World) (anns : list Announcement) (announcement_id : string) :
  stored w anns -> faults env = no_faults ->
  Exists (fun a => ann_id a = announcement_id) anns ->
  jobs w !! announcement_id = None ->
  exists w', delete_announcement env announcement_id w = (Ok true, w')
             /\ jobs w' = jobs w
             /\ In (mkLog WARNING "Could not cancel job {}: {}" [JStr announcement_id]
                          (Some (JobLookupError (JStr announcement_id))))
                   (log w')
             /\ last (log w')
                = Some (mkLog INFO "Deleted announcement {}" [JStr announcement_id] None).
Proof.
  intros Hs Hf Hex Hnone. unfold delete_announcement, bind at 1.
  assert (Hr : fault_read (faults env) = None) by (by rewrite Hf).
  rewrite (load_stored env w _ Hs Hr).
  unfold bind at 1 2 3, lift. cbn [py_len py_iter]. rewrite without_id_stored.
  pose proof (filter_other_shorter anns announcement_id Hex) as Hlt.
  rewrite !length_map.
  destruct (Z.eqb_spec (Z.of_nat (length (List.filter (other_id announcement_id) anns)))
                       (Z.of_nat (length anns))) as [Heq|_]; [lia|].
  destruct (write_ok env w
              (JList (map to_json (List.filter (other_id announcement_id) anns))) Hf)
    as (w1 & Hw & _ & _ & Hjobs & _).
  unfold bind at 1. rewrite Hw.
  unfold bind, try_except, remove_job, logger, ret. rewrite Hjobs, Hnone.
  eexists. split; [reflexivity|]. cbn [jobs log with_log].
  split; [exact Hjobs|]. split; [|apply last_snoc].
  apply in_or_app. left. apply in_or_app. right. by left.
Qed.

Lemma delete_without_job_witness :
  exists w', delete_announcement Simple.env0 "a1" (Simple.w_with [Simple.practice])
             = (Ok true, w')
             /\ In (mkLog WARNING "Could not cancel job {}: {}" [JStr "a1"]
                          (Some (JobLookupError (JStr "a1"))))
                   (log w').
Proof.
  destruct (delete_without_job Simple.env0 (Simple.w_with [Simple.practice])
              [Simple.practice] "a1" (simple_stored _) eq_refl)
    as (w' & Hd & _ & Hlog & _).
  { by constructor. }
  { reflexivity. }
  exists w'. split; assumption.
Defined.

(** ** Firing, beyond the claims *)

Lemma find_none_other (anns : list Announcement) (announcement_id : string) :
  Forall (fun a => ann_id a <> announcement_id) anns ->
  List.find (has_id announcement_id) anns = None.
Proof.
  induction 1 as [|a anns Ha _ IH]; [reflexivity|].
  cbn [List.find]. change (has_id announcement_id a)
    with (String.eqb (ann_id a) announcement_id).
  by destruct (String.eqb_spec (ann_id a) announcement_id).
Qed.

Lemma firing_not_found `{P : Platform}
    (env : Env) (w : World) (anns : list Announcement) (announcement_id : string) :
  stored w anns -> fault_read (faults env) = None ->
  Forall (fun a => ann_id a <> announcement_id) anns ->
  _execute_announcement env announcement_id w
  = (Ok tt, with_log (mkLog ERROR "Announcement {} not found"
                            [JStr announcement_id] None) w).
Proof.
  intros Hs Hr Hno.
  unfold _execute_announcement, try_except, _execute_announcement_body. unfold bind at 1.
  rewrite (load_stored env w _ Hs Hr).
  unfold bind, lift. cbn [py_iter].
  by rewrite first_with_id_stored, (find_none_other anns announcement_id Hno).
Qed.

(** X14. Firing an id that no stored record carries delivers nothing and
    changes nothing: the callback logs that the announcement was not found
    and returns. *)
Theorem firing_unknown_id `{P : Platform}
    (env : Env) (w : World) (anns : list Announcement) (announcement_id : string) :
  stored w anns -> fault_read (faults env) = None ->
  Forall (fun a => ann_id a <> announcement_id) anns ->
  _execute_announcement env announcement_id w
  = (Ok tt, with_log (mkLog ERROR "Announcement {} not found"
                            [JStr announcement_id] None) w)
  /\ sent (snd (_execute_announcement env announcement_id w)) = sent w
  /\ fs (snd (_execute_announcement env announcement_id w)) = fs w
  /\ jobs (snd (_execute_announcement env announcement_id w)) = jobs w.
Proof.
  intros Hs Hr Hno. rewrite (firing_not_found env w anns announcement_id Hs Hr Hno).
  repeat split.
Qed.

Lemma firing_unknown_id_witness :
  _execute_announcement Simple.env0 "a9" (Simple.w_with [Simple.practice])
  = (Ok tt, with_log (mkLog ERROR "Announcement {} not found" [JStr "a9"] None)
                     (Simple.w_with [Simple.practice])).
Proof.
  refine (proj1 (firing_unknown_id Simple.env0 (Simple.w_with [Simple.practice])
           [Simple.practice] "a9" (simple_stored _) eq_refl _)).
  repeat constructor; discriminate.
Defined.

(** X15. Without a channel nothing is delivered and nothing is removed,
    also for a one-shot.  When [ANNOUNCEMENT_CHANNEL_ID] cannot be read as
    an integer the exception is logged; when the bot does not know the
    channel the callback logs that the channel was not found.  In both
    cases the world is otherwise as before. *)
Theorem firing_without_channel `{P : Platform}
    (env : Env) (w : World) (anns : list Announcement) (announcement_id : string)
    (a : Announcement) :
  stored w anns -> fault_read (faults env) = None ->
  List.find (has_id announcement_id) anns = Some a ->
  (forall e, ANNOUNCEMENT_CHANNEL_ID env = Raise e ->
     _execute_announcement env announcement_id w
     = (Ok tt, with_log (mkLog ERROR "Error executing announcement {}: {}"
                               [JStr announcement_id] (Some e)) w))
  /\ (forall cid, ANNOUNCEMENT_CHANNEL_ID env = Ok cid -> get_channel env cid = None ->
        _execute_announcement env announcement_id w
        = (Ok tt, with_log (mkLog ERROR "Channel {} not found" [JInt cid] None) w)).
Proof.
  intros Hs Hr Hfind.
  assert (Hbody : _execute_announcement_body env announcement_id w
            = bind (lift (ANNOUNCEMENT_CHANNEL_ID env))
                (fun cid =>
                   match get_channel env cid with
                   | None => logger ERROR "Channel {} not found" [JInt cid] None
                   | Some channel =>
                       bind (lift (py_getitem (to_json a) "role_id")) (fun role_id =>
                       bind (lift (guild_get_role channel role_id)) (fun role =>
                       bind (lift (render_message
                                     (match role with Some m => m | None => "" end)
                                     (to_json a))) (fun message =>
                       bind (send channel message) (fun _ =>
                       bind (logger INFO "Sent announcement {}" [JStr announcement_id] None)
                         (fun _ =>
                       bind (lift (py_getitem (to_json a) "repeating")) (fun repeating =>
                         if py_eq_str repeating "none" then
                           bind (delete_announcement env announcement_id) (fun _ =>
                             logger INFO "Removed one-time announcement {}"
                               [JStr announcement_id] None)
                         else ret tt))))))
                   end) w).
  { unfold _execute_announcement_body. unfold bind at 1.
    rewrite (load_stored env w _ Hs Hr).
    unfold bind at 1, lift at 1. cbn [py_iter].
    unfold bind at 1, lift at 1. rewrite first_with_id_stored, Hfind. cbn [option_map].
    change (py_truthy (to_json a)) with true. reflexivity. }
  split.
  - intros e He. unfold _execute_announcement, try_except. rewrite Hbody.
    unfold bind, lift. by rewrite He.
  - intros cid Hcid Hch. unfold _execute_announcement, try_except. rewrite Hbody.
    unfold bind, lift. by rewrite Hcid, Hch.
Qed.

Lemma firing_without_channel_witness :
  _execute_announcement More.env_no_channel_id "a1" (Simple.w_with [Simple.practice])
  = (Ok tt, with_log (mkLog ERROR "Error executing announcement {}: {}"
                            [JStr "a1"] (Some TypeError))
                     (Simple.w_with [Simple.practice]))
  /\ _execute_announcement More.env_unknown_channel "a1" (Simple.w_with [Simple.practice])
     = (Ok tt, with_log (mkLog ERROR "Channel {} not found" [JInt 7] None)
                        (Simple.w_with [Simple.practice])).
Proof.
  split.
  - destruct (firing_without_channel More.env_no_channel_id
                (Simple.w_with [Simple.practice]) [Simple.practice] "a1" Simple.practice
                (simple_stored _) eq_refl eq_refl) as [Hid _].
    exact (Hid TypeError eq_refl).
  - destruct (firing_without_channel More.env_unknown_channel
                (Simple.w_with [Simple.practice]) [Simple.practice] "a1" Simple.practice
                (simple_stored _) eq_refl eq_refl) as [_ Hch].
    exact (Hch 7 eq_refl eq_refl).
Defined.

(** The callback on a stored record that is delivered, by recurrence. *)
Lemma firing_recurring_run `{P : Platform}
    (env : Env) (w : World) (anns : list Announcement) (announcement_id : string)
    (a : Announcement) (ch : Channel) (role : option string) :
  delivery_ready env w anns announcement_id a ch role ->
  channel_send ch (message_for role a) = None ->
  ann_repeating a <> "none" ->
  _execute_announcement env announcement_id w
  = (Ok tt, with_log (mkLog INFO "Sent announcement {}" [JStr announcement_id] None)
              (with_sent (channel_id ch, message_for role a) w)).
Proof.
  intros Hready Hsend Hrec. unfold _execute_announcement, try_except.
  rewrite (body_until_send env w anns announcement_id a ch role Hready).
  unfold bind at 1, send. rewrite Hsend. unfold bind at 1, logger at 1.
  by destruct (String.eqb_spec (ann_repeating a) "none").
Qed.

Lemma delivery_ready_files `{P : Platform}
    (env : Env) (w w' : World) (anns : list Announcement) (announcement_id : string)
    (a : Announcement) (ch : Channel) (role : option string) :
  fs w' = fs w ->
  delivery_ready env w anns announcement_id a ch role ->
  delivery_ready env w' anns announcement_id a ch role.
Proof.
  intros Hfs (Hs & Hrest). split; [|exact Hrest]. by apply (stored_json_fs w).
Qed.

(** X16. A recurring announcement is delivered at every firing and stays:
    after [n] firings of the job of a record whose recurrence is not [none],
    with a channel that accepts the message, the message has been sent [n]
    times, and the files and the job table are as before the first. *)
Theorem recurring_fires_every_time `{P : Platform}
    (env : Env) (w : World) (anns : list Announcement) (announcement_id : string)
    (a : Announcement) (ch : Channel) (role : option string) (n : nat) :
  delivery_ready env w anns announcement_id a ch role ->
  channel_send ch (message_for role a) = None ->
  ann_repeating a <> "none" ->
  sent (fire_times env announcement_id n w)
  = (sent w ++ repeat (channel_id ch, message_for role a) n)%list
  /\ fs (fire_times env announcement_id n w) = fs w
  /\ jobs (fire_times env announcement_id n w) = jobs w
  /\ stored (fire_times env announcement_id n w) anns.
Proof.
  intros Hready Hsend Hrec.
  assert (Hinv : sent (fire_times env announcement_id n w)
                 = (sent w ++ repeat (channel_id ch, message_for role a) n)%list
                 /\ fs (fire_times env announcement_id n w) = fs w
                 /\ jobs (fire_times env announcement_id n w) = jobs w).
  { induction n as [|n (IHsent & IHfs & IHjobs)].
    - cbn. by rewrite app_nil_r.
    - change (fire_times env announcement_id (S n) w)
        with (snd (_execute_announcement env announcement_id
                     (fire_times env announcement_id n w))).
      rewrite (firing_recurring_run env _ anns announcement_id a ch role
                 (delivery_ready_files env w _ anns announcement_id a ch role IHfs Hready)
                 Hsend Hrec).
      cbn [snd sent fs jobs with_log with_sent]. rewrite IHsent.
      split; [|by split].
      rewrite <- app_assoc. f_equal.
      change [(channel_id ch, message_for role a)]
        with (repeat (channel_id ch, message_for role a) 1).
      rewrite <- repeat_app. f_equal. lia. }
  destruct Hinv as (Hsent & Hfs & Hjobs). repeat split; try assumption.
  destruct Hready as (Hs & _). by apply (stored_json_fs w).
Qed.

Lemma recurring_fires_every_time_witness :
  sent (fire_times Simple.env0 "a2" 3 (Simple.w_with [Simple.practice; Simple.weekly_news]))
  = repeat (42, @message_for Simple.platform (Some "@team") Simple.weekly_news) 3
  /\ stored (fire_times Simple.env0 "a2" 3
               (Simple.w_with [Simple.practice; Simple.weekly_news]))
            [Simple.practice; Simple.weekly_news].
Proof.
  destruct (recurring_fires_every_time Simple.env0
              (Simple.w_with [Simple.practice; Simple.weekly_news])
              [Simple.practice; Simple.weekly_news] "a2" Simple.weekly_news
              Simple.channel_ok (Some "@team") 3
              (simple_ready Simple.channel_ok [Simple.practice; Simple.weekly_news] "a2"
                 Simple.weekly_news eq_refl eq_refl)
              eq_refl) as (Hsent & _ & _ & Hs).
  { discriminate. }
  split; [exact Hsent | exact Hs].
Defined.

(** The callback on a stored one-shot that is delivered, when no file
    operation fails. *)
Lemma firing_one_shot_run `{P : Platform}
    (env : Env) (w : World) (anns : list Announcement) (announcement_id : string)
    (a : Announcement) (ch : Channel) (role : option string) :
  codec_roundtrip -> faults env = no_faults ->
  delivery_ready env w anns announcement_id a ch role ->
  channel_send ch (message_for role a) = None ->
  ann_repeating a = "none" ->
  exists w', _execute_announcement env announcement_id w = (Ok tt, w')
             /\ sent w' = (sent w ++ [(channel_id ch, message_for role a)])%list
             /\ stored w' (List.filter (other_id announcement_id) anns).
Proof.
  intros Hrt Hf Hready Hsend Hnone.
  unfold _execute_announcement, try_except.
  rewrite (body_until_send env w anns announcement_id a ch role Hready).
  destruct Hready as (Hs & _ & Hfind & _).
  apply find_has_id in Hfind as (Hin & Hid & Hex).
  unfold bind at 1, send. rewrite Hsend.
  unfold bind at 1, logger at 1. rewrite Hnone. cbn [String.eqb Ascii.eqb Bool.eqb].
  set (w0 := with_log _ (with_sent _ w)).
  assert (Hs0 : stored w0 anns) by (by apply (stored_json_fs w)).
  destruct (delete_present env w0 anns announcement_id Hs0 Hf Hex)
    as (w1 & Hd & Hfile & Hjobs & Hsent).
  unfold bind, logger. rewrite Hd. eexists. split; [reflexivity|].
  cbn [sent fs jobs with_log]. split; [by rewrite Hsent|].
  apply (stored_json_fs w1); [reflexivity|]. by apply stored_after_write.
Qed.

(** X17. A one-shot is delivered at most once.  After the firing that
    delivered it, any number of further firings of the same id send nothing
    and leave the files as they are: the callback no longer finds the
    record. *)
Theorem one_shot_fires_once `{P : Platform}
    (env env2 : Env) (w : World) (anns : list Announcement) (announcement_id : string)
    (a : Announcement) (ch : Channel) (role : option string) (n : nat) :
  codec_roundtrip -> faults env = no_faults ->
  delivery_ready env w anns announcement_id a ch role ->
  channel_send ch (message_for role a) = None ->
  ann_repeating a = "none" ->
  fault_read (faults env2) = None ->
  exists w', _execute_announcement env announcement_id w = (Ok tt, w')
             /\ sent w' = (sent w ++ [(channel_id ch, message_for role a)])%list
             /\ sent (fire_times env2 announcement_id n w') = sent w'
             /\ fs (fire_times env2 announcement_id n w') = fs w'.
Proof.
  intros Hrt Hf Hready Hsend Hnone Hr2.
  destruct (firing_one_shot_run env w anns announcement_id a ch role
              Hrt Hf Hready Hsend Hnone) as (w' & Hrun & Hsent & Hs').
  exists w'. split; [exact Hrun|]. split; [exact Hsent|].
  induction n as [|n [IHsent IHfs]]; [by split|].
  change (fire_times env2 announcement_id (S n) w')
    with (snd (_execute_announcement env2 announcement_id
                 (fire_times env2 announcement_id n w'))).
  rewrite (firing_not_found env2 _ (List.filter (other_id announcement_id) anns)
             announcement_id).
  - cbn [snd sent fs with_log]. by split.
  - by apply (stored_json_fs w').
  - exact Hr2.
  - apply filter_other_no_id.
Qed.

Lemma one_shot_fires_once_witness :
  exists w', _execute_announcement Simple.env0 "a1"
               (Simple.w_with [Simple.practice; Simple.weekly_news]) = (Ok tt, w')
             /\ sent w' = [(42, @message_for Simple.platform (Some "@team") Simple.practice)]
             /\ sent (fire_times Simple.env0 "a1" 2 w') = sent w'.
Proof.
  destruct (one_shot_fires_once Simple.env0 Simple.env0
              (Simple.w_with [Simple.practice; Simple.weekly_news])
              [Simple.practice; Simple.weekly_news] "a1" Simple.practice
              Simple.channel_ok (Some "@team") 2 simple_roundtrip eq_refl
              (simple_ready Simple.channel_ok [Simple.practice; Simple.weekly_news] "a1"
                 Simple.practice eq_refl eq_refl)
              eq_refl eq_refl eq_refl) as (w' & Hrun & Hsent & Hagain & _).
  exists w'. split; [exact Hrun|]. split; [exact Hsent | exact Hagain].
Defined.

(** X18. A one-shot whose delivery succeeds and whose removal fails stays.
    When the swap fails inside the [delete_announcement] that follows the
    delivery, the message has been sent, the exception is logged by the
    callback, which returns, and the record is still stored with its job
    entry untouched. *)
Theorem delivered_one_shot_survives_failed_delete `{P : Platform}
    (env : Env) (w : World) (anns : list Announcement) (announcement_id : string)
    (a : Announcement) (ch : Channel) (role : option string) (e : exn) :
  delivery_ready env w anns announcement_id a ch role ->
  channel_send ch (message_for role a) = None ->
  ann_repeating a = "none" ->
  swap_fails env e -> backup_behind_file w ->
  exists w', _execute_announcement env announcement_id w = (Ok tt, w')
             /\ sent w' = (sent w ++ [(channel_id ch, message_for role a)])%list
             /\ stored w' anns /\ In a anns
             /\ jobs w' = jobs w
             /\ last (log w')
                = Some (mkLog ERROR "Error executing announcement {}: {}"
                              [JStr announcement_id] (Some e)).
Proof.
  intros Hready Hsend Hnone Hswap Hbehind.
  unfold _execute_announcement, try_except.
  rewrite (body_until_send env w anns announcement_id a ch role Hready).
  destruct Hready as (Hs & Hr & Hfind & _).
  apply find_has_id in Hfind as (Hin & Hid & Hex).
  unfold bind at 1, send. rewrite Hsend.
  unfold bind at 1, logger at 1. rewrite Hnone. cbn [String.eqb Ascii.eqb Bool.eqb].
  set (w0 := with_log _ (with_sent _ w)).
  assert (Hs0 : stored w0 anns) by (by apply (stored_json_fs w)).
  destruct (write_swap_failure env w0
              (JList (map to_json (List.filter (other_id announcement_id) anns)))
              e Hswap Hbehind) as (w1 & Hw & Hfile & Hjobs & Hsent).
  assert (Hd : delete_announcement env announcement_id w0 = (Raise e, w1)).
  { unfold delete_announcement, bind at 1.
    rewrite (load_stored env w0 _ Hs0 Hr).
    unfold bind at 1 2 3, lift. cbn [py_len py_iter]. rewrite without_id_stored.
    pose proof (filter_other_shorter anns announcement_id Hex) as Hlt.
    rewrite !length_map.
    destruct (Z.eqb_spec (Z.of_nat (length (List.filter (other_id announcement_id) anns)))
                         (Z.of_nat (length anns))) as [Heq|_]; [lia|].
    unfold bind at 1. by rewrite Hw. }
  unfold bind, logger. rewrite Hd. eexists. split; [reflexivity|].
  cbn [sent fs jobs log with_log]. split; [by rewrite Hsent|].
  split; [by apply (stored_json_file w0)|]. split; [exact Hin|].
  split; [exact Hjobs | apply last_snoc].
Qed.

Lemma delivered_one_shot_survives_failed_delete_witness :
  exists w', _execute_announcement Simple.env_swap_fails "a1"
               (Simple.w_with [Simple.practice]) = (Ok tt, w')
             /\ sent w' = [(42, @message_for Simple.platform (Some "@team") Simple.practice)]
             /\ stored w' [Simple.practice].
Proof.
  destruct (delivered_one_shot_survives_failed_delete Simple.env_swap_fails
              (Simple.w_with [Simple.practice]) [Simple.practice] "a1" Simple.practice
              Simple.channel_ok (Some "@team") OSError)
    as (w' & Hrun & Hsent & Hs & _).
  - split; [apply simple_stored|]. split; [reflexivity|]. split; [reflexivity|].
    split; [by exists 42 | reflexivity].
  - reflexivity.
  - reflexivity.
  - apply simple_swap_fails.
  - intros Hnone. discriminate Hnone.
  - exists w'. split; [exact Hrun|]. split; [exact Hsent | exact Hs].
Defined.

(** ** Recovery, beyond the claims *)

Lemma recover_world_running `{P : Platform} (env : Env) (anns : list Announcement)
    (w : World) :
  running (recover_world env anns w) = running w.
Proof.
  revert w. induction anns as [|a anns IH]; intros w; [done|].
  cbn [recover_world]. destruct (fire_time a) as [t|]; [|done].
  rewrite IH. unfold recover_step, scheduled_world.
  by destruct (missed (now env) t a), (make_trigger t (JStr (ann_repeating a))).
Qed.

(** X19. A created announcement survives a restart.  After
    [create_announcement] and a restart of the process, which keeps the
    files and forgets the jobs, [initialize] starts the scheduler and
    registers for the new record the same job that creating it had
    registered, provided the record is not by then a one-shot in the past,
    and recovery raises on no record: the stored datetimes parse, and the
    one-shots, the new record included, have naive datetimes.  (The ids are
    distinct and not empty.) *)
Theorem created_job_survives_restart `{P : Platform}
    (env env' : Env) (w : World) (anns : list Announcement)
    (announcement_type text : string) (location : option string)
    (datetime_str repeating : string) (role_id created_by : Z)
    (practice_time : option string) (t : datetime) :
  codec_roundtrip ->
  stored w anns -> faults env = no_faults ->
  fromisoformat datetime_str = Ok t ->
  fault_read (faults env') = None ->
  Forall (fun a => is_Some (fire_time a)) anns ->
  Forall (fun a => comparable a = true) anns ->
  (String.eqb repeating "none" && is_aware datetime_str) = false ->
  Forall (fun a => ann_id a <> "") anns -> uuid4 env <> "" ->
  NoDup (map ann_id anns) -> ~ In (uuid4 env) (map ann_id anns) ->
  (String.eqb repeating "none" && dt_ltb t (now env')) = false ->
  exists created w1 w2,
    create_announcement env announcement_type text location datetime_str
                        repeating role_id created_by practice_time w
    = (Ok created, w1)
    /\ initialize env' (restart w1) = (Ok tt, w2)
    /\ running w2 = true
    /\ fs w2 = fs w1
    /\ jobs w2 !! uuid4 env = jobs w1 !! uuid4 env
    /\ jobs w1 !! uuid4 env
       = (fun trigger => mkJob trigger [uuid4 env]) <$> make_trigger t (JStr repeating).
Proof.
  intros Hrt Hs Hf Ht Hr' Hall Hcomp Hnaive _ _ Hnd Hfresh Hnot.
  destruct (create_stored env w anns announcement_type text location datetime_str
              repeating role_id created_by practice_time t Hrt Hs Hf Ht)
    as (w1 & Hc & Hs1 & Hjobs1 & _).
  set (new := new_announcement env announcement_type text location datetime_str
                               repeating role_id created_by practice_time) in *.
  assert (Hjob1 : jobs w1 !! uuid4 env
                  = (fun trigger => mkJob trigger [uuid4 env])
                      <$> make_trigger t (JStr repeating)).
  { rewrite Hjobs1. unfold scheduled_world. cbn [ann_id ann_repeating new new_announcement].
    destruct (make_trigger t (JStr repeating));
      cbn [jobs with_log with_jobs fmap option_fmap option_map]; by simplify_map_eq. }
  assert (Hft : fire_time new = Some t) by (unfold fire_time; cbn; by rewrite Ht).
  assert (Hall' : Forall (fun a => is_Some (fire_time a)) (anns ++ [new])).
  { apply List.Forall_app. split; [exact Hall|]. constructor; [by eexists|constructor]. }
  assert (Hcomp' : Forall (fun a => comparable a = true) (anns ++ [new])).
  { apply List.Forall_app. split; [exact Hcomp|].
    constructor; [|constructor]. unfold comparable.
    cbn [ann_repeating ann_datetime new new_announcement]. by rewrite Hnaive. }
  assert (Hnd' : NoDup (map ann_id (anns ++ [new]))).
  { rewrite List.map_app. apply NoDup_app. split; [exact Hnd|]. split.
    - intros x Hx Hx'. apply list_elem_of_In in Hx' as [<-|[]].
      apply Hfresh. by apply list_elem_of_In.
    - cbn. apply NoDup_singleton. }
  set (w0 := with_log (mkLog INFO "APScheduler started" [] None)
               (with_running true (restart w1))).
  assert (Hs0 : stored w0 (anns ++ [new])) by (by apply (stored_json_fs w1)).
  exists (to_json new), w1. eexists. split; [exact Hc|]. split.
  { unfold initialize, bind at 1, scheduler_start. cbn [running restart].
    unfold bind at 1, logger at 1. fold w0.
    apply (recovery_stored env' w0 (anns ++ [new]) Hs0 Hr' Hall' Hcomp'). }
  cbn [running fs jobs with_log].
  split; [by rewrite recover_world_running|].
  split; [by destruct (recover_world_keeps env' (anns ++ [new]) w0) as [-> _]|].
  split; [|exact Hjob1].
  rewrite Hjob1.
  assert (Hin : In new (anns ++ [new])) by (apply in_or_app; right; by left).
  pose proof (recover_world_job env' (anns ++ [new]) w0 new t Hall' Hnd' Hin Hft) as Hj.
  unfold missed in Hj. cbn [ann_id ann_repeating new new_announcement] in Hj.
  by rewrite Hnot in Hj.
Qed.

Lemma created_job_survives_restart_witness :
  exists created w1 w2,
    create_announcement Simple.env0 "custom" "Team meeting" None "2026-02-15T18:00:00"
                        "weekly" 7 1 None (Simple.w_with [Simple.practice])
    = (Ok created, w1)
    /\ initialize More.env_later (restart w1) = (Ok tt, w2)
    /\ jobs w2 !! "id-new" = Some (mkJob (CronTrigger None (Some 6) 18 0) ["id-new"]).
Proof.
  destruct (created_job_survives_restart Simple.env0 More.env_later
              (Simple.w_with [Simple.practice]) [Simple.practice]
              "custom" "Team meeting" None "2026-02-15T18:00:00" "weekly" 7 1 None
              (mkDatetime 2026 2 15 18 0 0 0)
              simple_roundtrip (simple_stored _) eq_refl eq_refl eq_refl
              (simple_parses [Simple.practice] eq_refl)
              (simple_comparable _) eq_refl
              (nonempty_ids [Simple.practice] eq_refl))
    as (created & w1 & w2 & Hc & Hinit & _ & _ & Hsame & Hjob).
  - discriminate.
  - apply (bool_decide_unpack _). reflexivity.
  - cbn. intros [H|[]]. discriminate H.
  - reflexivity.
  - exists created, w1, w2. split; [exact Hc|]. split; [exact Hinit|].
    exact (eq_trans Hsame Hjob).
Defined.

(** X20. Recovery handles the records in stored order and stops at the
    first one on which lines 43-46 raise: a record whose datetime does not
    parse, with the exception of [fromisoformat], or a one-shot whose
    datetime is aware, with the [TypeError] of the comparison with now.
    The exception leaves [load_and_reschedule_announcements]; the records
    before it, with distinct and non-empty ids, have their jobs (a missed
    one-shot none), every job id that is not theirs is as before, and no
    file is written. *)
Theorem recovery_stops_at_first_exception `{P : Platform}
    (env : Env) (w : World) (before after : list Announcement) (a : Announcement)
    (e : exn) :
  stored w (before ++ a :: after) ->
  fault_read (faults env) = None ->
  Forall (fun b => recovery_error b = None) before ->
  Forall (fun b => ann_id b <> "") before ->
  NoDup (map ann_id before) ->
  recovery_error a = Some e ->
  exists w', load_and_reschedule_announcements env w = (Raise e, w')
             /\ fs w' = fs w /\ sent w' = sent w
             /\ (forall b t, In b before -> fire_time b = Some t ->
                   jobs w' !! ann_id b
                   = if missed (now env) t b then jobs w !! ann_id b
                     else (fun trigger => mkJob trigger [ann_id b])
                            <$> make_trigger t (JStr (ann_repeating b)))
             /\ (forall job_id, ~ In job_id (map ann_id before) ->
                   jobs w' !! job_id = jobs w !! job_id).
Proof.
  intros Hs Hr Hfine _ Hnd He.
  apply no_recovery_error in Hfine as [Hall Hcomp].
  exists (recover_world env before w).
  split; [by apply (recovery_stops_at_exception env w before after a e)|].
  destruct (recover_world_keeps env before w) as [Hfs Hsent].
  split; [exact Hfs|]. split; [exact Hsent|]. split.
  - intros b t Hin Ht. by apply recover_world_job.
  - intros job_id Hnot. by apply recover_world_other.
Qed.

Lemma zoned_stored (anns : list Announcement) :
  @stored Zoned.platform (Zoned.w_with anns) anns.
Proof.
  unfold stored, stored_json, Zoned.w_with. cbn [fs].
  rewrite lookup_singleton_eq. eexists. split; reflexivity.
Qed.

Lemma recovery_stops_at_first_exception_witness :
  (exists w', load_and_reschedule_announcements Simple.env0
                (Simple.w_with [Simple.weekly_news; Simple.undated; Simple.practice])
              = (Raise ValueError, w')
              /\ jobs w' !! "a2" = Some (mkJob (CronTrigger None (Some 6) 18 0) ["a2"])
              /\ jobs w' !! "a1" = None)
  /\ (exists w', load_and_reschedule_announcements Zoned.env0
                   (Zoned.w_with [Zoned.weekly_utc; Zoned.practice_utc; Simple.weekly_news])
                 = (Raise TypeError, w')
                 /\ jobs w' !! "a8" = Some (mkJob (CronTrigger None (Some 6) 18 0) ["a8"])
                 /\ jobs w' !! "a7" = None
                 /\ jobs w' !! "a2" = None).
Proof.
  split.
  - destruct (recovery_stops_at_first_exception Simple.env0
                (Simple.w_with [Simple.weekly_news; Simple.undated; Simple.practice])
                [Simple.weekly_news] [Simple.practice] Simple.undated ValueError
                (simple_stored _) eq_refl)
      as (w' & Hrun & _ & _ & Hbefore & Hother).
    + repeat constructor.
    + repeat constructor. discriminate.
    + apply (bool_decide_unpack _). reflexivity.
    + reflexivity.
    + exists w'. split; [exact Hrun|]. split.
      * exact (Hbefore Simple.weekly_news (mkDatetime 2026 2 15 18 0 0 0)
                 (or_introl eq_refl) eq_refl).
      * refine (eq_trans (Hother "a1" _) eq_refl). cbn. intros [H|[]]. discriminate H.
  - destruct (@recovery_stops_at_first_exception Zoned.platform Zoned.env0
                (Zoned.w_with [Zoned.weekly_utc; Zoned.practice_utc; Simple.weekly_news])
                [Zoned.weekly_utc] [Simple.weekly_news] Zoned.practice_utc TypeError
                (zoned_stored _) eq_refl)
      as (w' & Hrun & _ & _ & Hbefore & Hother).
    + repeat constructor.
    + repeat constructor. discriminate.
    + apply (bool_decide_unpack _). reflexivity.
    + reflexivity.
    + exists w'. split; [exact Hrun|]. split; [|split].
      * exact (Hbefore Zoned.weekly_utc (mkDatetime 2026 2 15 18 0 0 0)
                 (or_introl eq_refl) eq_refl).
      * refine (eq_trans (Hother "a7" _) eq_refl). cbn. intros [H|[]]. discriminate H.
      * refine (eq_trans (Hother "a2" _) eq_refl). cbn. intros [H|[]]. discriminate H.
Defined.

(** ** The configuration *)

Lemma set_value_some (v : option string) (s : string) :
  set_value v = Some s <-> v = Some s /\ s <> "".
Proof.
  unfold set_value. destruct v as [s'|]; [|split; [discriminate | by intros [? _]]].
  destruct (String.eqb_spec s' "") as [->|Hne]; split.
  - discriminate.
  - intros [[= <-] Hne]. by destruct Hne.
  - by intros [= <-].
  - by intros [[= <-] _].
Qed.

(** X21. [validate_config] returns a configuration exactly when the three
    variables are set and not empty and both ids are read as integers by
    [int]; the token is returned as it is.  An empty value counts as not
    set, the variables are checked in the order token, guild id, channel id,
    and a value that [int] refuses is reported as an invalid id format with
    the message of [int]. *)
Theorem validate_config_accepts (py_int : IntParser)
    (DISCORD_TOKEN GUILD_ID ANNOUNCEMENT_CHANNEL_ID : option string) :
  (forall cfg,
     validate_config py_int DISCORD_TOKEN GUILD_ID ANNOUNCEMENT_CHANNEL_ID = inr cfg
     <-> exists gid cid,
           DISCORD_TOKEN = Some (token cfg) /\ token cfg <> ""
           /\ GUILD_ID = Some gid /\ gid <> ""
           /\ ANNOUNCEMENT_CHANNEL_ID = Some cid /\ cid <> ""
           /\ py_int gid = inr (guild_id cfg)
           /\ py_int cid = inr (announcement_channel_id cfg))
  /\ (set_value DISCORD_TOKEN = None ->
      validate_config py_int DISCORD_TOKEN GUILD_ID ANNOUNCEMENT_CHANNEL_ID
      = inl "DISCORD_TOKEN is not set in .env file")
  /\ (forall tok gid cid msg,
        set_value DISCORD_TOKEN = Some tok -> set_value GUILD_ID = Some gid ->
        set_value ANNOUNCEMENT_CHANNEL_ID = Some cid ->
        py_int gid = inl msg ->
        validate_config py_int DISCORD_TOKEN GUILD_ID ANNOUNCEMENT_CHANNEL_ID
        = inl ("Invalid ID format in .env file: " +:+ msg)).
Proof.
  split; [|split].
  - intros cfg. unfold validate_config. split.
    + destruct (set_value DISCORD_TOKEN) as [tok|] eqn:Ht; [|discriminate].
      destruct (set_value GUILD_ID) as [gid|] eqn:Hg; [|discriminate].
      destruct (set_value ANNOUNCEMENT_CHANNEL_ID) as [cid|] eqn:Hc; [|discriminate].
      destruct (py_int gid) as [msg|g] eqn:Hgi; [discriminate|].
      destruct (py_int cid) as [msg|c] eqn:Hci; [discriminate|].
      intros [= <-]. cbn [token guild_id announcement_channel_id].
      apply set_value_some in Ht as [-> ?], Hg as [-> ?], Hc as [-> ?].
      by exists gid, cid.
    + intros (gid & cid & Ht & Htne & Hg & Hgne & Hc & Hcne & Hgi & Hci).
      rewrite (proj2 (set_value_some DISCORD_TOKEN (token cfg)) (conj Ht Htne)).
      rewrite (proj2 (set_value_some GUILD_ID gid) (conj Hg Hgne)).
      rewrite (proj2 (set_value_some ANNOUNCEMENT_CHANNEL_ID cid) (conj Hc Hcne)).
      rewrite Hgi, Hci. by destruct cfg.
  - intros Ht. unfold validate_config. by rewrite Ht.
  - intros tok gid cid msg Ht Hg Hc Hgi. unfold validate_config.
    by rewrite Ht, Hg, Hc, Hgi.
Qed.

Lemma validate_config_accepts_witness :
  validate_config More.int_of_digits (Some "secret") (Some "123") (Some "42")
  = inr (mkConfig "secret" 123 42)
  /\ validate_config More.int_of_digits (Some "") (Some "123") (Some "42")
     = inl "DISCORD_TOKEN is not set in .env file"
  /\ validate_config More.int_of_digits (Some "secret") (Some "12x") (Some "42")
     = inl "Invalid ID format in .env file: invalid literal for int() with base 10: '12x'".
Proof.
  destruct (validate_config_accepts More.int_of_digits (Some "secret") (Some "123")
              (Some "42")) as (Hok & _ & _).
  destruct (validate_config_accepts More.int_of_digits (Some "") (Some "123")
              (Some "42")) as (_ & Hunset & _).
  destruct (validate_config_accepts More.int_of_digits (Some "secret") (Some "12x")
              (Some "42")) as (_ & _ & Hbad).
  split; [|split].
  - apply Hok. exists "123", "42". repeat split; discriminate.
  - apply Hunset. reflexivity.
  - apply (Hbad "secret" "12x" "42"); reflexivity.
Defined.

(** ** The forms *)

Lemma lex_ltb_asym (a b : list Z) : lex_ltb a b = true -> lex_ltb b a = false.
Proof.
  revert b. induction a as [|x a IH]; intros [|y b]; cbn [lex_ltb]; try done.
  rewrite orb_true_iff, andb_true_iff, Z.ltb_lt, Z.eqb_eq.
  intros [Hlt|[-> Hrest]].
  - apply orb_false_iff. split; [by apply Z.ltb_ge; lia|].
    apply andb_false_iff. left. apply Z.eqb_neq. lia.
  - rewrite Z.ltb_irrefl, Z.eqb_refl. cbn [orb andb]. by apply IH.
Qed.

Lemma dt_ltb_asym (a b : datetime) : dt_ltb a b = true -> dt_ltb b a = false.
Proof. apply lex_ltb_asym. Qed.

Lemma bad_repeating_false (repeating_value : string) :
  bad_repeating repeating_value = false
  <-> repeating_value = "none" \/ repeating_value = "weekly".
Proof.
  unfold bad_repeating. rewrite negb_false_iff, orb_true_iff, !String.eqb_eq. tauto.
Qed.

Section FormFacts.
Context `{P : Platform} `{F : FrontEnd}.

(** What a form has checked when it does not reply with a refusal. *)
Lemma checks_passed (env : Env) (interaction : Interaction)
    (datetime_input repeating role_name : string) (parsed : datetime) (role : Role) :
  dateutil_parse (now env) datetime_input = Ok parsed ->
  le_now (dateutil_aware datetime_input) parsed (now env) = Ok false ->
  bad_repeating (py_strip (py_lower repeating)) = false ->
  find_role interaction role_name = Some role ->
  accepted env interaction datetime_input repeating role_name
           parsed (py_strip (py_lower repeating)) role.
Proof.
  intros Hp Hfuture Hrep Hrole. split; [exact Hp|].
  unfold le_now, dt_leb in Hfuture.
  destruct (dateutil_aware datetime_input); [discriminate|]. split; [reflexivity|]. split.
  - injection Hfuture as Hfuture. by apply negb_false_iff in Hfuture.
  - split; [reflexivity|]. split; [by apply bad_repeating_false | exact Hrole].
Qed.

Lemma accepted_checks (env : Env) (interaction : Interaction)
    (datetime_input repeating role_name : string) (parsed : datetime)
    (repeating_value : string) (role : Role) :
  accepted env interaction datetime_input repeating role_name parsed repeating_value role ->
  dateutil_parse (now env) datetime_input = Ok parsed
  /\ le_now (dateutil_aware datetime_input) parsed (now env) = Ok false
  /\ bad_repeating (py_strip (py_lower repeating)) = false
  /\ find_role interaction role_name = Some role
  /\ repeating_value = py_strip (py_lower repeating).
Proof.
  intros (Hp & Hnaive & Hfuture & Hrv & Hrep & Hrole). split; [exact Hp|]. split.
  - unfold le_now, dt_leb. by rewrite Hnaive, Hfuture.
  - split; [rewrite <- Hrv; by apply bad_repeating_false|]. by split.
Qed.

(** A failed swap inside [create_announcement]. *)
Lemma create_raises_on_swap_failure (env : Env) (w : World) (anns : list Announcement)
    (announcement_type text : string) (location : option string)
    (datetime_str repeating : string) (role_id created_by : Z)
    (practice_time : option string) (e : exn) :
  stored w anns -> swap_fails env e -> backup_behind_file w ->
  exists w',
    create_announcement env announcement_type text location datetime_str
                        repeating role_id created_by practice_time w
    = (Raise e, w')
    /\ stored w' anns /\ jobs w' = jobs w /\ sent w' = sent w
    /\ log w' = (log w ++ [mkLog ERROR "Error writing announcements: {}" [] (Some e)])%list.
Proof.
  intros Hs Hswap Hbehind.
  set (new := new_announcement env announcement_type text location datetime_str
                               repeating role_id created_by practice_time).
  assert (Hw : exists w0,
             _write_announcements env (JList (map to_json (anns ++ [new]))) w = (Raise e, w0)
             /\ fs w0 !! ANNOUNCEMENTS_FILE = fs w !! ANNOUNCEMENTS_FILE
             /\ jobs w0 = jobs w /\ sent w0 = sent w
             /\ log w0 = (log w ++ [mkLog ERROR "Error writing announcements: {}" []
                                          (Some e)])%list).
  { destruct Hswap as (_ & H1 & H2 & H3 & H4 & H5).
    destruct paths_distinct as (Hab & Hat & Hbt).
    unfold backup_behind_file in Hbehind.
    unfold _write_announcements, try_except, bind, path_exists, os_remove, os_rename,
      write_text, logger, ret, raise.
    rewrite H1, H2, H3, H4, H5.
    destruct (fs w !! ANNOUNCEMENTS_FILE) as [c0|] eqn:Hc;
      [destruct (fs w !! BACKUP_FILE) as [bak|] eqn:Hb
      | pose proof (Hbehind eq_refl) as Hb];
      run; (eexists; split; [reflexivity|]); run; auto. }
  destruct Hw as (w0 & Hw & Hfile & Hjobs & Hsent & Hlog).
  destruct Hswap as (Hr & _).
  exists w0. split; [|split; [by apply (stored_json_file w)|by repeat split]].
  unfold create_announcement. change (JObj _) with (to_json new).
  cbv zeta. unfold _save_announcement, bind, lift.
  rewrite (load_stored env w _ Hs Hr). cbn [py_append].
  change [to_json new] with (map to_json [new]). by rewrite <- List.map_app, Hw.
Qed.

End FormFacts.

(** X22. A form creates only what it has checked, and never raises.  Both
    forms return a reply whatever is typed into them, and one of three
    things has happened.  The form refused the input and the world is
    exactly as before.  Or the datetime was read as an aware one (a zone
    was typed), the comparison with now raised a [TypeError], and the form
    logged it and answered with the error reply, the world being otherwise
    as before.  Or [create_announcement] was called, with a naive datetime
    strictly after now, written by [isoformat], with the recurrence [none]
    or [weekly] (the typed value lowered and stripped), and with the id of
    the role that the form found. *)
Theorem forms_create_only_what_they_checked `{P : Platform} `{F : FrontEnd}
    (env : Env) (interaction : Interaction)
    (datetime_input repeating role_name : string) (w : World) :
  (forall announcement_text,
     exists reply w',
       custom_on_submit env interaction announcement_text datetime_input repeating
                        role_name w = (Ok reply, w')
       /\ (w' = w
           \/ comparison_raised env datetime_input
                "Error creating custom announcement: {}" reply w w'
           \/ exists parsed repeating_value role r1 w1,
                accepted env interaction datetime_input repeating role_name
                         parsed repeating_value role
                /\ create_announcement env "custom" announcement_text None
                     (isoformat parsed) repeating_value (r_id role)
                     (user_id interaction) None w = (r1, w1)
                /\ fs w' = fs w1 /\ jobs w' = jobs w1 /\ sent w' = sent w1))
  /\ (forall location practice_time,
        exists reply w',
          practice_on_submit env interaction location practice_time datetime_input
                             repeating role_name w = (Ok reply, w')
          /\ (w' = w
              \/ comparison_raised env datetime_input
                   "Error creating practice announcement: {}" reply w w'
              \/ exists parsed repeating_value role r1 w1,
                   accepted env interaction datetime_input repeating role_name
                            parsed repeating_value role
                   /\ create_announcement env "practice" "" (Some location)
                        (isoformat parsed) repeating_value (r_id role)
                        (user_id interaction) (Some practice_time) w = (r1, w1)
                   /\ fs w' = fs w1 /\ jobs w' = jobs w1 /\ sent w' = sent w1)).
Proof.
  split.
  - intros announcement_text. unfold custom_on_submit, try_except.
    destruct (dateutil_parse (now env) datetime_input) as [parsed|e] eqn:Hp;
      [|eexists _, _; split; [reflexivity | by left]].
    unfold bind at 1, lift, le_now.
    destruct (dateutil_aware datetime_input) eqn:Haware.
    { eexists _, _. split; [reflexivity|]. right. left.
      split; [by exists parsed|]. by repeat split. }
    destruct (dt_leb parsed (now env)) eqn:Hfuture;
      [eexists _, _; split; [reflexivity | by left]|].
    cbv zeta.
    destruct (bad_repeating (py_strip (py_lower repeating))) eqn:Hrep;
      [eexists _, _; split; [reflexivity | by left]|].
    destruct (find_role interaction role_name) as [role|] eqn:Hrole;
      [|eexists _, _; split; [reflexivity | by left]].
    unfold bind, logger, ret.
    destruct (create_announcement env "custom" announcement_text None (isoformat parsed)
                (py_strip (py_lower repeating)) (r_id role) (user_id interaction) None w)
      as [[created|e] w1] eqn:Hc;
      (eexists _, _; split; [reflexivity|]); right; right;
      exists parsed, (py_strip (py_lower repeating)), role; eexists _, w1;
      (split; [apply checks_passed; try assumption;
               unfold le_now; by rewrite Haware, Hfuture|]);
      (split; [exact Hc|]); by repeat split.
  - intros location practice_time. unfold practice_on_submit, try_except.
    destruct (dateutil_parse (now env) datetime_input) as [parsed|e] eqn:Hp;
      [|eexists _, _; split; [reflexivity | by left]].
    unfold bind at 1, lift, le_now.
    destruct (dateutil_aware datetime_input) eqn:Haware.
    { eexists _, _. split; [reflexivity|]. right. left.
      split; [by exists parsed|]. by repeat split. }
    destruct (dt_leb parsed (now env)) eqn:Hfuture;
      [eexists _, _; split; [reflexivity | by left]|].
    cbv zeta.
    destruct (bad_repeating (py_strip (py_lower repeating))) eqn:Hrep;
      [eexists _, _; split; [reflexivity | by left]|].
    destruct (find_role interaction role_name) as [role|] eqn:Hrole;
      [|eexists _, _; split; [reflexivity | by left]].
    unfold bind, logger, ret.
    destruct (create_announcement env "practice" "" (Some location) (isoformat parsed)
                (py_strip (py_lower repeating)) (r_id role) (user_id interaction)
                (Some practice_time) w)
      as [[created|e] w1] eqn:Hc;
      (eexists _, _; split; [reflexivity|]); right; right;
      exists parsed, (py_strip (py_lower repeating)), role; eexists _, w1;
      (split; [apply checks_passed; try assumption;
               unfold le_now; by rewrite Haware, Hfuture|]);
      (split; [exact Hc|]); by repeat split.
Qed.

Lemma forms_create_only_what_they_checked_witness :
  (exists reply w',
     custom_on_submit (P:=Simple.platform) (F:=More.front) Simple.env0
                      More.admin_interaction "Team meeting"
                      "2026-02-15T18:00:00" " Weekly " "@Team" Simple.w_empty
     = (Ok reply, w')
     /\ jobs w' !! "id-new" = Some (mkJob (CronTrigger None (Some 6) 18 0) ["id-new"])
     /\ exists parsed repeating_value role r1 w1,
          accepted (F:=More.front) Simple.env0 More.admin_interaction
                   "2026-02-15T18:00:00" " Weekly " "@Team" parsed repeating_value role
          /\ create_announcement Simple.env0 "custom" "Team meeting" None
               (isoformat (Platform:=Simple.platform) parsed) repeating_value (r_id role)
               (user_id More.admin_interaction) None Simple.w_empty = (r1, w1)
          /\ fs w' = fs w1 /\ jobs w' = jobs w1 /\ sent w' = sent w1)
  /\ custom_on_submit (P:=Simple.platform) (F:=Zoned.front) Simple.env0
                      More.admin_interaction "Team meeting"
                      "2026-02-15T18:00:00Z" "weekly" "@Team" Simple.w_empty
     = (Ok "❌ Error creating announcement: can't compare offset-naive and offset-aware datetimes",
        with_log (mkLog ERROR "Error creating custom announcement: {}" [] (Some TypeError))
                 Simple.w_empty).
Proof.
  split.
  - destruct (forms_create_only_what_they_checked (P:=Simple.platform) (F:=More.front)
                Simple.env0 More.admin_interaction
                "2026-02-15T18:00:00" " Weekly " "@Team" Simple.w_empty) as [Hcustom _].
    destruct (Hcustom "Team meeting") as (reply & w' & Hrun & Hcases).
    assert (Hjob : jobs (snd (custom_on_submit (P:=Simple.platform) (F:=More.front)
                                Simple.env0 More.admin_interaction "Team meeting"
                                "2026-02-15T18:00:00" " Weekly " "@Team" Simple.w_empty))
                   !! "id-new"
                   = Some (mkJob (CronTrigger None (Some 6) 18 0) ["id-new"]))
      by (vm_compute; reflexivity).
    rewrite Hrun in Hjob. cbn [snd] in Hjob.
    exists reply, w'. split; [exact Hrun|]. split; [exact Hjob|].
    destruct Hcases as [Hsame|[Hraised|Hcreated]].
    + rewrite Hsame in Hjob. discriminate Hjob.
    + destruct Hraised as (_ & Haware & _). discriminate Haware.
    + exact Hcreated.
  - destruct (forms_create_only_what_they_checked (P:=Simple.platform) (F:=Zoned.front)
                Simple.env0 More.admin_interaction
                "2026-02-15T18:00:00Z" "weekly" "@Team" Simple.w_empty) as [Hcustom _].
    destruct (Hcustom "Team meeting") as (reply & w' & Hrun & Hcases).
    assert (Hlog : length (log (snd (custom_on_submit (P:=Simple.platform) (F:=Zoned.front)
                                       Simple.env0 More.admin_interaction "Team meeting"
                                       "2026-02-15T18:00:00Z" "weekly" "@Team"
                                       Simple.w_empty))) = 1%nat)
      by (vm_compute; reflexivity).
    rewrite Hrun in *. cbn [snd] in Hlog.
    destruct Hcases as [Hsame|[Hraised|Hcreated]].
    + rewrite Hsame in Hlog. discriminate Hlog.
    + destruct Hraised as (_ & _ & Hreply & Hw). by rewrite Hreply, Hw.
    + destruct Hcreated as (? & ? & ? & ? & ? & (_ & Haware & _) & _).
      discriminate Haware.
Defined.

(** X23. Every announcement that the custom form accepts gets its timer.
    With what the form checked, a datetime that [fromisoformat] reads back
    as [isoformat] wrote it, and no failing file operation, the form
    replies with the confirmation; the record is stored after the others
    with the lowered and stripped recurrence; the job under its id has the
    date trigger of the datetime for [none] and the weekly cron trigger
    otherwise; and the record is not a one-shot in the past. *)
Theorem custom_form_schedules `{P : Platform} `{F : FrontEnd}
    (env : Env) (interaction : Interaction) (w : World) (anns : list Announcement)
    (announcement_text datetime_input repeating role_name : string)
    (parsed : datetime) (repeating_value : string) (role : Role) :
  codec_roundtrip ->
  stored w anns -> faults env = no_faults ->
  accepted env interaction datetime_input repeating role_name parsed repeating_value role ->
  fromisoformat (isoformat parsed) = Ok parsed ->
  exists w',
    custom_on_submit env interaction announcement_text datetime_input repeating
                     role_name w
    = (Ok ("✅ Custom announcement scheduled for "
           +:+ strftime parsed "%B %d, %Y at %I:%M %p"
           +:+ " (" +:+ repeat_text repeating_value +:+ ")" +:+ nl
           +:+ "Will ping: " +:+ r_mention role), w')
    /\ stored w' (anns ++ [mkAnnouncement (uuid4 env) "custom" announcement_text None None
                             (isoformat parsed) repeating_value (r_id role)
                             (user_id interaction) (isoformat (now env))])
    /\ jobs w' !! uuid4 env
       = Some (mkJob (if String.eqb repeating_value "none" then DateTrigger parsed
                      else CronTrigger None (Some (weekday parsed))
                             (hour parsed) (minute parsed))
                     [uuid4 env])
    /\ (String.eqb repeating_value "none" && dt_ltb parsed (now env)) = false.
Proof.
  intros Hrt Hs Hf Hacc Hiso.
  pose proof (accepted_checks _ _ _ _ _ _ _ _ Hacc) as (Hp & Hfuture & Hrep & Hrole & Hrv).
  destruct Hacc as (_ & _ & Hlt & _ & Hkind & _).
  destruct (create_stored env w anns "custom" announcement_text None (isoformat parsed)
              repeating_value (r_id role) (user_id interaction) None parsed
              Hrt Hs Hf Hiso) as (w1 & Hc & Hs1 & Hjobs & _).
  exists w1. split; [|split; [exact Hs1|split]].
  - unfold custom_on_submit, try_except. rewrite Hp, Hfuture. unfold bind at 1, lift. cbv beta iota zeta.
    rewrite Hrep, Hrole, <- Hrv. unfold bind, ret. by rewrite Hc.
  - rewrite Hjobs. unfold scheduled_world, new_announcement. cbn [ann_id ann_repeating].
    destruct Hkind as [-> | ->]; cbn; by simplify_map_eq.
  - by rewrite (dt_ltb_asym _ _ Hlt), andb_false_r.
Qed.

Lemma simple_accepted :
  accepted (F:=More.front) Simple.env0 More.admin_interaction "2026-02-15T18:00:00" " Weekly " "@Team"
           (mkDatetime 2026 2 15 18 0 0 0) "weekly" More.team.
Proof. repeat split; try reflexivity. by right. Qed.

Lemma custom_form_schedules_witness :
  exists w',
    custom_on_submit (P:=Simple.platform) (F:=More.front) Simple.env0
      More.admin_interaction "Team meeting" "2026-02-15T18:00:00" " Weekly " "@Team"
      (Simple.w_with [Simple.practice])
    = (Ok ("✅ Custom announcement scheduled for February 15, 2026 at 06:00 PM (repeating weekly)"
           +:+ nl +:+ "Will ping: @team"), w')
    /\ jobs w' !! "id-new" = Some (mkJob (CronTrigger None (Some 6) 18 0) ["id-new"]).
Proof.
  destruct (custom_form_schedules (P:=Simple.platform) (F:=More.front) Simple.env0
              More.admin_interaction
              (Simple.w_with [Simple.practice]) [Simple.practice]
              "Team meeting" "2026-02-15T18:00:00" " Weekly " "@Team"
              (mkDatetime 2026 2 15 18 0 0 0) "weekly" More.team
              simple_roundtrip (simple_stored _) eq_refl simple_accepted eq_refl)
    as (w' & Hrun & _ & Hjob & _).
  exists w'. split; [exact Hrun | exact Hjob].
Defined.

(** X24. A store failure is reported to the user, not raised.  When the
    swap fails inside the [create_announcement] that an accepted custom form
    calls, the form logs the exception and replies with the error message;
    the stored collection is the one from before and no job is
    registered. *)
Theorem custom_form_reports_store_failure `{P : Platform} `{F : FrontEnd}
    (env : Env) (interaction : Interaction) (w : World) (anns : list Announcement)
    (announcement_text datetime_input repeating role_name : string)
    (parsed : datetime) (repeating_value : string) (role : Role) (e : exn) :
  stored w anns -> swap_fails env e -> backup_behind_file w ->
  accepted env interaction datetime_input repeating role_name parsed repeating_value role ->
  exists w',
    custom_on_submit env interaction announcement_text datetime_input repeating
                     role_name w
    = (Ok ("❌ Error creating announcement: " +:+ exn_str e), w')
    /\ stored w' anns /\ jobs w' = jobs w
    /\ last (log w')
       = Some (mkLog ERROR "Error creating custom announcement: {}" [] (Some e)).
Proof.
  intros Hs Hswap Hbehind Hacc.
  pose proof (accepted_checks _ _ _ _ _ _ _ _ Hacc) as (Hp & Hfuture & Hrep & Hrole & Hrv).
  destruct (create_raises_on_swap_failure env w anns "custom" announcement_text None
              (isoformat parsed) repeating_value (r_id role) (user_id interaction) None e
              Hs Hswap Hbehind) as (w1 & Hc & Hs1 & Hjobs & _).
  eexists. split; [|split; [|split]].
  - unfold custom_on_submit, try_except. rewrite Hp, Hfuture. unfold bind at 1, lift. cbv beta iota zeta.
    rewrite Hrep, Hrole, <- Hrv. unfold bind at 1. rewrite Hc.
    unfold bind, logger, ret. reflexivity.
  - by apply (stored_json_fs w1).
  - exact Hjobs.
  - cbn [log with_log]. apply last_snoc.
Qed.

Lemma custom_form_reports_store_failure_witness :
  exists w',
    custom_on_submit (P:=Simple.platform) (F:=More.front) Simple.env_swap_fails More.admin_interaction "Team meeting"
      "2026-02-15T18:00:00" " Weekly " "@Team" (Simple.w_with [Simple.practice])
    = (Ok "❌ Error creating announcement: OSError", w')
    /\ stored w' [Simple.practice] /\ jobs w' = ∅.
Proof.
  destruct (custom_form_reports_store_failure (P:=Simple.platform) (F:=More.front)
              Simple.env_swap_fails
              More.admin_interaction (Simple.w_with [Simple.practice]) [Simple.practice]
              "Team meeting" "2026-02-15T18:00:00" " Weekly " "@Team"
              (mkDatetime 2026 2 15 18 0 0 0) "weekly" More.team OSError
              (simple_stored _) simple_swap_fails)
    as (w' & Hrun & Hs & Hjobs & _).
  - intros Hnone. discriminate Hnone.
  - exact simple_accepted.
  - exists w'. split; [exact Hrun|]. split; [exact Hs | exact Hjobs].
Defined.

Lemma filter_other_fresh (anns : list Announcement) (new : Announcement) :
  Forall (fun a => ann_id a <> ann_id new) anns ->
  List.filter (other_id (ann_id new)) (anns ++ [new]) = anns
  /\ List.find (has_id (ann_id new)) (anns ++ [new]) = Some new.
Proof.
  intros Hfresh. split.
  - rewrite List.filter_app, (filter_other_none anns (ann_id new) Hfresh).
    cbn [List.filter]. unfold other_id, has_id. rewrite String.eqb_refl.
    cbn [negb]. apply app_nil_r.
  - induction Hfresh as [|a anns Ha _ IH]; cbn [app List.find].
    + unfold has_id. by rewrite String.eqb_refl.
    + change (has_id (ann_id new) a) with (String.eqb (ann_id a) (ann_id new)).
      by destruct (String.eqb_spec (ann_id a) (ann_id new)).
Qed.

(** X25. From the practice form to the channel.  A one-time practice
    announcement that the form accepts, stored under a fresh id, is
    delivered when its job fires as the mention of the role followed by the
    practice template with the time and the location typed into the form;
    after the firing the stored collection is the one from before the
    form was submitted. *)
Theorem practice_form_to_channel `{P : Platform} `{F : FrontEnd}
    (env env2 : Env) (interaction : Interaction) (w : World) (anns : list Announcement)
    (location practice_time datetime_input repeating role_name : string)
    (parsed : datetime) (role : Role) (ch : Channel) (mention : option string) :
  codec_roundtrip ->
  stored w anns -> faults env = no_faults ->
  Forall (fun a => ann_id a <> uuid4 env) anns ->
  accepted env interaction datetime_input repeating role_name parsed "none" role ->
  fromisoformat (isoformat parsed) = Ok parsed ->
  faults env2 = no_faults ->
  (exists cid, ANNOUNCEMENT_CHANNEL_ID env2 = Ok cid /\ get_channel env2 cid = Some ch) ->
  guild_get_role ch (JInt (r_id role)) = Ok mention ->
  (forall message, channel_send ch message = None) ->
  exists reply w1 w2,
    practice_on_submit env interaction location practice_time datetime_input
                       repeating role_name w = (Ok reply, w1)
    /\ jobs w1 !! uuid4 env = Some (mkJob (DateTrigger parsed) [uuid4 env])
    /\ _execute_announcement env2 (uuid4 env) w1 = (Ok tt, w2)
    /\ sent w2
       = (sent w
          ++ [(channel_id ch,
               match mention with Some m => m | None => "" end
               +:+ nl +:+ nl +:+ "**Practice Announcement**" +:+ nl
               +:+ "**Time:** " +:+ py_format (JStr practice_time) +:+ nl
               +:+ "**Location:** " +:+ py_format (JStr location))])%list
    /\ stored w2 anns.
Proof.
  intros Hrt Hs Hf Hfresh Hacc Hiso Hf2 Hch Hrole Hsend.
  pose proof (accepted_checks _ _ _ _ _ _ _ _ Hacc) as (Hp & Hfuture & Hrep & Hfind & Hrv).
  destruct (create_stored env w anns "practice" "" (Some location) (isoformat parsed)
              "none" (r_id role) (user_id interaction) (Some practice_time) parsed
              Hrt Hs Hf Hiso) as (w1 & Hc & Hs1 & Hjobs & Hsent1).
  set (new := new_announcement env "practice" "" (Some location) (isoformat parsed)
                               "none" (r_id role) (user_id interaction)
                               (Some practice_time)) in *.
  destruct (filter_other_fresh anns new Hfresh) as [Hfilter Hfound].
  assert (Hready : delivery_ready env2 w1 (anns ++ [new]) (uuid4 env) new ch mention).
  { split; [exact Hs1|]. split; [by rewrite Hf2|]. split; [exact Hfound|].
    split; [exact Hch | exact Hrole]. }
  destruct (firing_one_shot_run env2 w1 (anns ++ [new]) (uuid4 env) new ch mention
              Hrt Hf2 Hready (Hsend _) eq_refl) as (w2 & Hrun & Hsent2 & Hs2).
  eexists _, w1, w2. split; [|split; [|split; [exact Hrun|split]]].
  - unfold practice_on_submit, try_except. rewrite Hp, Hfuture. unfold bind at 1, lift. cbv beta iota zeta.
    rewrite Hrep, Hfind, <- Hrv. unfold bind, ret. by rewrite Hc.
  - rewrite Hjobs. unfold scheduled_world. cbn. by simplify_map_eq.
  - rewrite Hsent2, Hsent1. reflexivity.
  - change (uuid4 env) with (ann_id new) in Hs2. by rewrite Hfilter in Hs2.
Qed.

Lemma simple_accepted_once :
  accepted (F:=More.front) Simple.env0 More.admin_interaction "2026-02-15T16:00:00"
           "none" "@everyone" (mkDatetime 2026 2 15 16 0 0 0) "none" More.everyone.
Proof. repeat split; try reflexivity. by left. Qed.

Lemma practice_form_to_channel_witness :
  exists reply w1 w2,
    practice_on_submit (P:=Simple.platform) (F:=More.front) Simple.env0
      More.admin_interaction "Gym A" "7pm-10pm" "2026-02-15T16:00:00" "none" "@everyone"
      (Simple.w_with [Simple.weekly_news]) = (Ok reply, w1)
    /\ _execute_announcement Simple.env0 "id-new" w1 = (Ok tt, w2)
    /\ sent w2
       = [(42, "@team" +:+ nl +:+ nl +:+ "**Practice Announcement**" +:+ nl
               +:+ "**Time:** 7pm-10pm" +:+ nl +:+ "**Location:** Gym A")]
    /\ stored w2 [Simple.weekly_news].
Proof.
  destruct (practice_form_to_channel (P:=Simple.platform) (F:=More.front)
              Simple.env0 Simple.env0 More.admin_interaction
              (Simple.w_with [Simple.weekly_news]) [Simple.weekly_news]
              "Gym A" "7pm-10pm" "2026-02-15T16:00:00" "none" "@everyone"
              (mkDatetime 2026 2 15 16 0 0 0) More.everyone Simple.channel_ok
              (Some "@team") simple_roundtrip (simple_stored _) eq_refl)
    as (reply & w1 & w2 & Hsubmit & _ & Hrun & Hsent & Hs).
  - repeat constructor. discriminate.
  - exact simple_accepted_once.
  - reflexivity.
  - reflexivity.
  - by exists 42.
  - reflexivity.
  - reflexivity.
  - exists reply, w1, w2. split; [exact Hsubmit|]. split; [exact Hrun|].
    split; [exact Hsent | exact Hs].
Defined.

(** ** Deleting, whatever the file holds *)

Ltac known_effects :=
  repeat match goal with
    | H : _load_announcements _ _ = _ |- _ =>
        apply load_preserves in H; destruct H as ((? & ?) & ? & ? & ? & ?)
    | H : _write_announcements _ _ _ = _ |- _ =>
        apply write_preserves in H; destruct H as (? & ? & ?)
    end;
  cbn [fs running jobs log sent with_fs with_running with_jobs with_log with_sent] in *.

(** X26. [delete_announcement] on any file contents, records of any shape
    included: it never delivers a message, and when it returns [False] it
    has changed neither the files nor the job table.  A stored record that
    has no [id], or is not a dict, makes it raise with the world exactly as
    before: nothing is written. *)
Theorem delete_false_changes_nothing `{P : Platform}
    (env : Env) (announcement_id : string) (w : World) :
  (forall r w', delete_announcement env announcement_id w = (r, w') ->
     sent w' = sent w
     /\ (r = Ok false -> fs w' = fs w /\ jobs w' = jobs w))
  /\ (forall items e,
        stored_json w (JList items) -> fault_read (faults env) = None ->
        without_id items announcement_id = Raise e ->
        delete_announcement env announcement_id w = (Raise e, w)).
Proof.
  split.
  - intros r w'.
    unfold delete_announcement, bind, lift, try_except, remove_job, logger, ret.
    repeat (cbv beta iota; split_match); cbv beta iota;
      intros [= <- <-]; known_effects;
      (split; [congruence|]); intros Hr; try discriminate Hr; split; congruence.
  - intros items e Hs Hr Hraise. unfold delete_announcement, bind at 1.
    rewrite (load_stored env w _ Hs Hr).
    unfold bind, lift. cbn [py_len py_iter]. by rewrite Hraise.
Qed.

Lemma delete_false_changes_nothing_witness :
  delete_announcement Simple.env0 "a1" More.w_no_id = (Raise (KeyError "id"), More.w_no_id).
Proof.
  destruct (delete_false_changes_nothing Simple.env0 "a1" More.w_no_id) as [_ Hraise].
  apply (Hraise [to_json Simple.practice; JObj [("text", JStr "no id")]] (KeyError "id")).
  - unfold stored_json, More.w_no_id, Simple.world_of. cbn [fs].
    rewrite lookup_singleton_eq. eexists. split; reflexivity.
  - reflexivity.
  - reflexivity.
Defined.
